(** * uavBuilder: parameter scoring, aircraft weight build-up, mission
      simulation and staged catalog search.

    A shallow embedding of the Python sources [uav_parameters.py],
    [lipo.py], [edf_speed.py], [edf_config.py], [edf_mission.py],
    [power_required.py], [parasitic_drag.py] and [edf_uav_opt_test.py].

    Numbers.  A Python [float] is modelled as a real number: the model
    follows every run in which all intermediate values are finite, and
    it does not model rounding, overflow, [inf] or [nan].  [float('inf')]
    is used by the code as a sentinel ("cannot take off", "candidate
    rejected"); the sentinel is modelled by the type [xreal].

    Exceptions.  Code that can raise returns a [result]; an operation
    that Python refuses (division of a float by zero, [math.log] or
    [math.sqrt] outside their domain, a failed validation, a missing key
    or position) raises here too, with the same exception class.  Where
    an operand is a numpy scalar (everything computed from the cruise
    speed, which [np.clip] makes one), numpy answers a zero divisor or a
    negative base with [inf] or [nan] and a warning instead of raising;
    the real-number model has no such values and raises there as for
    floats, so it raises at least whenever Python does.

    Two further embeddings cover what the real numbers hide.  [NP]
    embeds the design loop of [edf_config.py] on numpy scalars (a real
    number, an infinity or [nan]) with numpy's answers to a zero divisor
    and to a negative base: that [design_from_mission] returns is stated
    there.  [Binary64] embeds [LogScaledParameter] on IEEE 754
    double-precision floats with round-to-nearest arithmetic: how
    [value] rounds is stated there. *)

From Stdlib Require Import Reals Lra Lia List ZArith String Bool SpecFloat.
Import ListNotations.
Open Scope R_scope.

(** ** Exceptions and fallible computations *)

Inductive exn : Set :=
| ValueError
| ZeroDivisionError
| TypeError
| IndexError
| KeyError
| UnboundLocalError
| OverflowError.

Inductive result (A : Type) : Type :=
| Ok (a : A)
| Raise (e : exn).

Arguments Ok {A} a.
Arguments Raise {A} e.

Definition bind {A B : Type} (m : result A) (k : A -> result B) : result B :=
  match m with
  | Ok a => k a
  | Raise e => Raise e
  end.

Notation "x <- m ;; k" := (bind m (fun x => k))
  (at level 61, m at next level, right associativity).

Definition raises {A : Type} (m : result A) : Prop :=
  exists e, m = Raise e.

(** ** Comparisons and partial arithmetic on floats *)

Definition Rltb (x y : R) : bool := if Rlt_dec x y then true else false.
Definition Rleb (x y : R) : bool := if Rle_dec x y then true else false.
Definition Reqb (x y : R) : bool := if Req_dec_T x y then true else false.

Infix "<?" := Rltb (at level 70, no associativity) : R_scope.
Infix "<=?" := Rleb (at level 70, no associativity) : R_scope.
Infix "=?" := Reqb (at level 70, no associativity) : R_scope.

(** [x / y] on Python floats. *)
Definition fdiv (x y : R) : result R :=
  if y =? 0 then Raise ZeroDivisionError else Ok (x / y).

(** [math.log x]. *)
Definition math_log (x : R) : result R :=
  if 0 <? x then Ok (ln x) else Raise ValueError.

(** [math.sqrt x]. *)
Definition math_sqrt (x : R) : result R :=
  if x <? 0 then Raise ValueError else Ok (sqrt x).

(** [x ** y] for a float exponent that is not an integer: a negative base
    gives a complex number, which the arithmetic that follows in this
    program ([math.sqrt], an ordering comparison) refuses with a
    [TypeError]; a zero base with a negative exponent is a
    [ZeroDivisionError]. *)
Definition fpow (x y : R) : result R :=
  if x <? 0 then Raise TypeError
  else if x =? 0 then
         (if y <? 0 then Raise ZeroDivisionError
          else if y =? 0 then Ok 1 else Ok 0)
       else Ok (Rpower x y).

(** [float('inf')] next to the finite floats. *)
Inductive xreal : Set :=
| Fin (r : R)
| Inf.

Definition is_inf (x : xreal) : bool :=
  match x with Inf => true | Fin _ => false end.

(** ** uav_parameters.py *)

Module LogScaledParameter.

Record t : Type := mk
  { name : string;
    unit : string;
    min_val : R;
    max_val : R;
    _percent : R }.

(** The [percent] property. *)
Definition percent (self : t) : R := _percent self.

Definition set_percent (self : t) (new_percent : R) : result t :=
  if negb ((0 <=? new_percent) && (new_percent <=? 100))
  then Raise ValueError
  else Ok (mk (name self) (unit self) (min_val self) (max_val self)
              new_percent).

Definition __init__ (name unit : string) (min_val max_val : R) : result t :=
  if (min_val <=? 0) || (max_val <=? 0) then Raise ValueError
  else if max_val <? min_val then Raise ValueError
  else set_percent (mk name unit min_val max_val 0) 50.

(** The [value] property. *)
Definition value (self : t) : result R :=
  log_min <- math_log (min_val self) ;;
  log_max <- math_log (max_val self) ;;
  let log_val := log_min + (_percent self / 100) * (log_max - log_min) in
  Ok (exp log_val).

Definition set_value (self : t) (new_val : R) : result t :=
  if negb ((min_val self <=? new_val) && (new_val <=? max_val self))
  then Raise ValueError
  else
    log_min <- math_log (min_val self) ;;
    log_max <- math_log (max_val self) ;;
    log_new_val <- math_log new_val ;;
    q <- fdiv (100 * (log_new_val - log_min)) (log_max - log_min) ;;
    Ok (mk (name self) (unit self) (min_val self) (max_val self) q).

Definition score (self : t) (actual_value : R) : result R :=
  let target_min := min_val self in
  let target_max := max_val self in
  if target_min =? target_max then
    if (actual_value <=? 0) || (target_min <=? 0) then Ok 0
    else fdiv (Rmin actual_value target_min) (Rmax actual_value target_min)
  else if actual_value <? target_min then fdiv actual_value target_min
  else if target_max <? actual_value then fdiv target_max actual_value
  else
    let center_value := (target_min + target_max) / 2 in
    let max_distance_from_center := (target_max - target_min) / 2 in
    if max_distance_from_center <=? 0 then Ok 1
    else
      let distance_from_center := Rabs (actual_value - center_value) in
      q <- fdiv distance_from_center max_distance_from_center ;;
      let score := 1 - q in
      Ok (Rmax 0 score).

(** What the constructor and the [percent] setter establish. *)
Definition wf (self : t) : Prop :=
  0 < min_val self /\ min_val self <= max_val self /\
  0 <= _percent self <= 100.

End LogScaledParameter.

Module FixedWingParameters.

Record t : Type := mk
  { name : string;
    takeoff_weight : LogScaledParameter.t;
    cruise_speed : LogScaledParameter.t;
    endurance : LogScaledParameter.t;
    wingspan : LogScaledParameter.t;
    payload_capacity : LogScaledParameter.t }.

Definition __init__ : result t :=
  takeoff_weight <- LogScaledParameter.__init__ "Takeoff Weight" "kg" 5 250 ;;
  cruise_speed <- LogScaledParameter.__init__ "Cruise Speed" "km/h" 30 600 ;;
  endurance <- LogScaledParameter.__init__ "Endurance" "hours" (5 / 60) 10 ;;
  wingspan <- LogScaledParameter.__init__ "Wingspan" "m" 0.3 3 ;;
  payload_capacity <-
    LogScaledParameter.__init__ "Payload Capacity" "kg" 0.2 30 ;;
  Ok (mk "Default" takeoff_weight cruise_speed endurance wingspan
         payload_capacity).

(** The only part of a mission spec that the aircraft model reads is
    the endurance percentage, which its setter keeps in [0, 100]. *)
Definition wf (self : t) : Prop :=
  0 <= LogScaledParameter.percent (endurance self) <= 100.

End FixedWingParameters.

(** ** lipo.py *)

Definition log10 (x : R) : R := ln x / ln 10.

Module Battery.

Record t : Type := mk
  { model_number : string;
    num_batteries : Z;
    weight_kg : R;
    c_rating : R;
    energy_wh : R;
    voltage : R;
    capacity_ah : R;
    max_power_w : R;
    total_energy_j : R }.

Definition __init__ (weight_kg c_rating energy_wh voltage : R)
    (model_number : string) (num_batteries : Z) : t :=
  let weight_kg' := weight_kg * IZR num_batteries in
  let energy_wh' := energy_wh * IZR num_batteries in
  mk model_number num_batteries weight_kg' c_rating energy_wh' voltage
     (if 0 <? voltage then energy_wh' / voltage else 0)
     (energy_wh' * c_rating)
     (energy_wh' * 3600).

Definition _calculate_energy_density (c_rating : R) : R :=
  let BASE_ENERGY_DENSITY_WH_KG := 210 in
  BASE_ENERGY_DENSITY_WH_KG - 25 * log10 (Rmax 1 (c_rating / 10)).

Definition check_power_output (self : t) (required_power_w : R)
  : result unit :=
  if max_power_w self <? required_power_w * 1.2
  then Raise ValueError
  else Ok tt.

Definition from_c_and_weight (c_rating max_weight_kg : R)
    (cell_count num_batteries : Z) : result t :=
  if (c_rating <=? 0) || (max_weight_kg <=? 0) then Raise ValueError
  else
    let voltage := IZR cell_count * 3.7 in
    let energy_density := _calculate_energy_density c_rating in
    w <- fdiv max_weight_kg (IZR num_batteries) ;;
    let energy_wh := w * energy_density in
    Ok (__init__ w c_rating energy_wh voltage "Generic" num_batteries).

End Battery.

(** ** edf_speed.py *)

Definition np_clip (x lo hi : R) : R := Rmin (Rmax x lo) hi.

Definition estimate_modified_cruise_speed (power_w : R)
    (params : FixedWingParameters.t) : R :=
  let EMPIRICAL_A := 0.19815 in
  let EMPIRICAL_B := 0.6246 in
  let clipped_power_w := np_clip power_w 200 20000 in
  let base_speed_kts := EMPIRICAL_A * Rpower clipped_power_w EMPIRICAL_B in
  let size_penalty_factor :=
    1 - 0.10 * log10 (Rmax 1 (clipped_power_w / 1000)) in
  let MIN_SPEED_FACTOR := 0.35 in
  let endurance_percent :=
    LogScaledParameter.percent (FixedWingParameters.endurance params) in
  let speed_factor := 1 - (endurance_percent / 100) * (1 - MIN_SPEED_FACTOR) in
  let final_speed_kts := base_speed_kts * speed_factor * size_penalty_factor in
  final_speed_kts.

(** ** edf_config.py *)

Module EDF.

Record t : Type := mk
  { name : string;
    power_w : R;
    static_thrust_n : R;
    weight_kg : R;
    diameter_m : R;
    design_speed_mps : R }.

Definition __init__ (name : string)
    (power_w static_thrust_n weight_kg diameter_m : R) : t :=
  mk name power_w static_thrust_n weight_kg diameter_m
     (25 + power_w / 150).

(** The name is a formatted label ("8.0kW EDF"); its digits are not
    rendered here.  On a negative power the source goes on, with a
    complex number when the power is a Python float and with [nan] when
    it is a numpy scalar; this model has neither and stops there
    ([NP.EDF.from_power] carries the [nan]). *)
Definition from_power (power_w : R) : result t :=
  let name := "kW EDF"%string in
  p75 <- fpow power_w 0.75 ;;
  let weight_kg := 0.05 + 0.020 * p75 in
  p88 <- fpow power_w 0.88 ;;
  let static_thrust_n := 0.7 * p88 in
  p44 <- fpow power_w 0.44 ;;
  let diameter_m := 0.03 * p44 in
  Ok (__init__ name power_w static_thrust_n weight_kg diameter_m).

Definition get_propulsive_efficiency (self : t) (tas_mps : R) : result R :=
  speed_ratio <- fdiv tas_mps (design_speed_mps self) ;;
  Ok (Rmax 0.1 (0.70 * exp (- ((speed_ratio - 1) ^ 2) / 0.8))).

End EDF.

(** A [rules] dictionary: string keys, float values. *)
Definition rules_t : Type := list (string * R).

Fixpoint getitem (d : rules_t) (key : string) : result R :=
  match d with
  | [] => Raise KeyError
  | (k, v) :: d' => if String.eqb k key then Ok v else getitem d' key
  end.

Module Aircraft.

Record t : Type := mk
  { edf : EDF.t;
    battery : Battery.t;
    params : FixedWingParameters.t;
    airframe_weight_kg : R;
    payload_weight_kg : R;
    mtow_kg : R;
    weight_n : R;
    thrust_to_weight_ratio : R;
    ld_ratio : R;
    cruise_ias_kts : R;
    cruise_ias_mps : R;
    wing_area_m2 : R;
    stall_speed_ias_mps : R;
    vr_ias_mps : R;
    vy_ias_mps : R;
    best_glide_ias_mps : R;
    rate_of_climb_fpm : R;
    cruise_power_percent : R }.

(** [calculate_rate_of_climb] runs inside the constructor, on the
    attributes set so far; they are its arguments here.  Its debug
    printing has no effect on the result. *)
Definition calculate_rate_of_climb (edf : EDF.t)
    (weight_n ld_ratio vy_ias_mps best_glide_ias_mps : R) : result R :=
  eff <- EDF.get_propulsive_efficiency edf vy_ias_mps ;;
  let power_available_climb := EDF.power_w edf * eff in
  d_min_n <- fdiv weight_n ld_ratio ;;
  v_ratio <- (if 0 <? best_glide_ias_mps
              then fdiv vy_ias_mps best_glide_ias_mps else Ok 1) ;;
  inv_ratio <- fdiv 1 v_ratio ;;
  let drag_at_vy := d_min_n * 0.5 * (v_ratio ^ 2 + inv_ratio ^ 2) in
  let power_required_climb := drag_at_vy * vy_ias_mps in
  let excess_power_watts := power_available_climb - power_required_climb in
  q <- fdiv excess_power_watts weight_n ;;
  let rate_of_climb_fpm := Rmax 0 (q * 196.85) in
  Ok rate_of_climb_fpm.

Definition __init__ (edf : EDF.t) (battery : Battery.t)
    (params : FixedWingParameters.t) : result t :=
  _ <- Battery.check_power_output battery (EDF.power_w edf) ;;
  let power_system_weight := EDF.weight_kg edf + Battery.weight_kg battery in
  let airframe_to_power_system_ratio := 0.8 in
  let airframe_weight_kg :=
    0.4 + power_system_weight * airframe_to_power_system_ratio in
  let empty_weight_kg :=
    EDF.weight_kg edf + Battery.weight_kg battery + airframe_weight_kg in
  let payload_weight_kg := 0.20 * (EDF.power_w edf / 100) in
  let mtow_kg := empty_weight_kg + payload_weight_kg in
  let weight_n := mtow_kg * 9.80665 in
  thrust_to_weight_ratio <- fdiv (EDF.static_thrust_n edf) weight_n ;;
  let ld_ratio :=
    7.0 + (LogScaledParameter.percent (FixedWingParameters.endurance params)
           / 100) * 5.0 in
  let cruise_ias_kts :=
    estimate_modified_cruise_speed (EDF.power_w edf) params in
  let cruise_ias_mps := cruise_ias_kts * 0.514444 in
  wing_area_m2 <- fdiv (2 * weight_n) (1.225 * cruise_ias_mps ^ 2 * 0.4) ;;
  q <- fdiv (2 * weight_n) (1.225 * wing_area_m2 * 1.5) ;;
  stall_speed_ias_mps <- math_sqrt q ;;
  let vr_ias_mps := stall_speed_ias_mps * 1.10 in
  let vy_ias_mps := stall_speed_ias_mps * 1.20 in
  let best_glide_ias_mps := stall_speed_ias_mps * 1.31 in
  rate_of_climb_fpm <-
    calculate_rate_of_climb edf weight_n ld_ratio vy_ias_mps
      best_glide_ias_mps ;;
  d_cruise <- fdiv weight_n ld_ratio ;;
  let power_required_aero_cruise := d_cruise * cruise_ias_mps in
  eff <- EDF.get_propulsive_efficiency edf cruise_ias_mps ;;
  power_required_elec_cruise <- fdiv power_required_aero_cruise eff ;;
  r <- fdiv power_required_elec_cruise (EDF.power_w edf) ;;
  let cruise_power_percent := r * 100 in
  Ok (mk edf battery params airframe_weight_kg payload_weight_kg mtow_kg
         weight_n thrust_to_weight_ratio ld_ratio cruise_ias_kts
         cruise_ias_mps wing_area_m2 stall_speed_ias_mps vr_ias_mps
         vy_ias_mps best_glide_ias_mps rate_of_climb_fpm
         cruise_power_percent).

Definition with_virtual_battery (edf : EDF.t)
    (params : FixedWingParameters.t) (c_rating b_m_ratio : R) : result t :=
  let battery_weight_kg := EDF.weight_kg edf * b_m_ratio in
  virtual_battery <- Battery.from_c_and_weight c_rating battery_weight_kg 6 1 ;;
  __init__ edf virtual_battery params.

(** The motor power that one pass of the [for] loop of
    [design_from_mission] asks for, at the current guess. *)
Definition required_motor_power (params : FixedWingParameters.t)
    (rules : rules_t) (cruise_ias_mps propulsive_eff_at_cruise : R)
    (mtow_guess_kg : R) : result R :=
  let ld_ratio :=
    7.0 + (LogScaledParameter.percent (FixedWingParameters.endurance params)
           / 100) * 5.0 in
  d <- fdiv (mtow_guess_kg * 9.80665) ld_ratio ;;
  let power_req_aero := d * cruise_ias_mps in
  power_req_elec <- fdiv power_req_aero propulsive_eff_at_cruise ;;
  target_cruise_power_ratio <- getitem rules "cruise_power_target" ;;
  fdiv power_req_elec (target_cruise_power_ratio / 100).

(** One pass of the body of the loop: the temporary aircraft, whether
    the 1% test passed, and the next guess. *)
Definition design_step (params : FixedWingParameters.t) (rules : rules_t)
    (battery : Battery.t) (cruise_ias_mps propulsive_eff_at_cruise : R)
    (mtow_guess_kg : R) : result (t * bool * R) :=
  required_motor_power_w <-
    required_motor_power params rules cruise_ias_mps
      propulsive_eff_at_cruise mtow_guess_kg ;;
  edf <- EDF.from_power required_motor_power_w ;;
  temp_aircraft <- __init__ edf battery params ;;
  let new_mtow_kg := mtow_kg temp_aircraft in
  rel <- fdiv (Rabs (new_mtow_kg - mtow_guess_kg)) mtow_guess_kg ;;
  Ok (temp_aircraft, rel <? 0.01, mtow_guess_kg * 0.5 + new_mtow_kg * 0.5).

(** What a run of the loop hands back: the aircraft returned, the number
    of passes made, and the guess in force during the last pass. *)
Record design : Type := mk_design
  { aircraft : t;
    passes : nat;
    last_guess_kg : R }.

(** [for i in range(n)].  Falling out of an empty range would read
    [temp_aircraft] before its assignment. *)
Fixpoint design_loop (n : nat) (params : FixedWingParameters.t)
    (rules : rules_t) (battery : Battery.t)
    (cruise_ias_mps propulsive_eff_at_cruise mtow_guess_kg : R)
  : result design :=
  match n with
  | O => Raise UnboundLocalError
  | S m =>
      s <- design_step params rules battery cruise_ias_mps
             propulsive_eff_at_cruise mtow_guess_kg ;;
      let '(temp_aircraft, converged, next_guess) := s in
      if converged then Ok (mk_design temp_aircraft 1 mtow_guess_kg)
      else
        match m with
        | O => Ok (mk_design temp_aircraft 1 mtow_guess_kg)
        | S _ =>
            r <- design_loop m params rules battery cruise_ias_mps
                   propulsive_eff_at_cruise next_guess ;;
            Ok (mk_design (aircraft r) (S (passes r)) (last_guess_kg r))
        end
  end.

(** The part of [design_from_mission] before the loop: the fixed cruise
    speed (m/s) and the propulsive efficiency estimated at it. *)
Definition design_setup (params : FixedWingParameters.t)
    (rules : rules_t) (initial_mtow_guess_kg : R) : result (R * R) :=
  target <- getitem rules "cruise_power_target" ;;
  let representative_notional_power :=
    initial_mtow_guess_kg * (if 80 <? target then 220 else 150) in
  let cruise_ias_kts :=
    estimate_modified_cruise_speed representative_notional_power params in
  let cruise_ias_mps := cruise_ias_kts * 0.514444 in
  notional_edf <- EDF.from_power representative_notional_power ;;
  propulsive_eff_at_cruise <-
    EDF.get_propulsive_efficiency notional_edf cruise_ias_mps ;;
  Ok (cruise_ias_mps, propulsive_eff_at_cruise).

Definition design_from_mission_run (params : FixedWingParameters.t)
    (rules : rules_t) (initial_mtow_guess_kg : R) (battery : Battery.t)
  : result design :=
  let mtow_guess_kg := initial_mtow_guess_kg in
  s <- design_setup params rules initial_mtow_guess_kg ;;
  design_loop 15 params rules battery (fst s) (snd s) mtow_guess_kg.

Definition design_from_mission (params : FixedWingParameters.t)
    (rules : rules_t) (initial_mtow_guess_kg : R) (battery : Battery.t)
  : result t :=
  r <- design_from_mission_run params rules initial_mtow_guess_kg
         battery ;;
  Ok (aircraft r).

(** The battery supplies every propulsor that the next [n] passes size,
    starting from a guess: it passes the 1.2 margin on the power of this
    pass, and, when this pass does not end the loop, of the later ones. *)
Fixpoint supplies (n : nat) (params : FixedWingParameters.t)
    (rules : rules_t) (battery : Battery.t)
    (cruise_ias_mps propulsive_eff_at_cruise mtow_guess_kg : R) : Prop :=
  match n with
  | O => True
  | S m =>
      (forall P,
         required_motor_power params rules cruise_ias_mps
           propulsive_eff_at_cruise mtow_guess_kg = Ok P ->
         P * 1.2 <= Battery.max_power_w battery) /\
      (forall a next_guess,
         design_step params rules battery cruise_ias_mps
           propulsive_eff_at_cruise mtow_guess_kg
         = Ok (a, false, next_guess) ->
         supplies m params rules battery cruise_ias_mps
           propulsive_eff_at_cruise next_guess)
  end.

End Aircraft.

(** ** edf_mission.py *)

Definition G : R := 9.80665.
Definition RHO_SL_KGM3 : R := 1.225.

(** [l[-1]] *)
Definition last_item (l : list R) : result R :=
  match l with
  | [] => Raise IndexError
  | _ :: _ => Ok (last l 0)
  end.

(** [max(l)] *)
Definition list_max (l : list R) : result R :=
  match l with
  | [] => Raise ValueError
  | x :: xs => Ok (fold_left Rmax xs x)
  end.

(** The ISA density block, which the simulation repeats for the climb,
    the cruise and the descent. *)
Definition isa_density (alt_m : R) : result R :=
  let temp_k := 288.15 - 0.0065 * alt_m in
  p <- fpow (1 - 0.0065 * alt_m / 288.15) 5.256 ;;
  let pressure_pa := 101325 * p in
  fdiv pressure_pa (287.05 * temp_k).

Module FlightPath.

Record t : Type := mk
  { time_s : list R;
    dist_m : list R;
    alt_ft : list R;
    ias_kts : list R;
    battery_pct : list R;
    climb_rate_fpm : R;
    cruise_power_pct : R;
    total_time_min : R;
    total_distance_km : R;
    max_altitude_ft : R }.

Definition __init__ : t :=
  mk [0] [0] [1] [0] [100] 0 0 0 0 0.

Definition record_step (self : t) (dt dist_step alt_step ias battery_drain : R)
  : result t :=
  t_last <- last_item (time_s self) ;;
  d_last <- last_item (dist_m self) ;;
  a_last <- last_item (alt_ft self) ;;
  b_last <- last_item (battery_pct self) ;;
  Ok (mk (time_s self ++ [t_last + dt])
         (dist_m self ++ [d_last + dist_step])
         (alt_ft self ++ [a_last + alt_step])
         (ias_kts self ++ [ias])
         (battery_pct self ++ [b_last - battery_drain])
         (climb_rate_fpm self) (cruise_power_pct self)
         (total_time_min self) (total_distance_km self)
         (max_altitude_ft self)).

Definition set_climb_rate_fpm (self : t) (v : R) : t :=
  mk (time_s self) (dist_m self) (alt_ft self) (ias_kts self)
     (battery_pct self) v (cruise_power_pct self) (total_time_min self)
     (total_distance_km self) (max_altitude_ft self).

Definition set_cruise_power_pct (self : t) (v : R) : t :=
  mk (time_s self) (dist_m self) (alt_ft self) (ias_kts self)
     (battery_pct self) (climb_rate_fpm self) v (total_time_min self)
     (total_distance_km self) (max_altitude_ft self).

Definition set_totals (self : t) (distance_km time_min max_alt : R) : t :=
  mk (time_s self) (dist_m self) (alt_ft self) (ias_kts self)
     (battery_pct self) (climb_rate_fpm self) (cruise_power_pct self)
     time_min distance_km max_alt.

End FlightPath.

(** The net force of [calculate_takeoff_distance]: static thrust minus
    the drag at 70% of the rotation speed minus the rolling friction. *)
Definition net_force (aircraft : Aircraft.t) (mu : R) : result R :=
  let weight_n := Aircraft.weight_n aircraft in
  let thrust := EDF.static_thrust_n (Aircraft.edf aircraft) in
  let v_r_mps := Aircraft.vr_ias_mps aircraft in
  let avg_velocity := v_r_mps * 0.7 in
  q <- fdiv (Aircraft.wing_area_m2 aircraft) (Aircraft.ld_ratio aircraft) ;;
  let drag_at_70_percent_vr := 0.5 * RHO_SL_KGM3 * (avg_velocity ^ 2) * q in
  let rolling_friction := mu * weight_n in
  Ok (thrust - drag_at_70_percent_vr - rolling_friction).

(** A ground roll distance and time, or the pair
    [(float('inf'), float('inf'))] when the net force is not positive. *)
Definition calculate_takeoff_distance (aircraft : Aircraft.t) (mu : R)
  : result (xreal * xreal) :=
  let v_r_mps := Aircraft.vr_ias_mps aircraft in
  net_force <- net_force aircraft mu ;;
  if net_force <=? 0 then Ok (Inf, Inf)
  else
    acceleration <- fdiv net_force (Aircraft.mtow_kg aircraft) ;;
    distance_m <- fdiv (v_r_mps ^ 2) (2 * acceleration) ;;
    time_s <- fdiv v_r_mps acceleration ;;
    Ok (Fin distance_m, Fin time_s).

(** One pass of the body of the climb loop; [None] is its [break]. *)
Definition climb_step (aircraft : Aircraft.t) (weight_n total_energy_j : R)
    (path : FlightPath.t) : result (option FlightPath.t) :=
  let climb_ias_mps := Aircraft.vy_ias_mps aircraft in
  let alt_step_ft := 250.0 in
  a_last <- last_item (FlightPath.alt_ft path) ;;
  let current_alt_m := a_last * 0.3048 in
  rho <- isa_density current_alt_m ;;
  r1 <- fdiv RHO_SL_KGM3 rho ;;
  s1 <- math_sqrt r1 ;;
  let tas_mps := climb_ias_mps * s1 in
  d_min_n <- fdiv weight_n (Aircraft.ld_ratio aircraft) ;;
  r2 <- fdiv RHO_SL_KGM3 rho ;;
  s2 <- math_sqrt r2 ;;
  v_ratio <- fdiv tas_mps (Aircraft.best_glide_ias_mps aircraft * s2) ;;
  inv_ratio <- fdiv 1 v_ratio ;;
  let drag_at_vy := d_min_n * 0.5 * (v_ratio ^ 2 + inv_ratio ^ 2) in
  let power_required_drag := drag_at_vy * tas_mps in
  let density_ratio := rho / RHO_SL_KGM3 in
  let power_available_elec :=
    EDF.power_w (Aircraft.edf aircraft) * density_ratio in
  eff <- EDF.get_propulsive_efficiency (Aircraft.edf aircraft) tas_mps ;;
  let power_available_prop := power_available_elec * eff in
  let excess_power_w := power_available_prop - power_required_drag in
  if excess_power_w <=? 0 then Ok None
  else
    roc_mps <- fdiv excess_power_w weight_n ;;
    let path :=
      if FlightPath.climb_rate_fpm path =? 0
      then FlightPath.set_climb_rate_fpm path (roc_mps * 196.85)
      else path in
    time_to_climb_s <- fdiv (alt_step_ft * 0.3048) roc_mps ;;
    let dist_step_m := tas_mps * time_to_climb_s in
    e <- fdiv (power_available_elec * time_to_climb_s) total_energy_j ;;
    let energy_drain_pct := e * 100 in
    path' <- FlightPath.record_step path time_to_climb_s dist_step_m
               alt_step_ft (climb_ias_mps * 1.94384) energy_drain_pct ;;
    Ok (Some path').

(** The climb [while] loop, with a bound on the number of passes; [None]
    when the bound is reached before the loop ends. *)
Fixpoint climb_loop (fuel : nat) (aircraft : Aircraft.t)
    (weight_n total_energy_j : R) (path : FlightPath.t)
  : result (option FlightPath.t) :=
  b_last <- last_item (FlightPath.battery_pct path) ;;
  if 75.0 <? b_last then
    a_last <- last_item (FlightPath.alt_ft path) ;;
    if a_last <? 45000 then
      match fuel with
      | O => Ok None
      | S fuel' =>
          s <- climb_step aircraft weight_n total_energy_j path ;;
          match s with
          | None => Ok (Some path)
          | Some path' =>
              climb_loop fuel' aircraft weight_n total_energy_j path'
          end
      end
    else Ok (Some path)
  else Ok (Some path).

(** Phase 3: cruise until 10% of the battery remains. *)
Definition cruise_phase (aircraft : Aircraft.t) (weight_n total_energy_j : R)
    (path : FlightPath.t) : result FlightPath.t :=
  b_last <- last_item (FlightPath.battery_pct path) ;;
  let usable_cruise_energy_j := ((b_last - 10.0) / 100.0) * total_energy_j in
  if 0 <? usable_cruise_energy_j then
    a_last <- last_item (FlightPath.alt_ft path) ;;
    let cruise_alt_m := a_last * 0.3048 in
    rho <- isa_density cruise_alt_m ;;
    s <- math_sqrt (rho / RHO_SL_KGM3) ;;
    cruise_tas_mps <- fdiv (Aircraft.cruise_ias_mps aircraft) s ;;
    thrust_req_cruise <- fdiv weight_n (Aircraft.ld_ratio aircraft) ;;
    let power_req_prop_cruise := thrust_req_cruise * cruise_tas_mps in
    eff <- EDF.get_propulsive_efficiency (Aircraft.edf aircraft)
             cruise_tas_mps ;;
    power_req_elec_cruise <- fdiv power_req_prop_cruise eff ;;
    r <- fdiv power_req_elec_cruise (EDF.power_w (Aircraft.edf aircraft)) ;;
    let path := FlightPath.set_cruise_power_pct path (r * 100) in
    if 0 <? power_req_elec_cruise then
      cruise_time_s <- fdiv usable_cruise_energy_j power_req_elec_cruise ;;
      let dist_step_m := cruise_tas_mps * cruise_time_s in
      b_last' <- last_item (FlightPath.battery_pct path) ;;
      let battery_drain_pct := b_last' - 10.0 in
      FlightPath.record_step path cruise_time_s dist_step_m 0
        (Aircraft.cruise_ias_kts aircraft) battery_drain_pct
    else Ok path
  else Ok path.

(** Phase 4: descent at the best glide speed, and the totals. *)
Definition descent_phase (aircraft : Aircraft.t) (path : FlightPath.t)
  : result FlightPath.t :=
  let descent_ias_mps := Aircraft.best_glide_ias_mps aircraft in
  descent_alt_ft <- last_item (FlightPath.alt_ft path) ;;
  inv_ld <- fdiv 1 (Aircraft.ld_ratio aircraft) ;;
  let glide_angle_rad := atan inv_ld in
  descent_dist_m <- fdiv (descent_alt_ft * 0.3048) (tan glide_angle_rad) ;;
  let avg_alt_m := (descent_alt_ft / 2) * 0.3048 in
  rho <- isa_density avg_alt_m ;;
  r <- fdiv RHO_SL_KGM3 rho ;;
  s <- math_sqrt r ;;
  let avg_tas_mps := descent_ias_mps * s in
  let sink_rate_mps := avg_tas_mps * sin glide_angle_rad in
  descent_time_s <- (if 0 <? sink_rate_mps
                     then fdiv (descent_alt_ft * 0.3048) sink_rate_mps
                     else Ok 0) ;;
  path <- FlightPath.record_step path descent_time_s descent_dist_m
            (- descent_alt_ft) (descent_ias_mps * 1.94384) 0 ;;
  d_last <- last_item (FlightPath.dist_m path) ;;
  t_last <- last_item (FlightPath.time_s path) ;;
  m <- list_max (FlightPath.alt_ft path) ;;
  Ok (FlightPath.set_totals path (d_last / 1000) (t_last / 60) m).

(** [fuel] bounds the passes of the climb loop; [None] when it does not
    suffice.  [calculate_takeoff_distance] returns two infinities or two
    finite numbers; the mixed case is given an arbitrary outcome. *)
Definition run_mission_simulation (fuel : nat) (aircraft : Aircraft.t)
  : result (option FlightPath.t) :=
  let path := FlightPath.__init__ in
  let weight_n := Aircraft.mtow_kg aircraft * G in
  let total_energy_j := Battery.total_energy_j (Aircraft.battery aircraft) in
  takeoff <- calculate_takeoff_distance aircraft 0.04 ;;
  match takeoff with
  | (Inf, _) => Ok (Some path)
  | (Fin takeoff_dist_m, Inf) => Raise TypeError
  | (Fin takeoff_dist_m, Fin takeoff_time_s) =>
      e <- fdiv (EDF.power_w (Aircraft.edf aircraft) * takeoff_time_s)
             total_energy_j ;;
      let takeoff_energy_drain_pct := e * 100 in
      path <- FlightPath.record_step path takeoff_time_s takeoff_dist_m 0
                (Aircraft.vr_ias_mps aircraft * 1.94384)
                takeoff_energy_drain_pct ;;
      climbed <- climb_loop fuel aircraft weight_n total_energy_j path ;;
      match climbed with
      | None => Ok None
      | Some path =>
          path <- cruise_phase aircraft weight_n total_energy_j path ;;
          path <- descent_phase aircraft path ;;
          Ok (Some path)
      end
  end.

(** ** power_required.py and parasitic_drag.py *)

Definition calculate_parasitic_drag_power
    (velocity_ms wing_area_m2 zero_lift_drag_coefficient density_air_kgm3 : R)
  : R :=
  let drag_force_N :=
    0.5 * density_air_kgm3 * (velocity_ms ^ 2) * wing_area_m2
    * zero_lift_drag_coefficient in
  let power_W := drag_force_N * velocity_ms in
  power_W.

Definition calculate_flight_power_units
    (mass_plane_kg wing_span_m wing_area_m2 velocity_flight_ms
       zero_lift_drag_coefficient : R) : result R :=
  let gravity_ms2 := 9.81 in
  let density_air_kgm3 := 1.225 in
  let lift_force_N := mass_plane_kg * gravity_ms2 in
  aspect_ratio <- fdiv (wing_span_m ^ 2) wing_area_m2 ;;
  cl <- fdiv lift_force_N
          (0.5 * density_air_kgm3 * (velocity_flight_ms ^ 2) * wing_area_m2) ;;
  induced_drag_coefficient <- fdiv (cl ^ 2) (3.14159 * aspect_ratio) ;;
  let induced_drag_force_N :=
    induced_drag_coefficient * 0.5 * density_air_kgm3
    * (velocity_flight_ms ^ 2) * wing_area_m2 in
  let induced_power_W := induced_drag_force_N * velocity_flight_ms in
  let parasitic_power_W :=
    calculate_parasitic_drag_power velocity_flight_ms wing_area_m2
      zero_lift_drag_coefficient density_air_kgm3 in
  let total_power_W := induced_power_W + parasitic_power_W in
  Ok total_power_W.

(** ** edf_uav_opt_test.py *)

(** [round(x)] to an integer: to the nearest, a tie to the even one. *)
Definition py_round (x : R) : Z :=
  let f := Int_part x in
  let d := x - IZR f in
  if d <? 1 / 2 then f
  else if 1 / 2 <? d then (f + 1)%Z
  else if Z.even f then f else (f + 1)%Z.

(** A catalog row (a pandas Series): column label to number. *)
Definition row : Type := list (string * R).

(** [row.get(key, default)] *)
Fixpoint row_get (r : row) (key : string) (default : R) : R :=
  match r with
  | [] => default
  | (k, v) :: r' => if String.eqb k key then v else row_get r' key default
  end.

(** A catalog (a pandas DataFrame): its rows in order. *)
Definition DataFrame : Type := list row.

(** [df.iloc[i]]: positions count from the end when negative, as for a
    Python list; any other position outside the frame is an
    [IndexError]. *)
Definition iloc (df : DataFrame) (i : Z) : result row :=
  let n := Z.of_nat (List.length df) in
  let pos := if (i <? 0)%Z then (n + i)%Z else i in
  if ((pos <? 0) || (n <=? pos))%Z then Raise IndexError
  else match nth_error df (Z.to_nat pos) with
       | Some r => Ok r
       | None => Raise IndexError
       end.

(** [l[i]] on the parameter vector handed over by the optimizer. *)
Definition param_item (l : list R) (i : nat) : result R :=
  match nth_error l i with
  | Some x => Ok x
  | None => Raise IndexError
  end.

(** [{0: 1, 1: 2, 2: 4}[k]] *)
Definition count_map (k : Z) : result Z :=
  if (k =? 0)%Z then Ok 1%Z
  else if (k =? 1)%Z then Ok 2%Z
  else if (k =? 2)%Z then Ok 4%Z
  else Raise KeyError.

(** The module-level catalogs. *)
Record catalogs : Type := mk_catalogs
  { edf_summary : DataFrame;
    battery_summary : DataFrame }.

(** A target variant, through what the parsing helpers return on its
    attribute strings: [convert_weight_to_kg] gives a number or [None],
    and it or [float] may raise on a malformed number. *)
Record UAVVariant : Type := mk_variant
  { Payload_Capacity_kg : result (option R);
    Range_km : result R;
    Takeoff_Weight_kg : result (option R) }.

(** Arithmetic on the result of [convert_weight_to_kg]: [None] is not a
    number. *)
Definition as_number (v : option R) : result R :=
  match v with
  | Some x => Ok x
  | None => Raise TypeError
  end.

Record edf_score_details : Type := mk_edf_details
  { edf_index : Z;
    num_engines : Z;
    total_thrust_n : R;
    total_power_w : R;
    estimated_mtow_kg : R;
    edf_fitness : R;
    estimated_cruise_speed_kmh : option R }.

Record battery_score_details : Type := mk_battery_details
  { battery_index : Z;
    num_batteries : Z;
    range_km : R;
    endurance_h : R;
    battery_weight_kg : R;
    power_required_w : R;
    battery_fitness : R }.

(** [try: ... except IndexError: ... except Exception: ...] where both
    handlers return the same value. *)
Definition try_except {A : Type} (body : result A) (handler : A) : A :=
  match body with
  | Ok a => a
  | Raise _ => handler
  end.

Definition edf_fitness_body (cat : catalogs) (optimization_params : list R)
    (target_variant : UAVVariant) : result (xreal * option edf_score_details) :=
  p0 <- param_item optimization_params 0 ;;
  let edf_index := py_round p0 in
  p1 <- param_item optimization_params 1 ;;
  num_engines <- count_map (py_round p1) ;;
  selected_edf <- iloc (edf_summary cat) edf_index ;;
  let total_thrust_n :=
    row_get selected_edf "Thrust (N)" 0 * IZR num_engines in
  let total_power_w := row_get selected_edf "Power (W)" 0 * IZR num_engines in
  let propulsion_weight_kg :=
    (row_get selected_edf "Weight_g" 0 / 1000) * IZR num_engines in
  let estimated_battery_weight_kg :=
    row_get selected_edf "Estimated Battery Weight (kg)" 0 * IZR num_engines in
  target_payload_kg <- Payload_Capacity_kg target_variant ;;
  target_range_km <- Range_km target_variant ;;
  target_takeoff_weight <- Takeoff_Weight_kg target_variant ;;
  let estimated_mtow_kg :=
    row_get selected_edf "Estimated MTOW (kg)" 0 * IZR num_engines in
  target_takeoff_weight_kg <- as_number target_takeoff_weight ;;
  thrust_diff <-
    fdiv (Rabs (total_thrust_n - target_takeoff_weight_kg * 9.81 * 0.5))
      (target_takeoff_weight_kg * 9.81 * 0.5) ;;
  weight_diff <-
    fdiv (Rabs (estimated_mtow_kg - target_takeoff_weight_kg))
      target_takeoff_weight_kg ;;
  twr <- (if 0 <? estimated_mtow_kg
          then fdiv total_thrust_n (estimated_mtow_kg * 9.81) else Ok 0) ;;
  let target_twr := 0.5 in
  let twr_error := Rabs (twr - target_twr) / target_twr in
  let power_penalty := total_power_w / 10000 in
  let fitness := thrust_diff + weight_diff + twr_error + power_penalty in
  let score_details :=
    mk_edf_details edf_index num_engines total_thrust_n total_power_w
      estimated_mtow_kg fitness None in
  Ok (Fin fitness, Some score_details).

(** The catalogs go in and come out: the function has them as its
    ambient state. *)
Definition edf_fitness_function (cat : catalogs) (optimization_params : list R)
    (target_variant : UAVVariant)
  : (xreal * option edf_score_details) * catalogs :=
  (try_except (edf_fitness_body cat optimization_params target_variant)
     (Inf, None),
   cat).

(** Catalog cells are finite numbers here, so the [pd.isna] test on the
    voltage is never met and only its two zero tests remain. *)
Definition battery_fitness_body (cat : catalogs) (optimization_params : list R)
    (best_edf_config : edf_score_details) (target_variant : UAVVariant)
    (uav_geometry : rules_t)
  : result (xreal * option battery_score_details) :=
  p0 <- param_item optimization_params 0 ;;
  let battery_index := py_round p0 in
  p1 <- param_item optimization_params 1 ;;
  num_batteries <- count_map (py_round p1) ;;
  selected_battery <- iloc (battery_summary cat) battery_index ;;
  let edf_index := edf_index best_edf_config in
  let num_engines := num_engines best_edf_config in
  selected_edf <- iloc (edf_summary cat) edf_index ;;
  let estimated_battery_weight_from_edf :=
    row_get selected_edf "Estimated Battery Weight (kg)" 0 * IZR num_engines in
  let uav_weight_without_battery :=
    estimated_mtow_kg best_edf_config - estimated_battery_weight_from_edf in
  let battery_weight_kg :=
    (row_get selected_battery "weight_g" 0 / 1000) * IZR num_batteries in
  let new_mtow := uav_weight_without_battery + battery_weight_kg in
  let cruise_speed_ms :=
    match estimated_cruise_speed_kmh best_edf_config with
    | Some v => v
    | None => 90
    end * 1000 / 3600 in
  wing_span_m <- getitem uav_geometry "wing_span_m" ;;
  wing_area_m2 <- getitem uav_geometry "wing_area_m2" ;;
  cd0 <- getitem uav_geometry "cd0" ;;
  power_required_w <-
    calculate_flight_power_units new_mtow wing_span_m wing_area_m2
      cruise_speed_ms cd0 ;;
  let battery_capacity_ah :=
    row_get selected_battery "capacity_Ah" 0 * IZR num_batteries in
  let battery_voltage := row_get selected_battery "nominalV" 0 in
  if (battery_voltage =? 0) || (power_required_w =? 0) then Ok (Inf, None)
  else
    let battery_energy_wh := battery_capacity_ah * battery_voltage in
    endurance_h <- (if 0 <? power_required_w
                    then fdiv battery_energy_wh power_required_w else Ok 0) ;;
    let range_km := (cruise_speed_ms * 3600 / 1000) * endurance_h in
    target_range_km <- Range_km target_variant ;;
    target_takeoff_weight <- Takeoff_Weight_kg target_variant ;;
    let min_endurance_h := 10 / 60 in
    let endurance_penalty :=
      Rmax 0 ((min_endurance_h - endurance_h) / min_endurance_h * 10) in
    range_score <- (if 0 <? target_range_km
                    then r <- fdiv (target_range_km - range_km)
                                target_range_km ;;
                         Ok (Rmax 0 r)
                    else Ok 0) ;;
    target_takeoff_weight_kg <- as_number target_takeoff_weight ;;
    weight_score <- (if 0 <? target_takeoff_weight_kg
                     then r <- fdiv (new_mtow - target_takeoff_weight_kg)
                                 target_takeoff_weight_kg ;;
                          Ok (Rmax 0 r)
                     else Ok 0) ;;
    let fitness := endurance_penalty + range_score + weight_score in
    let score_details :=
      mk_battery_details battery_index num_batteries range_km endurance_h
        battery_weight_kg power_required_w fitness in
    Ok (Fin fitness, Some score_details).

Definition battery_fitness_function (cat : catalogs)
    (optimization_params : list R) (best_edf_config : edf_score_details)
    (target_variant : UAVVariant) (uav_geometry : rules_t)
  : (xreal * option battery_score_details) * catalogs :=
  (try_except
     (battery_fitness_body cat optimization_params best_edf_config
        target_variant uav_geometry)
     (Inf, None),
   cat).

(** The positions that [iloc] rejects in a frame. *)
Definition out_of_frame (df : DataFrame) (i : Z) : Prop :=
  (i < - Z.of_nat (List.length df))%Z \/ (Z.of_nat (List.length df) <= i)%Z.

(** Sequences of samples that never go down, or never go up, from one
    sample to the next. *)
Fixpoint nondecreasing (l : list R) : Prop :=
  match l with
  | x :: (y :: _) as t => x <= y /\ nondecreasing t
  | _ => True
  end.

Fixpoint nonincreasing (l : list R) : Prop :=
  match l with
  | x :: (y :: _) as t => y <= x /\ nonincreasing t
  | _ => True
  end.

(** The invariant of a path under construction: no sequence is empty,
    times and distances never go down, the battery never goes up. *)
Definition monotone_path (path : FlightPath.t) : Prop :=
  FlightPath.time_s path <> [] /\
  FlightPath.dist_m path <> [] /\
  FlightPath.alt_ft path <> [] /\
  FlightPath.battery_pct path <> [] /\
  nondecreasing (FlightPath.time_s path) /\
  nondecreasing (FlightPath.dist_m path) /\
  nonincreasing (FlightPath.battery_pct path).

(** What the simulation needs of an aircraft to record a flight whose
    samples go forward: positive power, energy, mass and speeds, and an
    L/D between 7 and 12. *)
Definition flyable (a : Aircraft.t) : Prop :=
  0 < EDF.power_w (Aircraft.edf a) /\
  0 < EDF.design_speed_mps (Aircraft.edf a) /\
  0 < Battery.total_energy_j (Aircraft.battery a) /\
  0 < Aircraft.mtow_kg a /\
  7 <= Aircraft.ld_ratio a <= 12 /\
  0 < Aircraft.cruise_ias_mps a /\
  0 < Aircraft.stall_speed_ias_mps a /\
  Aircraft.vr_ias_mps a = Aircraft.stall_speed_ias_mps a * 1.10 /\
  Aircraft.vy_ias_mps a = Aircraft.stall_speed_ias_mps a * 1.20 /\
  Aircraft.best_glide_ias_mps a = Aircraft.stall_speed_ias_mps a * 1.31.

(** ** Sample components

    The default mission spec, as [FixedWingParameters()] builds it, an
    8 kW EDF, and battery packs built by [Battery(...)]. *)

Definition default_params : FixedWingParameters.t :=
  FixedWingParameters.mk "Default"
    (LogScaledParameter.mk "Takeoff Weight" "kg" 5 250 50)
    (LogScaledParameter.mk "Cruise Speed" "km/h" 30 600 50)
    (LogScaledParameter.mk "Endurance" "hours" (5 / 60) 10 50)
    (LogScaledParameter.mk "Wingspan" "m" 0.3 3 50)
    (LogScaledParameter.mk "Payload Capacity" "kg" 0.2 30 50).

(** The default spec with the endurance percentage raised to 90. *)
Definition long_endurance_params : FixedWingParameters.t :=
  FixedWingParameters.mk "Default"
    (LogScaledParameter.mk "Takeoff Weight" "kg" 5 250 50)
    (LogScaledParameter.mk "Cruise Speed" "km/h" 30 600 50)
    (LogScaledParameter.mk "Endurance" "hours" (5 / 60) 10 90)
    (LogScaledParameter.mk "Wingspan" "m" 0.3 3 50)
    (LogScaledParameter.mk "Payload Capacity" "kg" 0.2 30 50).

Definition edf_8kw : EDF.t := EDF.__init__ "8.0kW EDF" 8000 1900 17 0.25.

Definition edf_100w : EDF.t := EDF.__init__ "0.1kW EDF" 100 10 0.5 0.1.

Definition battery_5kg_30c : Battery.t :=
  Battery.__init__ 5 30 1000 22.2 "Generic" 1.

(** An EDF that delivers no static thrust. *)
Definition edf_no_thrust : EDF.t := EDF.__init__ "0.1kW EDF" 100 0 0.5 0.1.

(** A one-row EDF catalog, a battery catalog, and a 10 kg target. *)
Definition sample_catalogs : catalogs :=
  mk_catalogs
    [[("Thrust (N)"%string, 49.05); ("Power (W)"%string, 1000);
      ("Estimated MTOW (kg)"%string, 10)]]
    [[("weight_g"%string, 800); ("capacity_Ah"%string, 5);
      ("nominalV"%string, 22.2)]].

Definition sample_variant : UAVVariant :=
  mk_variant (Ok (Some 2)) (Ok 30) (Ok (Some 10)).


Definition rules_70 : rules_t := [("cruise_power_target"%string, 70)].

(** A pack that stores no energy. *)
Definition battery_empty : Battery.t :=
  Battery.__init__ 5 30 0 22.2 "Generic" 1.

(** A pack whose weight is entered as -10 kg. *)
Definition battery_negative_weight : Battery.t :=
  Battery.__init__ (-10) 30 1000 22.2 "Generic" 1.

(** The pack of very large energy with its weight entered as -10 kg. *)
Definition battery_unlimited_negative_weight : Battery.t :=
  Battery.__init__ (-10) 30 1e49 22.2 "Generic" 1.

(** ** edf_fitness.py: set_range *)

(** [set_range] assigns the two bounds directly, past the checks of the
    constructor. *)
Definition set_range (param : LogScaledParameter.t) (min_val max_val : R)
  : LogScaledParameter.t :=
  LogScaledParameter.mk (LogScaledParameter.name param)
    (LogScaledParameter.unit param) min_val max_val
    (LogScaledParameter._percent param).

(** ** optimizer_utils.py: propeller performance and score *)

Record performance : Type := mk_performance
  { calculated_thrust_N : R;
    advance_ratio_J : R;
    thrust_coefficient_Ct : R;
    tip_speed_mps : R;
    tip_speed_mach : R;
    air_speed_mps : R }.

Definition calculate_performance (engine_rpm diameter_inches pitch_inches : R)
    (number_of_blades : Z) (speed_mps : R) : result performance :=
  if (engine_rpm <=? 0) || (diameter_inches <=? 0) || (pitch_inches <=? 0)
  then Raise ValueError
  else
    let AIR_DENSITY_KG_M3 := 1.225 in
    let SPEED_OF_SOUND_MPS := 343.0 in
    let prop_diameter_m := diameter_inches * 0.0254 in
    let prop_pitch_m := pitch_inches * 0.0254 in
    let rpm_sec := engine_rpm / 60.0 in
    advance_ratio <- (if 0 <? rpm_sec
                      then fdiv speed_mps (rpm_sec * prop_diameter_m)
                      else Ok 0) ;;
    let CT_STATIC := 0.12 in
    let J_ZERO_THRUST := 0.8 in
    let thrust_coeff :=
      Rmax 0 (CT_STATIC - (CT_STATIC / J_ZERO_THRUST) * advance_ratio) in
    let blade_factor := 1 + (IZR number_of_blades - 2) * 0.2 in
    let calculated_thrust_N :=
      thrust_coeff * AIR_DENSITY_KG_M3 * (rpm_sec ^ 2) * (prop_diameter_m ^ 4)
      * blade_factor in
    let tip_speed_mps := PI * prop_diameter_m * rpm_sec in
    let mach_tip := tip_speed_mps / SPEED_OF_SOUND_MPS in
    let air_speed_mps := prop_pitch_m * rpm_sec in
    Ok (mk_performance calculated_thrust_N advance_ratio thrust_coeff
          tip_speed_mps mach_tip air_speed_mps).

(** The scores of the dictionary that [score_propeller] returns (it also
    repeats the performance figures and the inputs). *)
Record propeller_score : Type := mk_propeller_score
  { score_performance : performance;
    thrust_penalty : R;
    efficiency_penalty : R;
    tip_speed_penalty : R;
    price_score_component : R;
    overall_score : R }.

Definition score_propeller (engine_rpm diameter_inches pitch_inches : R)
    (number_of_blades : Z) (cruise_speed_mps target_thrust_N price_usd : R)
  : result propeller_score :=
  performance <- calculate_performance engine_rpm diameter_inches
                   pitch_inches number_of_blades cruise_speed_mps ;;
  let calculated_thrust_N := calculated_thrust_N performance in
  let mach_tip := tip_speed_mach performance in
  let air_speed_mps := air_speed_mps performance in
  thrust_penalty <-
    (if calculated_thrust_N <? target_thrust_N
     then (if 0 <? target_thrust_N
           then q <- fdiv (5 * (target_thrust_N - calculated_thrust_N))
                       target_thrust_N ;;
                Ok q
           else Ok 1.0)
     else Ok 0.0) ;;
  efficiency_penalty <-
    (if (cruise_speed_mps <? air_speed_mps) && (0 <? cruise_speed_mps)
     then slip_ratio <- fdiv (air_speed_mps - cruise_speed_mps)
                          cruise_speed_mps ;;
          Ok (slip_ratio * 0.25)
     else Ok 0.0) ;;
  let tip_speed_penalty :=
    if 0.9 <=? mach_tip then 10.0 * (mach_tip - 0.9) else 0.0 in
  let overall_score :=
    thrust_penalty * 1.0 + efficiency_penalty * 0.5 + tip_speed_penalty * 2.0
  in
  let price_score_component := price_usd * 0.001 in
  let overall_score := overall_score + price_score_component in
  Ok (mk_propeller_score performance thrust_penalty efficiency_penalty
        tip_speed_penalty price_score_component overall_score).

(** The five sequences of a path have one entry per sample. *)
Definition aligned (path : FlightPath.t) : Prop :=
  let n := List.length (FlightPath.time_s path) in
  List.length (FlightPath.dist_m path) = n /\
  List.length (FlightPath.alt_ft path) = n /\
  List.length (FlightPath.ias_kts path) = n /\
  List.length (FlightPath.battery_pct path) = n.

(** One more sample in each sequence. *)
Definition one_more (p p' : FlightPath.t) : Prop :=
  aligned p' /\
  List.length (FlightPath.time_s p') = S (List.length (FlightPath.time_s p)).

(** The same samples in two paths (their scalar attributes may differ). *)
Definition same_samples (p p' : FlightPath.t) : Prop :=
  FlightPath.time_s p' = FlightPath.time_s p /\
  FlightPath.dist_m p' = FlightPath.dist_m p /\
  FlightPath.alt_ft p' = FlightPath.alt_ft p /\
  FlightPath.ias_kts p' = FlightPath.ias_kts p /\
  FlightPath.battery_pct p' = FlightPath.battery_pct p.

(** The samples already recorded stay in place: a later path extends
    the time sequence of an earlier one. *)
Definition extends (p p' : FlightPath.t) : Prop :=
  exists l, FlightPath.time_s p' = FlightPath.time_s p ++ l.

(** No sequence of the path is empty, so [l[-1]] is defined. *)
Definition nonempty (path : FlightPath.t) : Prop :=
  FlightPath.time_s path <> [] /\
  FlightPath.dist_m path <> [] /\
  FlightPath.alt_ft path <> [] /\
  FlightPath.battery_pct path <> [].

(** ** numpy scalars

    The design loop works on numpy [float64] scalars: the cruise speed
    comes out of [np.clip], and everything computed from it is a numpy
    scalar.  On these a zero divisor or a negative base gives [inf] or
    [nan] (and a warning) where a Python float raises or turns complex.
    [NP] embeds the code of [design_from_mission] with such values: a
    scalar is a real number, an infinity or [nan].  Rounding and overflow
    are not modelled, and a zero has no sign (it acts as [+0.0]). *)

Module NP.

Inductive scalar : Type :=
| Num (r : R)
| PInf
| NInf
| NaN.

Definition neg (x : scalar) : scalar :=
  match x with
  | Num a => Num (- a)
  | PInf => NInf
  | NInf => PInf
  | NaN => NaN
  end.

Definition add (x y : scalar) : scalar :=
  match x, y with
  | NaN, _ | _, NaN => NaN
  | Num a, Num b => Num (a + b)
  | PInf, NInf | NInf, PInf => NaN
  | PInf, _ | _, PInf => PInf
  | NInf, _ | _, NInf => NInf
  end.

Definition sub (x y : scalar) : scalar := add x (neg y).

(** The sign of a number, as [inf * x] uses it. *)
Definition signed_inf (positive : bool) : scalar :=
  if positive then PInf else NInf.

Definition mul (x y : scalar) : scalar :=
  match x, y with
  | NaN, _ | _, NaN => NaN
  | Num a, Num b => Num (a * b)
  | Num a, PInf | PInf, Num a =>
      if a =? 0 then NaN else signed_inf (0 <? a)
  | Num a, NInf | NInf, Num a =>
      if a =? 0 then NaN else signed_inf (a <? 0)
  | PInf, PInf | NInf, NInf => PInf
  | PInf, NInf | NInf, PInf => NInf
  end.

(** [x / y] when an operand is a numpy scalar: never an exception. *)
Definition div (x y : scalar) : scalar :=
  match x, y with
  | NaN, _ | _, NaN => NaN
  | Num a, Num b =>
      if b =? 0 then (if a =? 0 then NaN else signed_inf (0 <? a))
      else Num (a / b)
  | Num _, PInf | Num _, NInf => Num 0
  | PInf, Num b => signed_inf (0 <=? b)
  | NInf, Num b => signed_inf (b <? 0)
  | _, _ => NaN
  end.

(** [x / y] on two Python floats: a zero divisor raises. *)
Definition py_div (x y : scalar) : result scalar :=
  match y with
  | Num b => if b =? 0 then Raise ZeroDivisionError else Ok (div x y)
  | _ => Ok (div x y)
  end.

(** [x ** 2] *)
Definition sqr (x : scalar) : scalar := mul x x.

(** [x ** y] on a numpy scalar, for an exponent [y > 0] that is not an
    integer: [nan] for a negative base. *)
Definition pow (x : scalar) (y : R) : scalar :=
  match x with
  | Num a => if a <? 0 then NaN else if a =? 0 then Num 0
             else Num (Rpower a y)
  | PInf | NInf => PInf
  | NaN => NaN
  end.

Definition abs (x : scalar) : scalar :=
  match x with
  | Num a => Num (Rabs a)
  | PInf | NInf => PInf
  | NaN => NaN
  end.

(** [x < y]: false as soon as an operand is [nan]. *)
Definition lt (x y : scalar) : bool :=
  match x, y with
  | NaN, _ | _, NaN => false
  | Num a, Num b => a <? b
  | NInf, NInf | PInf, _ | _, NInf => false
  | NInf, _ | _, PInf => true
  end.

(** Python's [max(a, b)]: [b] when [b > a], and [a] otherwise, also when
    [b] is [nan]. *)
Definition py_max (a b : scalar) : scalar := if lt a b then b else a.

(** [math.sqrt]: a [ValueError] below zero, [nan] for [nan]. *)
Definition math_sqrt (x : scalar) : result scalar :=
  match x with
  | Num a => if a <? 0 then Raise ValueError else Ok (Num (sqrt a))
  | PInf => Ok PInf
  | NInf => Raise ValueError
  | NaN => Ok NaN
  end.

(** [math.exp] *)
Definition math_exp (x : scalar) : scalar :=
  match x with
  | Num a => Num (exp a)
  | PInf => PInf
  | NInf => Num 0
  | NaN => NaN
  end.

Definition np_clip (x : scalar) (lo hi : R) : scalar :=
  match x with
  | Num a => Num (Rmin (Rmax a lo) hi)
  | PInf => Num hi
  | NInf => Num lo
  | NaN => NaN
  end.

Definition np_log10 (x : scalar) : scalar :=
  match x with
  | Num a => if a <? 0 then NaN else if a =? 0 then NInf
             else Num (log10 a)
  | PInf => PInf
  | NInf | NaN => NaN
  end.

(** A scalar that is a number or [nan]: the values the design loop
    meets. *)
Definition finite_or_nan (x : scalar) : Prop :=
  match x with
  | Num _ | NaN => True
  | PInf | NInf => False
  end.

(** A number within [bound] of zero, or [nan]. *)
Definition within (bound : R) (x : scalar) : Prop :=
  match x with
  | Num r => - bound <= r <= bound
  | NaN => True
  | PInf | NInf => False
  end.

(** *** edf_speed.py *)

Definition estimate_modified_cruise_speed (power_w : scalar)
    (params : FixedWingParameters.t) : scalar :=
  let EMPIRICAL_A := 0.19815 in
  let EMPIRICAL_B := 0.6246 in
  let clipped_power_w := np_clip power_w 200 20000 in
  let base_speed_kts :=
    mul (Num EMPIRICAL_A) (pow clipped_power_w EMPIRICAL_B) in
  let size_penalty_factor :=
    sub (Num 1)
      (mul (Num 0.10)
         (np_log10 (py_max (Num 1) (div clipped_power_w (Num 1000))))) in
  let MIN_SPEED_FACTOR := 0.35 in
  let endurance_percent :=
    LogScaledParameter.percent (FixedWingParameters.endurance params) in
  let speed_factor := 1 - (endurance_percent / 100) * (1 - MIN_SPEED_FACTOR) in
  let final_speed_kts :=
    mul (mul base_speed_kts (Num speed_factor)) size_penalty_factor in
  final_speed_kts.

(** *** edf_config.py *)

Module EDF.

Record t : Type := mk
  { name : string;
    power_w : scalar;
    static_thrust_n : scalar;
    weight_kg : scalar;
    diameter_m : scalar;
    design_speed_mps : scalar }.

Definition __init__ (name : string)
    (power_w static_thrust_n weight_kg diameter_m : scalar) : t :=
  mk name power_w static_thrust_n weight_kg diameter_m
     (add (Num 25) (div power_w (Num 150))).

Definition from_power (power_w : scalar) : t :=
  let name := "kW EDF"%string in
  let weight_kg := add (Num 0.05) (mul (Num 0.020) (pow power_w 0.75)) in
  let static_thrust_n := mul (Num 0.7) (pow power_w 0.88) in
  let diameter_m := mul (Num 0.03) (pow power_w 0.44) in
  __init__ name power_w static_thrust_n weight_kg diameter_m.

Definition get_propulsive_efficiency (self : t) (tas_mps : scalar) : scalar :=
  let speed_ratio := div tas_mps (design_speed_mps self) in
  py_max (Num 0.1)
    (mul (Num 0.70)
       (math_exp (div (neg (sqr (sub speed_ratio (Num 1)))) (Num 0.8)))).

End EDF.

(** [Battery.check_power_output] on a required power that is a numpy
    scalar. *)
Definition check_power_output (self : Battery.t) (required_power_w : scalar)
  : result unit :=
  if lt (Num (Battery.max_power_w self)) (mul required_power_w (Num 1.2))
  then Raise ValueError
  else Ok tt.

Module Aircraft.

Record t : Type := mk
  { edf : EDF.t;
    battery : Battery.t;
    params : FixedWingParameters.t;
    airframe_weight_kg : scalar;
    payload_weight_kg : scalar;
    mtow_kg : scalar;
    weight_n : scalar;
    thrust_to_weight_ratio : scalar;
    ld_ratio : R;
    cruise_ias_kts : scalar;
    cruise_ias_mps : scalar;
    wing_area_m2 : scalar;
    stall_speed_ias_mps : scalar;
    vr_ias_mps : scalar;
    vy_ias_mps : scalar;
    best_glide_ias_mps : scalar;
    rate_of_climb_fpm : scalar;
    cruise_power_percent : scalar }.

(** The speeds are Python floats (they come out of [math.sqrt]), so the
    two divisions between them raise on a zero divisor. *)
Definition calculate_rate_of_climb (edf : EDF.t) (weight_n : scalar)
    (ld_ratio : R) (vy_ias_mps best_glide_ias_mps : scalar) : result scalar :=
  let power_available_climb :=
    mul (EDF.power_w edf) (EDF.get_propulsive_efficiency edf vy_ias_mps) in
  let d_min_n := div weight_n (Num ld_ratio) in
  v_ratio <- (if lt (Num 0) best_glide_ias_mps
              then py_div vy_ias_mps best_glide_ias_mps else Ok (Num 1)) ;;
  inv_ratio <- py_div (Num 1) v_ratio ;;
  let drag_at_vy :=
    mul (mul d_min_n (Num 0.5)) (add (sqr v_ratio) (sqr inv_ratio)) in
  let power_required_climb := mul drag_at_vy vy_ias_mps in
  let excess_power_watts := sub power_available_climb power_required_climb in
  let rate_of_climb_fpm :=
    py_max (Num 0) (mul (div excess_power_watts weight_n) (Num 196.85)) in
  Ok rate_of_climb_fpm.

Definition __init__ (edf : EDF.t) (battery : Battery.t)
    (params : FixedWingParameters.t) : result t :=
  _ <- check_power_output battery (EDF.power_w edf) ;;
  let power_system_weight :=
    add (EDF.weight_kg edf) (Num (Battery.weight_kg battery)) in
  let airframe_to_power_system_ratio := 0.8 in
  let airframe_weight_kg :=
    add (Num 0.4)
      (mul power_system_weight (Num airframe_to_power_system_ratio)) in
  let empty_weight_kg :=
    add (add (EDF.weight_kg edf) (Num (Battery.weight_kg battery)))
      airframe_weight_kg in
  let payload_weight_kg :=
    mul (Num 0.20) (div (EDF.power_w edf) (Num 100)) in
  let mtow_kg := add empty_weight_kg payload_weight_kg in
  let weight_n := mul mtow_kg (Num 9.80665) in
  let thrust_to_weight_ratio := div (EDF.static_thrust_n edf) weight_n in
  let ld_ratio :=
    7.0 + (LogScaledParameter.percent (FixedWingParameters.endurance params)
           / 100) * 5.0 in
  let cruise_ias_kts :=
    estimate_modified_cruise_speed (EDF.power_w edf) params in
  let cruise_ias_mps := mul cruise_ias_kts (Num 0.514444) in
  let wing_area_m2 :=
    div (mul (Num 2) weight_n)
      (mul (mul (Num 1.225) (sqr cruise_ias_mps)) (Num 0.4)) in
  stall_speed_ias_mps <-
    math_sqrt (div (mul (Num 2) weight_n)
                 (mul (mul (Num 1.225) wing_area_m2) (Num 1.5))) ;;
  let vr_ias_mps := mul stall_speed_ias_mps (Num 1.10) in
  let vy_ias_mps := mul stall_speed_ias_mps (Num 1.20) in
  let best_glide_ias_mps := mul stall_speed_ias_mps (Num 1.31) in
  rate_of_climb_fpm <-
    calculate_rate_of_climb edf weight_n ld_ratio vy_ias_mps
      best_glide_ias_mps ;;
  let power_required_aero_cruise :=
    mul (div weight_n (Num ld_ratio)) cruise_ias_mps in
  let power_required_elec_cruise :=
    div power_required_aero_cruise
      (EDF.get_propulsive_efficiency edf cruise_ias_mps) in
  let cruise_power_percent :=
    mul (div power_required_elec_cruise (EDF.power_w edf)) (Num 100) in
  Ok (mk edf battery params airframe_weight_kg payload_weight_kg mtow_kg
         weight_n thrust_to_weight_ratio ld_ratio cruise_ias_kts
         cruise_ias_mps wing_area_m2 stall_speed_ias_mps vr_ias_mps
         vy_ias_mps best_glide_ias_mps rate_of_climb_fpm
         cruise_power_percent).

(** The motor power that one pass of the loop asks for.  The first
    guess is a Python float, and so is [ld_ratio]: a zero [ld_ratio]
    raises in the first pass, so no later pass divides by it. *)
Definition required_motor_power (params : FixedWingParameters.t)
    (rules : rules_t) (cruise_ias_mps propulsive_eff_at_cruise : scalar)
    (mtow_guess_kg : scalar) : result scalar :=
  let ld_ratio :=
    7.0 + (LogScaledParameter.percent (FixedWingParameters.endurance params)
           / 100) * 5.0 in
  d <- py_div (mul mtow_guess_kg (Num 9.80665)) (Num ld_ratio) ;;
  let power_req_aero := mul d cruise_ias_mps in
  let power_req_elec := div power_req_aero propulsive_eff_at_cruise in
  target_cruise_power_ratio <- getitem rules "cruise_power_target" ;;
  Ok (div power_req_elec (Num (target_cruise_power_ratio / 100))).

(** The 1% test of the loop. *)
Definition converged (new_mtow_kg mtow_guess_kg : scalar) : bool :=
  lt (div (abs (sub new_mtow_kg mtow_guess_kg)) mtow_guess_kg) (Num 0.01).

(** The guess of the next pass. *)
Definition next_guess (new_mtow_kg mtow_guess_kg : scalar) : scalar :=
  add (mul mtow_guess_kg (Num 0.5)) (mul new_mtow_kg (Num 0.5)).

(** What a run of the loop hands back: the aircraft returned and the
    guesses of the passes made, in order. *)
Record design : Type := mk_design
  { aircraft : t;
    guesses : list scalar }.

(** [for i in range(n)].  Falling out of an empty range would read
    [temp_aircraft] before its assignment. *)
Fixpoint design_loop (n : nat) (params : FixedWingParameters.t)
    (rules : rules_t) (battery : Battery.t)
    (cruise_ias_mps propulsive_eff_at_cruise mtow_guess_kg : scalar)
  : result design :=
  match n with
  | O => Raise UnboundLocalError
  | S m =>
      required_motor_power_w <-
        required_motor_power params rules cruise_ias_mps
          propulsive_eff_at_cruise mtow_guess_kg ;;
      let edf := EDF.from_power required_motor_power_w in
      temp_aircraft <- __init__ edf battery params ;;
      let new_mtow_kg := mtow_kg temp_aircraft in
      if converged new_mtow_kg mtow_guess_kg
      then Ok (mk_design temp_aircraft [mtow_guess_kg])
      else
        match m with
        | O => Ok (mk_design temp_aircraft [mtow_guess_kg])
        | S _ =>
            r <- design_loop m params rules battery cruise_ias_mps
                   propulsive_eff_at_cruise
                   (next_guess new_mtow_kg mtow_guess_kg) ;;
            Ok (mk_design (aircraft r) (mtow_guess_kg :: guesses r))
        end
  end.

(** The part before the loop.  The notional EDF is sized from a Python
    float; only its design speed is read. *)
Definition design_setup (params : FixedWingParameters.t)
    (rules : rules_t) (initial_mtow_guess_kg : R)
  : result (scalar * scalar) :=
  target <- getitem rules "cruise_power_target" ;;
  let representative_notional_power :=
    Num (initial_mtow_guess_kg * (if 80 <? target then 220 else 150)) in
  let cruise_ias_kts :=
    estimate_modified_cruise_speed representative_notional_power params in
  let cruise_ias_mps := mul cruise_ias_kts (Num 0.514444) in
  let notional_edf := EDF.from_power representative_notional_power in
  let propulsive_eff_at_cruise :=
    EDF.get_propulsive_efficiency notional_edf cruise_ias_mps in
  Ok (cruise_ias_mps, propulsive_eff_at_cruise).

Definition design_from_mission_run (params : FixedWingParameters.t)
    (rules : rules_t) (initial_mtow_guess_kg : R) (battery : Battery.t)
  : result design :=
  let mtow_guess_kg := Num initial_mtow_guess_kg in
  s <- design_setup params rules initial_mtow_guess_kg ;;
  design_loop 15 params rules battery (fst s) (snd s) mtow_guess_kg.

Definition design_from_mission (params : FixedWingParameters.t)
    (rules : rules_t) (initial_mtow_guess_kg : R) (battery : Battery.t)
  : result t :=
  r <- design_from_mission_run params rules initial_mtow_guess_kg
         battery ;;
  Ok (aircraft r).

(** The battery supplies every propulsor that the next [n] passes size,
    starting from a guess: its check passes on the power of this pass
    and, when this pass does not end the loop, on the later ones. *)
Fixpoint supplies (n : nat) (params : FixedWingParameters.t)
    (rules : rules_t) (battery : Battery.t)
    (cruise_ias_mps propulsive_eff_at_cruise mtow_guess_kg : scalar) : Prop :=
  match n with
  | O => True
  | S m =>
      (forall P,
         required_motor_power params rules cruise_ias_mps
           propulsive_eff_at_cruise mtow_guess_kg = Ok P ->
         check_power_output battery P = Ok tt) /\
      (forall P a,
         required_motor_power params rules cruise_ias_mps
           propulsive_eff_at_cruise mtow_guess_kg = Ok P ->
         __init__ (EDF.from_power P) battery params = Ok a ->
         converged (mtow_kg a) mtow_guess_kg = false ->
         supplies m params rules battery cruise_ias_mps
           propulsive_eff_at_cruise
           (next_guess (mtow_kg a) mtow_guess_kg))
  end.

(** The aircraft that the pass at a guess builds. *)
Definition built_at (params : FixedWingParameters.t) (rules : rules_t)
    (battery : Battery.t) (cruise_ias_mps propulsive_eff_at_cruise : scalar)
    (mtow_guess_kg : scalar) (a : t) : Prop :=
  exists P,
    required_motor_power params rules cruise_ias_mps
      propulsive_eff_at_cruise mtow_guess_kg = Ok P /\
    __init__ (EDF.from_power P) battery params = Ok a.

(** What a finished run of at most [n] passes from a first guess
    satisfies.  It made between one and [n] passes, the first at that
    guess.  Every pass but the last failed the 1% test, and the guess of
    the pass after it is the mean of its guess and of the MTOW it found.
    The aircraft returned is the one built at the last guess, and either
    it meets the 1% test or all [n] passes were made. *)
Definition finished (params : FixedWingParameters.t) (rules : rules_t)
    (battery : Battery.t) (cruise_ias_mps propulsive_eff_at_cruise : scalar)
    (n : nat) (first : scalar) (r : design) : Prop :=
  let gs := guesses r in
  let a := aircraft r in
  (1 <= List.length gs <= n)%nat /\
  nth 0 gs NaN = first /\
  (forall i, (S i < List.length gs)%nat ->
     exists t,
       built_at params rules battery cruise_ias_mps propulsive_eff_at_cruise
         (nth i gs NaN) t /\
       converged (mtow_kg t) (nth i gs NaN) = false /\
       nth (S i) gs NaN = next_guess (mtow_kg t) (nth i gs NaN)) /\
  built_at params rules battery cruise_ias_mps propulsive_eff_at_cruise
    (last gs NaN) a /\
  (converged (mtow_kg a) (last gs NaN) = true \/ List.length gs = n).

End Aircraft.

End NP.

(** ** Binary64 floats

    Where rounding decides whether a call returns or raises, the code is
    embedded a second time on IEEE 754 binary64 numbers: the arithmetic
    is the Standard Library's executable specification ([SpecFloat], 53
    bits of precision), and [math.log] and [math.exp] are the correctly
    rounded functions (the platform's libm agrees with them except on
    rare arguments whose result lies within a few thousandths of a unit
    in the last place of a rounding boundary). *)

Module Binary64.

#[local] Open Scope Z_scope.

Definition prec : Z := 53.
Definition emax : Z := 1024.

Definition float : Type := spec_float.

Definition of_Z (z : Z) : float := binary_normalize prec emax z 0 false.
Definition add : float -> float -> float := SFadd prec emax.
Definition sub : float -> float -> float := SFsub prec emax.
Definition mul : float -> float -> float := SFmul prec emax.
Definition div : float -> float -> float := SFdiv prec emax.
Definition leb : float -> float -> bool := SFleb.
Definition ltb : float -> float -> bool := SFltb.
Definition eqb : float -> float -> bool := SFeqb.

(** [x / y] on Python floats: a zero divisor raises. *)
Definition fdiv (x y : float) : result float :=
  match y with
  | S754_zero _ => Raise ZeroDivisionError
  | _ => Ok (div x y)
  end.

(** *** Logarithm and exponential, rounded to nearest

    Fixed-point numbers with [K] fractional bits; the series are summed
    until their terms vanish at that scale. *)

Definition K : Z := 200.
Definition mul_fx (a b : Z) : Z := (a * b) / 2 ^ K.

(** [atanh z = z + z^3/3 + z^5/5 + ...], for [0 <= z < 1/2]. *)
Fixpoint atanh_series (fuel : nat) (n pw z2 acc : Z) : Z :=
  match fuel with
  | O => acc
  | S fuel' =>
      let term := pw / n in
      if term =? 0 then acc
      else atanh_series fuel' (n + 2) (mul_fx pw z2) z2 (acc + term)
  end.

Definition atanh_fx (z : Z) : Z := atanh_series 400 1 z (mul_fx z z) 0.

(** [ln 2 = 2 atanh (1/3)] *)
Definition ln2_fx : Z := 2 * atanh_fx (2 ^ K / 3).

(** [ln (m * 2^e)]: with [m = y * 2^d] and [1 <= y < 2],
    [ln y = 2 atanh ((y - 1) / (y + 1))]. *)
Definition ln_fx (m : positive) (e : Z) : Z :=
  let d := Z.log2 (Zpos m) in
  let z := ((Zpos m - 2 ^ d) * 2 ^ K) / (Zpos m + 2 ^ d) in
  (e + d) * ln2_fx + 2 * atanh_fx z.

(** [exp r = 1 + r + r^2/2! + ...], for [|r| < 1]. *)
Fixpoint exp_series (fuel : nat) (n term r acc : Z) : Z :=
  match fuel with
  | O => acc
  | S fuel' =>
      if term =? 0 then acc
      else exp_series fuel' (n + 1) (mul_fx term r / n) r (acc + term)
  end.

(** [exp x] for [x = x_fx / 2^K], as a mantissa and a binary exponent:
    [x = n ln 2 + r] with [|r| <= ln 2 / 2]. *)
Definition exp_fx (x_fx : Z) : Z * Z :=
  let n := (2 * x_fx + ln2_fx) / (2 * ln2_fx) in
  let r := x_fx - n * ln2_fx in
  (exp_series 400 1 (2 ^ K) r 0, n - K).

(** [math.log] *)
Definition math_log (x : float) : result float :=
  match x with
  | S754_nan => Ok S754_nan
  | S754_infinity false => Ok (S754_infinity false)
  | S754_finite false m e =>
      Ok (binary_normalize prec emax (ln_fx m e) (- K) false)
  | _ => Raise ValueError
  end.

(** [math.exp]: a result too large for a float is an [OverflowError]. *)
Definition math_exp (x : float) : result float :=
  match x with
  | S754_nan => Ok S754_nan
  | S754_infinity false => Ok (S754_infinity false)
  | S754_infinity true => Ok (S754_zero false)
  | S754_zero _ => Ok (of_Z 1)
  | S754_finite s m e =>
      let x_fx :=
        (if s then -1 else 1) *
        (if 0 <=? e + K then Zpos m * 2 ^ (e + K)
         else Zpos m / 2 ^ (- (e + K))) in
      let '(mant, ex) := exp_fx x_fx in
      match binary_normalize prec emax mant ex false with
      | S754_infinity _ => Raise OverflowError
      | y => Ok y
      end
  end.


(** *** uav_parameters.py on binary64 floats *)

Module LogScaledParameter.

Record t : Type := mk
  { name : string;
    unit : string;
    min_val : float;
    max_val : float;
    _percent : float }.

Definition percent (self : t) : float := _percent self.

Definition set_percent (self : t) (new_percent : float) : result t :=
  if negb (leb (of_Z 0) new_percent && leb new_percent (of_Z 100))
  then Raise ValueError
  else Ok (mk (name self) (unit self) (min_val self) (max_val self)
              new_percent).

Definition __init__ (name unit : string) (min_val max_val : float)
  : result t :=
  if leb min_val (of_Z 0) || leb max_val (of_Z 0) then Raise ValueError
  else if ltb max_val min_val then Raise ValueError
  else set_percent (mk name unit min_val max_val (of_Z 0)) (of_Z 50).

Definition value (self : t) : result float :=
  log_min <- math_log (min_val self) ;;
  log_max <- math_log (max_val self) ;;
  let log_val :=
    add log_min (mul (div (_percent self) (of_Z 100)) (sub log_max log_min)) in
  math_exp log_val.

Definition set_value (self : t) (new_val : float) : result t :=
  if negb (leb (min_val self) new_val && leb new_val (max_val self))
  then Raise ValueError
  else
    log_min <- math_log (min_val self) ;;
    log_max <- math_log (max_val self) ;;
    log_new_val <- math_log new_val ;;
    q <- fdiv (mul (of_Z 100) (sub log_new_val log_min))
           (sub log_max log_min) ;;
    Ok (mk (name self) (unit self) (min_val self) (max_val self) q).

End LogScaledParameter.

End Binary64.

(** * Properties *)

(** ** Elementary facts on the float operations *)

Lemma Rltb_true (x y : R) : x < y -> (x <? y) = true.
Proof. intro H; unfold Rltb; destruct (Rlt_dec x y); [reflexivity | contradiction]. Qed.

Lemma Rltb_false (x y : R) : ~ x < y -> (x <? y) = false.
Proof. intro H; unfold Rltb; destruct (Rlt_dec x y); [contradiction | reflexivity]. Qed.

Lemma Rleb_true (x y : R) : x <= y -> (x <=? y) = true.
Proof. intro H; unfold Rleb; destruct (Rle_dec x y); [reflexivity | contradiction]. Qed.

Lemma Rleb_false (x y : R) : ~ x <= y -> (x <=? y) = false.
Proof. intro H; unfold Rleb; destruct (Rle_dec x y); [contradiction | reflexivity]. Qed.

Lemma Reqb_true (x y : R) : x = y -> (x =? y) = true.
Proof. intro H; unfold Reqb; destruct (Req_dec_T x y); [reflexivity | contradiction]. Qed.

Lemma Reqb_false (x y : R) : x <> y -> (x =? y) = false.
Proof. intro H; unfold Reqb; destruct (Req_dec_T x y); [contradiction | reflexivity]. Qed.

Lemma fdiv_ok (x y : R) : y <> 0 -> fdiv x y = Ok (x / y).
Proof. intro H; unfold fdiv; rewrite Reqb_false by assumption; reflexivity. Qed.

Lemma fdiv_zero (x : R) : fdiv x 0 = Raise ZeroDivisionError.
Proof. unfold fdiv; rewrite Reqb_true by reflexivity; reflexivity. Qed.

Lemma math_log_ok (x : R) : 0 < x -> math_log x = Ok (ln x).
Proof. intro H; unfold math_log; rewrite Rltb_true by assumption; reflexivity. Qed.

Lemma math_sqrt_ok (x : R) : 0 <= x -> math_sqrt x = Ok (sqrt x).
Proof. intro H; unfold math_sqrt; rewrite Rltb_false by lra; reflexivity. Qed.

Lemma fpow_ok (x y : R) : 0 < x -> fpow x y = Ok (Rpower x y).
Proof.
  intro H; unfold fpow.
  rewrite Rltb_false by lra. rewrite Reqb_false by lra. reflexivity.
Qed.

Lemma fdiv_inv (x y q : R) : fdiv x y = Ok q -> y <> 0 /\ q = x / y.
Proof.
  unfold fdiv, Reqb. destruct (Req_dec_T y 0); [discriminate|].
  intro H. injection H as <-. split; [assumption | reflexivity].
Qed.

Lemma math_sqrt_inv (x s : R) : math_sqrt x = Ok s -> 0 <= x /\ s = sqrt x.
Proof.
  unfold math_sqrt, Rltb. destruct (Rlt_dec x 0); [discriminate|].
  intro H. injection H as <-. split; [lra | reflexivity].
Qed.

Ltac cmp_step :=
  first
    [ rewrite Rltb_true by lra
    | rewrite Rltb_false by lra
    | rewrite Rleb_true by lra
    | rewrite Rleb_false by lra
    | rewrite Reqb_true by lra
    | rewrite Reqb_false by lra
    | rewrite fdiv_ok by lra ].

Ltac cmp_simpl :=
  cbn [bind negb andb orb];
  repeat (cmp_step; cbn [bind negb andb orb]).

(** ** LogScaledParameter.score *)

Lemma score_below (self : LogScaledParameter.t) (a : R) :
  0 < LogScaledParameter.min_val self < LogScaledParameter.max_val self ->
  a < LogScaledParameter.min_val self ->
  LogScaledParameter.score self a = Ok (a / LogScaledParameter.min_val self).
Proof.
  intros [Hmin Hlt] Ha. unfold LogScaledParameter.score.
  cmp_simpl. reflexivity.
Qed.

Lemma score_above (self : LogScaledParameter.t) (a : R) :
  0 < LogScaledParameter.min_val self < LogScaledParameter.max_val self ->
  LogScaledParameter.max_val self < a ->
  LogScaledParameter.score self a = Ok (LogScaledParameter.max_val self / a).
Proof.
  intros [Hmin Hlt] Ha. unfold LogScaledParameter.score.
  cmp_simpl. reflexivity.
Qed.

Lemma score_inside (self : LogScaledParameter.t) (a : R) :
  LogScaledParameter.min_val self < LogScaledParameter.max_val self ->
  LogScaledParameter.min_val self <= a <= LogScaledParameter.max_val self ->
  LogScaledParameter.score self a =
  Ok (1 - Rabs (a - (LogScaledParameter.min_val self
                     + LogScaledParameter.max_val self) / 2)
          / ((LogScaledParameter.max_val self
              - LogScaledParameter.min_val self) / 2)).
Proof.
  intros Hlt [Hlo Hhi]. unfold LogScaledParameter.score.
  set (lo := LogScaledParameter.min_val self) in *.
  set (hi := LogScaledParameter.max_val self) in *.
  cmp_simpl. f_equal.
  apply Rmax_right.
  assert (Hd : Rabs (a - (lo + hi) / 2) <= (hi - lo) / 2)
    by (apply Rabs_le; lra).
  assert (Hh : 0 < (hi - lo) / 2) by lra.
  apply Rmult_le_compat_r with (r := / ((hi - lo) / 2)) in Hd.
  - rewrite Rinv_r in Hd by lra. unfold Rdiv at 1. lra.
  - left. apply Rinv_0_lt_compat. exact Hh.
Qed.

(** C1 (as amended).  For a parameter with [0 < min_val < max_val] and an
    actual value outside [[min_val, max_val]], [score] returns without
    raising the ratio of the actual value to the violated boundary
    ([actual/min] below the range, [max/actual] above it); the result is
    strictly less than 1, and it is non-negative whenever the actual value
    itself is non-negative. *)
Theorem score_outside_range (self : LogScaledParameter.t) (a : R) :
  0 < LogScaledParameter.min_val self < LogScaledParameter.max_val self ->
  a < LogScaledParameter.min_val self \/ LogScaledParameter.max_val self < a ->
  exists s,
    LogScaledParameter.score self a = Ok s /\
    s = (if a <? LogScaledParameter.min_val self
         then a / LogScaledParameter.min_val self
         else LogScaledParameter.max_val self / a) /\
    s < 1 /\
    (0 <= a -> 0 <= s).
Proof.
  intros Hr [Hlo | Hhi].
  - exists (a / LogScaledParameter.min_val self).
    split; [apply score_below; assumption|].
    split; [rewrite Rltb_true by assumption; reflexivity|].
    split.
    + apply Rmult_lt_reg_r with (r := LogScaledParameter.min_val self);
        [lra|].
      unfold Rdiv. rewrite Rmult_assoc, Rinv_l by lra. lra.
    + intro Ha. apply Rmult_le_pos; [assumption|].
      left. apply Rinv_0_lt_compat. lra.
  - exists (LogScaledParameter.max_val self / a).
    split; [apply score_above; assumption|].
    split; [rewrite Rltb_false by lra; reflexivity|].
    split.
    + apply Rmult_lt_reg_r with (r := a); [lra|].
      unfold Rdiv. rewrite Rmult_assoc, Rinv_l by lra. lra.
    + intros _. apply Rmult_le_pos; [lra|].
      left. apply Rinv_0_lt_compat. lra.
Qed.

Lemma score_outside_range_witness :
  exists s,
    LogScaledParameter.score
      (LogScaledParameter.mk "Takeoff Weight" "kg" 5 250 50) 300 = Ok s /\
    s = (if 300 <? 5 then 300 / 5 else 250 / 300) /\
    s < 1 /\
    (0 <= 300 -> 0 <= s).
Proof.
  apply (score_outside_range
           (LogScaledParameter.mk "Takeoff Weight" "kg" 5 250 50) 300).
  - cbn. lra.
  - right. cbn. lra.
Defined.

(** C1, as stated, fails below zero: for the takeoff-weight range
    [[5, 250]] the value [-5] lies outside the range and its score is
    the ratio [-5/5 = -1], a negative number. *)
Lemma score_outside_range_negative :
  let p := LogScaledParameter.mk "Takeoff Weight" "kg" 5 250 50 in
  0 < LogScaledParameter.min_val p < LogScaledParameter.max_val p /\
  -5 < LogScaledParameter.min_val p /\
  LogScaledParameter.score p (-5) = Ok (-1) /\
  ~ (0 <= -1).
Proof.
  cbn zeta. split; [cbn; lra|]. split; [cbn; lra|]. split; [|lra].
  rewrite score_below by (cbn; lra). cbn. f_equal. lra.
Qed.

(** C6.  For [min_val < max_val]: the score at the arithmetic centre is
    1, the score at either edge is 0, inside the range the score is
    [1 - |x - centre| / half-width], and it strictly decreases when moving
    away from the centre, on both sides. *)
Theorem score_triangular (self : LogScaledParameter.t) :
  LogScaledParameter.min_val self < LogScaledParameter.max_val self ->
  let lo := LogScaledParameter.min_val self in
  let hi := LogScaledParameter.max_val self in
  let centre := (lo + hi) / 2 in
  let half := (hi - lo) / 2 in
  LogScaledParameter.score self centre = Ok 1 /\
  LogScaledParameter.score self lo = Ok 0 /\
  LogScaledParameter.score self hi = Ok 0 /\
  (forall x, lo <= x <= hi ->
     LogScaledParameter.score self x = Ok (1 - Rabs (x - centre) / half)) /\
  (forall x y, centre <= x -> x < y -> y <= hi ->
     exists sx sy,
       LogScaledParameter.score self x = Ok sx /\
       LogScaledParameter.score self y = Ok sy /\ sy < sx) /\
  (forall x y, lo <= y -> y < x -> x <= centre ->
     exists sx sy,
       LogScaledParameter.score self x = Ok sx /\
       LogScaledParameter.score self y = Ok sy /\ sy < sx).
Proof.
  intros Hlt lo hi centre half.
  assert (Hin : forall x, lo <= x <= hi ->
            LogScaledParameter.score self x
            = Ok (1 - Rabs (x - centre) / half))
    by (intros x Hx; apply score_inside; assumption).
  change (lo < hi) in Hlt. clearbody lo hi.
  assert (Hh : 0 < half) by (unfold half; lra).
  assert (Hinv : 0 < / half) by (apply Rinv_0_lt_compat; exact Hh).
  assert (Hlc : lo < centre < hi) by (unfold centre; lra).
  repeat split.
  - rewrite Hin by lra. f_equal.
    replace (centre - centre) with 0 by ring. rewrite Rabs_R0.
    unfold Rdiv. ring.
  - rewrite Hin by lra. f_equal.
    replace (lo - centre) with (- half) by (unfold centre, half; field).
    rewrite Rabs_Ropp, Rabs_right by lra. field. lra.
  - rewrite Hin by lra. f_equal.
    replace (hi - centre) with half by (unfold centre, half; field).
    rewrite Rabs_right by lra. field. lra.
  - exact Hin.
  - intros x y Hcx Hxy Hy.
    exists (1 - Rabs (x - centre) / half), (1 - Rabs (y - centre) / half).
    split; [apply Hin; lra|]. split; [apply Hin; lra|].
    rewrite !Rabs_right by lra. unfold Rdiv.
    assert ((x - centre) * / half < (y - centre) * / half)
      by (apply Rmult_lt_compat_r; lra).
    lra.
  - intros x y Hy Hxy Hcx.
    exists (1 - Rabs (x - centre) / half), (1 - Rabs (y - centre) / half).
    split; [apply Hin; lra|]. split; [apply Hin; lra|].
    rewrite !Rabs_left1 by lra. unfold Rdiv.
    assert ((centre - x) * / half < (centre - y) * / half)
      by (apply Rmult_lt_compat_r; lra).
    lra.
Qed.

Lemma score_triangular_witness :
  let self := LogScaledParameter.mk "Takeoff Weight" "kg" 10 20 50 in
  LogScaledParameter.score self ((10 + 20) / 2) = Ok 1 /\
  LogScaledParameter.score self 10 = Ok 0 /\
  LogScaledParameter.score self 20 = Ok 0.
Proof.
  intro self.
  destruct (score_triangular self) as (Hc & Hlo & Hhi & _).
  - cbn. lra.
  - exact (conj Hc (conj Hlo Hhi)).
Defined.

(** ** LogScaledParameter.value *)

Lemma exp_between (lo hi l : R) :
  0 < lo -> 0 < hi -> ln lo <= l <= ln hi -> lo <= exp l <= hi.
Proof.
  intros Hlo Hhi [H1 H2].
  split.
  - rewrite <- (exp_ln lo) by assumption.
    destruct H1 as [H1 | H1]; [left; apply exp_increasing; exact H1
                              | right; rewrite H1; reflexivity].
  - rewrite <- (exp_ln hi) by assumption.
    destruct H2 as [H2 | H2]; [left; apply exp_increasing; exact H2
                              | right; rewrite H2; reflexivity].
Qed.

(** In exact arithmetic the two conversions are inverse to each other:
    for a parameter with [0 < min_val < max_val] and a percentage [p] in
    [[0, 100]], setting [percent] to [p], reading [value] and setting
    [value] to what was read all succeed and give back [p]. *)
Lemma value_percent_round_trip (self : LogScaledParameter.t) (p : R) :
  0 < LogScaledParameter.min_val self < LogScaledParameter.max_val self ->
  0 <= p <= 100 ->
  exists s1 v s2,
    LogScaledParameter.set_percent self p = Ok s1 /\
    LogScaledParameter.value s1 = Ok v /\
    LogScaledParameter.set_value s1 v = Ok s2 /\
    LogScaledParameter.percent s2 = p.
Proof.
  intros [Hmin Hlt] Hp.
  destruct self as [nm un lo hi pc]. cbn in Hmin, Hlt.
  assert (Hln : ln lo < ln hi) by (apply ln_increasing; lra).
  set (l := ln lo + p / 100 * (ln hi - ln lo)).
  assert (Hl : ln lo <= l <= ln hi) by (unfold l; split; nra).
  assert (Hv : lo <= exp l <= hi) by (apply exp_between; lra).
  exists (LogScaledParameter.mk nm un lo hi p), (exp l).
  exists (LogScaledParameter.mk nm un lo hi p).
  unfold LogScaledParameter.set_percent, LogScaledParameter.value,
    LogScaledParameter.set_value, LogScaledParameter.percent.
  cbn [LogScaledParameter.min_val LogScaledParameter.max_val
       LogScaledParameter._percent LogScaledParameter.name
       LogScaledParameter.unit].
  rewrite !(math_log_ok lo), !(math_log_ok hi) by lra.
  cbn [bind]. fold l. cmp_simpl.
  rewrite (math_log_ok (exp l)) by apply exp_pos.
  rewrite ln_exp. cmp_simpl.
  repeat split. do 2 f_equal. unfold l. field. lra.
Qed.

(** C3.  On binary64 floats the round trip fails at the ends of the
    default ranges.  For the takeoff-weight parameter [[5, 250]] at 0%,
    [value] is [exp (log 5.0) = 4.999999999999999], one unit in the last
    place below [min_val], and the value setter refuses it with
    [ValueError]; for the wingspan parameter [[0.3, 3]] at 100%, [value]
    is [3.0000000000000004], above [max_val], and is refused as well; and
    on the single-point range [[5, 5]], which the constructor accepts,
    the value read at the default 50% is refused too. *)
Theorem value_round_trip_binary64 :
  let below_5 := S754_finite false 5629499534213119 (-50) in
  let above_3 := S754_finite false 6755399441055745 (-51) in
  (exists p0 p1,
     Binary64.LogScaledParameter.__init__ "Takeoff Weight" "kg"
       (Binary64.of_Z 5) (Binary64.of_Z 250) = Ok p0 /\
     Binary64.LogScaledParameter.set_percent p0 (Binary64.of_Z 0) = Ok p1 /\
     Binary64.LogScaledParameter.value p1 = Ok below_5 /\
     Binary64.ltb below_5 (Binary64.LogScaledParameter.min_val p1) = true /\
     Binary64.LogScaledParameter.set_value p1 below_5 = Raise ValueError) /\
  (exists p0 p1,
     Binary64.LogScaledParameter.__init__ "Wingspan" "m"
       (Binary64.div (Binary64.of_Z 3) (Binary64.of_Z 10)) (Binary64.of_Z 3)
     = Ok p0 /\
     Binary64.LogScaledParameter.set_percent p0 (Binary64.of_Z 100) = Ok p1 /\
     Binary64.LogScaledParameter.value p1 = Ok above_3 /\
     Binary64.ltb (Binary64.LogScaledParameter.max_val p1) above_3 = true /\
     Binary64.LogScaledParameter.set_value p1 above_3 = Raise ValueError) /\
  (exists p0,
     Binary64.LogScaledParameter.__init__ "Takeoff Weight" "kg"
       (Binary64.of_Z 5) (Binary64.of_Z 5) = Ok p0 /\
     Binary64.LogScaledParameter.value p0 = Ok below_5 /\
     Binary64.LogScaledParameter.set_value p0 below_5 = Raise ValueError).
Proof.
  intros below_5 above_3.
  split; [|split].
  - do 2 eexists.
    split; [vm_compute; reflexivity|].
    split; [vm_compute; reflexivity|].
    split; [vm_compute; reflexivity|].
    split; vm_compute; reflexivity.
  - do 2 eexists.
    split; [vm_compute; reflexivity|].
    split; [vm_compute; reflexivity|].
    split; [vm_compute; reflexivity|].
    split; vm_compute; reflexivity.
  - eexists.
    split; [vm_compute; reflexivity|].
    split; vm_compute; reflexivity.
Qed.

(** ** Battery.check_power_output *)

(** C5.  [check_power_output] raises exactly when [max_power_w] is
    strictly below 1.2 times the required power and returns normally
    otherwise; the aircraft constructor runs this check first: when it
    fails the constructor raises that error whatever the other inputs
    are, and a constructed aircraft has passed it. *)
Theorem check_power_output_threshold (b : Battery.t) (required_power_w : R) :
  (Battery.check_power_output b required_power_w = Raise ValueError <->
   Battery.max_power_w b < required_power_w * 1.2) /\
  (Battery.check_power_output b required_power_w = Ok tt <->
   required_power_w * 1.2 <= Battery.max_power_w b) /\
  (forall e params,
     Battery.max_power_w b < EDF.power_w e * 1.2 ->
     Aircraft.__init__ e b params = Raise ValueError) /\
  (forall e params a,
     Aircraft.__init__ e b params = Ok a ->
     EDF.power_w e * 1.2 <= Battery.max_power_w b).
Proof.
  unfold Battery.check_power_output.
  repeat split.
  - intro H. unfold Rltb in H.
    destruct (Rlt_dec (Battery.max_power_w b) (required_power_w * 1.2));
      [assumption | discriminate].
  - intro H. rewrite Rltb_true by assumption. reflexivity.
  - intro H. unfold Rltb in H.
    destruct (Rlt_dec (Battery.max_power_w b) (required_power_w * 1.2));
      [discriminate | lra].
  - intro H. rewrite Rltb_false by lra. reflexivity.
  - intros e params H. unfold Aircraft.__init__, Battery.check_power_output.
    rewrite Rltb_true by assumption. reflexivity.
  - intros e params a H.
    unfold Aircraft.__init__, Battery.check_power_output in H.
    unfold Rltb in H.
    destruct (Rlt_dec (Battery.max_power_w b) (EDF.power_w e * 1.2));
      [discriminate | lra].
Qed.

(** ** EDF.get_propulsive_efficiency *)

Lemma exp_le_1 (x : R) : x <= 0 -> exp x <= 1.
Proof.
  intros [H | H].
  - left. rewrite <- exp_0. apply exp_increasing. exact H.
  - right. rewrite H. apply exp_0.
Qed.

Lemma exp_eq_1 (x : R) : exp x = 1 -> x = 0.
Proof. intro H. apply exp_inv. rewrite exp_0. exact H. Qed.

Lemma efficiency_value (e : EDF.t) (tas : R) :
  EDF.design_speed_mps e <> 0 ->
  EDF.get_propulsive_efficiency e tas =
  Ok (Rmax 0.1 (0.70 * exp (- ((tas / EDF.design_speed_mps e - 1) ^ 2) / 0.8))).
Proof.
  intro H. unfold EDF.get_propulsive_efficiency.
  rewrite fdiv_ok by assumption. reflexivity.
Qed.

Lemma efficiency_formula_range (r : R) :
  0.1 <= Rmax 0.1 (0.70 * exp (- ((r - 1) ^ 2) / 0.8)) <= 0.70.
Proof.
  assert (Hx : exp (- (r - 1) ^ 2 / 0.8) <= 1).
  { apply exp_le_1. assert (0 <= (r - 1) ^ 2) by apply pow2_ge_0. lra. }
  split; [apply Rmax_l|]. apply Rmax_lub; lra.
Qed.

Lemma efficiency_range (e : EDF.t) (tas eff : R) :
  EDF.get_propulsive_efficiency e tas = Ok eff -> 0.1 <= eff <= 0.70.
Proof.
  unfold EDF.get_propulsive_efficiency, fdiv.
  destruct (EDF.design_speed_mps e =? 0); cbn [bind]; [discriminate|].
  intro H. injection H as <-.
  apply efficiency_formula_range.
Qed.

(** C10.  For an EDF of positive rated power and a non-negative true
    airspeed, [get_propulsive_efficiency] returns a value between the
    floor 0.1 and the peak 0.70, never zero, which equals the peak exactly
    when the airspeed is the design speed. *)
Theorem propulsive_efficiency_bounds
    (name : string) (power_w static_thrust_n weight_kg diameter_m tas : R) :
  0 < power_w ->
  0 <= tas ->
  let e := EDF.__init__ name power_w static_thrust_n weight_kg diameter_m in
  exists eff,
    EDF.get_propulsive_efficiency e tas = Ok eff /\
    0.1 <= eff <= 0.70 /\
    eff <> 0 /\
    (eff = 0.70 <-> tas = EDF.design_speed_mps e).
Proof.
  intros Hp Ht e.
  assert (Hd : 0 < EDF.design_speed_mps e) by (cbn; lra).
  set (d := EDF.design_speed_mps e) in *.
  exists (Rmax 0.1 (0.70 * exp (- ((tas / d - 1) ^ 2) / 0.8))).
  assert (Hv : EDF.get_propulsive_efficiency e tas
               = Ok (Rmax 0.1 (0.70 * exp (- ((tas / d - 1) ^ 2) / 0.8))))
    by (apply efficiency_value; fold d; lra).
  pose proof (efficiency_range e tas _ Hv) as Hr.
  split; [exact Hv|]. split; [exact Hr|]. split; [lra|].
  set (x := - (tas / d - 1) ^ 2 / 0.8) in *.
  assert (Hsq : 0 <= (tas / d - 1) ^ 2) by apply pow2_ge_0.
  assert (Hx : exp x <= 1) by (apply exp_le_1; unfold x; lra).
  split.
  - intro Heq.
    assert (Hexp : exp x = 1).
    { unfold Rmax in Heq.
      destruct (Rle_dec 0.1 (0.70 * exp x)); lra. }
    apply exp_eq_1 in Hexp.
    assert (Hz : (tas / d - 1) ^ 2 = 0) by (unfold x in Hexp; lra).
    assert (Hr1 : tas / d - 1 = 0).
    { destruct (Req_dec (tas / d - 1) 0) as [Hz0 | Hnz]; [exact Hz0|].
      exfalso. apply (pow_nonzero _ 2) in Hnz. contradiction. }
    assert (tas = tas / d * d) by (field; lra). nra.
  - intro Heq.
    assert (Hx0 : x = 0).
    { unfold x. rewrite Heq. replace (d / d) with 1 by (field; lra). lra. }
    rewrite Hx0, exp_0. rewrite Rmax_right by lra. lra.
Qed.

Lemma propulsive_efficiency_bounds_witness :
  exists eff,
    EDF.get_propulsive_efficiency
      (EDF.__init__ "8.0kW EDF" 8000 1900 17 1.5) 40 = Ok eff /\
    0.1 <= eff <= 0.70 /\
    eff <> 0 /\
    (eff = 0.70 <->
     40 = EDF.design_speed_mps (EDF.__init__ "8.0kW EDF" 8000 1900 17 1.5)).
Proof.
  apply (propulsive_efficiency_bounds "8.0kW EDF" 8000 1900 17 1.5 40); lra.
Defined.

(** ** estimate_modified_cruise_speed *)

Lemma np_clip_range (x lo hi : R) : lo <= hi -> lo <= np_clip x lo hi <= hi.
Proof.
  intro H. unfold np_clip. split.
  - apply Rmin_glb; [apply Rmax_r | exact H].
  - apply Rmin_r.
Qed.

Lemma ln_10_pos : 0 < ln 10.
Proof. rewrite <- ln_1. apply ln_increasing; lra. Qed.

Lemma log10_le_2 (x : R) : 1 <= x <= 20 -> 0 <= log10 x <= 2.
Proof.
  intros [H1 H20]. unfold log10.
  pose proof ln_10_pos as H10.
  assert (Hx0 : 0 <= ln x).
  { destruct H1 as [H1 | H1]; [|rewrite <- H1, ln_1; lra].
    left. rewrite <- ln_1. apply ln_increasing; lra. }
  assert (Hx2 : ln x < 2 * ln 10).
  { replace (2 * ln 10) with (ln (10 * 10)) by (rewrite ln_mult; lra).
    apply ln_increasing; lra. }
  assert (Hinv : 0 < / ln 10) by (apply Rinv_0_lt_compat; exact H10).
  split.
  - apply Rmult_le_pos; lra.
  - apply Rmult_le_reg_r with (r := ln 10); [exact H10|].
    unfold Rdiv. rewrite Rmult_assoc, Rinv_l by lra. lra.
Qed.

Lemma cruise_speed_pos (power_w : R) (params : FixedWingParameters.t) :
  FixedWingParameters.wf params ->
  0 < estimate_modified_cruise_speed power_w params.
Proof.
  intros Hwf. unfold FixedWingParameters.wf in Hwf.
  unfold estimate_modified_cruise_speed.
  set (c := np_clip power_w 200 20000).
  set (pct := LogScaledParameter.percent (FixedWingParameters.endurance params))
    in *.
  assert (Hc : 200 <= c <= 20000) by (apply np_clip_range; lra).
  assert (Hb : 0 < Rpower c 0.6246) by apply exp_pos.
  assert (Hl : 0 <= log10 (Rmax 1 (c / 1000)) <= 2).
  { apply log10_le_2. split; [apply Rmax_l|]. apply Rmax_lub; lra. }
  assert (Hs : 0.35 <= 1 - pct / 100 * (1 - 0.35)) by lra.
  assert (Hp : 0.8 <= 1 - 0.10 * log10 (Rmax 1 (c / 1000))) by lra.
  apply Rmult_lt_0_compat; [apply Rmult_lt_0_compat|]; lra.
Qed.

Lemma Rpower_le_succ (x y : R) : 0 < x -> 0 <= y <= 1 -> Rpower x y <= 1 + x.
Proof.
  intros Hx [Hy0 Hy1].
  destruct (Rle_lt_dec 1 x) as [H1 | H1].
  - apply Rle_trans with (Rpower x 1).
    + apply Rle_Rpower; assumption.
    + rewrite Rpower_1 by exact Hx. lra.
  - apply Rle_trans with (Rpower 1 y).
    + apply Rle_Rpower_l; [exact Hy0 | lra].
    + unfold Rpower. rewrite ln_1, Rmult_0_r, exp_0. lra.
Qed.

Lemma cruise_speed_upper (power_w : R) (params : FixedWingParameters.t) :
  FixedWingParameters.wf params ->
  estimate_modified_cruise_speed power_w params <= 3963.
Proof.
  intros Hwf. unfold FixedWingParameters.wf in Hwf.
  unfold estimate_modified_cruise_speed.
  set (c := np_clip power_w 200 20000).
  set (pct := LogScaledParameter.percent (FixedWingParameters.endurance params))
    in *.
  assert (Hc : 200 <= c <= 20000) by (apply np_clip_range; lra).
  assert (Hb0 : 0 < Rpower c 0.6246) by apply exp_pos.
  assert (Hb : Rpower c 0.6246 <= 20000).
  { apply Rle_trans with (Rpower c 1).
    - apply Rle_Rpower; lra.
    - rewrite Rpower_1 by lra. lra. }
  assert (Hl : 0 <= log10 (Rmax 1 (c / 1000)) <= 2).
  { apply log10_le_2. split; [apply Rmax_l|]. apply Rmax_lub; lra. }
  set (sf := 1 - pct / 100 * (1 - 0.35)).
  set (sp := 1 - 0.10 * log10 (Rmax 1 (c / 1000))).
  assert (Hsf : 0 <= sf <= 1) by (unfold sf; lra).
  assert (Hsp : 0 <= sp <= 1) by (unfold sp; lra).
  assert (H1 : 0.19815 * Rpower c 0.6246 * sf <= 3963 * 1).
  { apply Rmult_le_compat; lra. }
  assert (H2 : 0.19815 * Rpower c 0.6246 * sf * sp <= 3963 * 1 * 1).
  { apply Rmult_le_compat; try lra.
    apply Rmult_le_pos; lra. }
  lra.
Qed.

(** ** Aircraft.__init__ *)

Lemma Rmax_floor_neq_0 (x : R) : Rmax 0.1 x <> 0.
Proof. pose proof (Rmax_l 0.1 x). lra. Qed.

Lemma ld_ratio_ge_7 (params : FixedWingParameters.t) :
  FixedWingParameters.wf params ->
  7 <= 7.0 + (LogScaledParameter.percent (FixedWingParameters.endurance params)
              / 100) * 5.0 <= 12.
Proof. unfold FixedWingParameters.wf. lra. Qed.

Lemma rate_of_climb_ok (e : EDF.t) (w ld s : R) :
  EDF.design_speed_mps e <> 0 -> w <> 0 -> ld <> 0 -> 0 < s ->
  exists roc,
    Aircraft.calculate_rate_of_climb e w ld (s * 1.20) (s * 1.31) = Ok roc.
Proof.
  intros Hd Hw Hld Hs. unfold Aircraft.calculate_rate_of_climb.
  rewrite efficiency_value by assumption. cbn [bind].
  rewrite (fdiv_ok w ld) by assumption. cbn [bind].
  rewrite Rltb_true by lra.
  rewrite (fdiv_ok (s * 1.20)) by lra. cbn [bind].
  assert (Hr : s * 1.20 / (s * 1.31) <> 0).
  { replace (s * 1.20 / (s * 1.31)) with (1.20 / 1.31) by (field; lra). lra. }
  rewrite (fdiv_ok 1) by exact Hr. cbn [bind].
  rewrite fdiv_ok by assumption. cbn [bind].
  eexists. reflexivity.
Qed.

(** The constructor succeeds as soon as the battery passes the check and
    no division meets a zero; the attributes that the later proofs use
    are spelled out. *)
Lemma init_ok (e : EDF.t) (b : Battery.t) (p : FixedWingParameters.t) :
  FixedWingParameters.wf p ->
  EDF.power_w e * 1.2 <= Battery.max_power_w b ->
  EDF.design_speed_mps e <> 0 ->
  EDF.power_w e <> 0 ->
  let psw := EDF.weight_kg e + Battery.weight_kg b in
  let mtow := psw + (0.4 + psw * 0.8) + 0.20 * (EDF.power_w e / 100) in
  let v := estimate_modified_cruise_speed (EDF.power_w e) p * 0.514444 in
  mtow <> 0 ->
  exists a,
    Aircraft.__init__ e b p = Ok a /\
    Aircraft.edf a = e /\ Aircraft.battery a = b /\ Aircraft.params a = p /\
    Aircraft.airframe_weight_kg a = 0.4 + psw * 0.8 /\
    Aircraft.payload_weight_kg a = 0.20 * (EDF.power_w e / 100) /\
    Aircraft.mtow_kg a = mtow /\
    Aircraft.weight_n a = mtow * 9.80665 /\
    Aircraft.ld_ratio a =
      7.0 + (LogScaledParameter.percent (FixedWingParameters.endurance p)
             / 100) * 5.0 /\
    Aircraft.cruise_ias_kts a
      = estimate_modified_cruise_speed (EDF.power_w e) p /\
    Aircraft.cruise_ias_mps a = v /\
    Aircraft.wing_area_m2 a = 2 * (mtow * 9.80665) / (1.225 * v ^ 2 * 0.4) /\
    0 < Aircraft.stall_speed_ias_mps a /\
    Aircraft.vr_ias_mps a = Aircraft.stall_speed_ias_mps a * 1.10 /\
    Aircraft.vy_ias_mps a = Aircraft.stall_speed_ias_mps a * 1.20 /\
    Aircraft.best_glide_ias_mps a = Aircraft.stall_speed_ias_mps a * 1.31 /\
    Aircraft.stall_speed_ias_mps a = sqrt (v ^ 2 * 0.4 / 1.5).
Proof.
  intros Hwf Hchk Hd HP psw mtow v Hm.
  pose proof (ld_ratio_ge_7 p Hwf) as Hld.
  pose proof (cruise_speed_pos (EDF.power_w e) p Hwf) as Hkts.
  assert (Hv : 0 < v) by (unfold v; lra).
  assert (Hv2 : 0 < v ^ 2) by (apply pow_lt; exact Hv).
  unfold Aircraft.__init__, Battery.check_power_output.
  rewrite Rltb_false by lra. cbn [bind].
  fold psw. fold mtow. fold v.
  set (ld := 7.0 + _) in *.
  set (W := mtow * 9.80665).
  assert (HW : W <> 0) by (unfold W; lra).
  rewrite (fdiv_ok _ W) by exact HW. cbn [bind].
  rewrite (fdiv_ok (2 * W) (1.225 * v ^ 2 * 0.4)) by lra. cbn [bind].
  set (S := 2 * W / (1.225 * v ^ 2 * 0.4)).
  assert (HS : 1.225 * S * 1.5 <> 0).
  { unfold S. intro H0.
    assert (H1 : 2 * W / (1.225 * v ^ 2 * 0.4) = 0) by lra.
    apply (f_equal (fun t => t * (1.225 * v ^ 2 * 0.4))) in H1.
    unfold Rdiv in H1. rewrite Rmult_assoc, Rinv_l in H1 by lra. lra. }
  rewrite (fdiv_ok (2 * W)) by exact HS. cbn [bind].
  assert (Hq : 2 * W / (1.225 * S * 1.5) = v ^ 2 * 0.4 / 1.5)
    by (unfold S; field; lra).
  rewrite Hq.
  rewrite math_sqrt_ok by lra. cbn [bind].
  set (s := sqrt (v ^ 2 * 0.4 / 1.5)).
  assert (Hs : 0 < s) by (unfold s; apply sqrt_lt_R0; lra).
  destruct (rate_of_climb_ok e W ld s) as [roc Hroc]; try assumption; try lra.
  rewrite Hroc. cbn [bind].
  rewrite (fdiv_ok W ld) by lra. cbn [bind].
  rewrite efficiency_value by assumption. cbn [bind].
  rewrite (fdiv_ok _ (Rmax 0.1 _)) by apply Rmax_floor_neq_0. cbn [bind].
  rewrite (fdiv_ok _ (EDF.power_w e)) by assumption. cbn [bind].
  eexists. split; [reflexivity|].
  cbn. repeat split; try reflexivity. exact Hs.
Qed.

Ltac bind_inv H :=
  match type of H with
  | bind ?m _ = Ok _ =>
      let x := fresh "x" in
      let E := fresh "E" in
      destruct m as [x|] eqn:E; cbn [bind] in H; [|discriminate H]
  end.

(** The weight build-up of any aircraft that the constructor returns. *)
Lemma init_weights (e : EDF.t) (b : Battery.t) (p : FixedWingParameters.t)
    (a : Aircraft.t) :
  Aircraft.__init__ e b p = Ok a ->
  Aircraft.edf a = e /\ Aircraft.battery a = b /\ Aircraft.params a = p /\
  Aircraft.airframe_weight_kg a
    = 0.4 + (EDF.weight_kg e + Battery.weight_kg b) * 0.8 /\
  Aircraft.payload_weight_kg a = 0.20 * (EDF.power_w e / 100) /\
  Aircraft.mtow_kg a
    = EDF.weight_kg e + Battery.weight_kg b + Aircraft.airframe_weight_kg a
      + Aircraft.payload_weight_kg a /\
  Aircraft.weight_n a = Aircraft.mtow_kg a * 9.80665 /\
  Aircraft.ld_ratio a =
    7.0 + (LogScaledParameter.percent (FixedWingParameters.endurance p)
           / 100) * 5.0.
Proof.
  intro H. unfold Aircraft.__init__ in H.
  repeat bind_inv H.
  injection H as <-. cbn. repeat split; reflexivity.
Qed.

(** C9 (as amended).  For every aircraft that the constructor returns,
    the airframe weight is [0.4 + 0.8 * (EDF weight + battery weight)],
    and the MTOW is the power-system weight plus the airframe weight plus
    the payload weight; consequently, whenever the rated power is positive
    and the power-system weight is not negative, the MTOW is strictly
    greater than the EDF weight plus the battery weight. *)
Theorem mtow_build_up (e : EDF.t) (b : Battery.t) (p : FixedWingParameters.t)
    (a : Aircraft.t) :
  Aircraft.__init__ e b p = Ok a ->
  let power_system_weight := EDF.weight_kg e + Battery.weight_kg b in
  Aircraft.airframe_weight_kg a = 0.4 + 0.8 * power_system_weight /\
  Aircraft.mtow_kg a
    = power_system_weight + Aircraft.airframe_weight_kg a
      + Aircraft.payload_weight_kg a /\
  (0 < EDF.power_w e -> 0 <= power_system_weight ->
   EDF.weight_kg e + Battery.weight_kg b < Aircraft.mtow_kg a).
Proof.
  intros H psw.
  destruct (init_weights e b p a H) as (_ & _ & _ & Ha & Hp & Hm & _).
  fold psw in Ha, Hm.
  split; [lra|]. split; [exact Hm|].
  intros HP Hpsw. fold psw. lra.
Qed.

Lemma default_params_built : FixedWingParameters.__init__ = Ok default_params.
Proof.
  unfold FixedWingParameters.__init__, LogScaledParameter.__init__,
    LogScaledParameter.set_percent.
  cmp_simpl. reflexivity.
Qed.

Lemma default_params_wf : FixedWingParameters.wf default_params.
Proof. unfold FixedWingParameters.wf. cbn. lra. Qed.

Lemma sample_aircraft_built :
  exists a, Aircraft.__init__ edf_8kw battery_5kg_30c default_params = Ok a.
Proof.
  destruct (init_ok edf_8kw battery_5kg_30c default_params)
    as [a [H _]]; try (cbn; lra).
  - apply default_params_wf.
  - exists a. exact H.
Qed.

Lemma mtow_build_up_witness :
  exists a,
    Aircraft.__init__ edf_8kw battery_5kg_30c default_params = Ok a /\
    Aircraft.airframe_weight_kg a
      = 0.4 + 0.8 * (EDF.weight_kg edf_8kw + Battery.weight_kg battery_5kg_30c)
    /\
    Aircraft.mtow_kg a
      = EDF.weight_kg edf_8kw + Battery.weight_kg battery_5kg_30c
        + Aircraft.airframe_weight_kg a + Aircraft.payload_weight_kg a /\
    (0 < EDF.power_w edf_8kw ->
     0 <= EDF.weight_kg edf_8kw + Battery.weight_kg battery_5kg_30c ->
     EDF.weight_kg edf_8kw + Battery.weight_kg battery_5kg_30c
     < Aircraft.mtow_kg a).
Proof.
  destruct sample_aircraft_built as [a H].
  exists a. split; [exact H|].
  exact (mtow_build_up edf_8kw battery_5kg_30c default_params a H).
Defined.

(** C9, as stated, fails for a pack whose weight is entered as negative,
    which neither [Battery(...)] nor the aircraft constructor refuses:
    with the 100 W EDF (0.5 kg) and the -10 kg pack the constructor
    returns an aircraft whose MTOW is -16.5 kg, below the -9.5 kg of the
    EDF and the battery together, although the rated power is positive. *)
Lemma mtow_build_up_negative_weight :
  exists a,
    Aircraft.__init__ edf_100w battery_negative_weight default_params = Ok a /\
    0 < EDF.power_w edf_100w /\
    Aircraft.mtow_kg a = -16.5 /\
    EDF.weight_kg edf_100w + Battery.weight_kg battery_negative_weight = -9.5 /\
    ~ (EDF.weight_kg edf_100w + Battery.weight_kg battery_negative_weight
       < Aircraft.mtow_kg a).
Proof.
  destruct (init_ok edf_100w battery_negative_weight default_params)
    as (a & H & _ & _ & _ & _ & _ & Hm & _); try (cbn; lra).
  - apply default_params_wf.
  - exists a. split; [exact H|].
    assert (Hv : Aircraft.mtow_kg a = -16.5) by (rewrite Hm; cbn; lra).
    split; [cbn; lra|]. split; [exact Hv|]. split; [cbn; lra|].
    rewrite Hv. cbn. lra.
Qed.

(** ** The takeoff roll *)

Lemma net_force_value (a : Aircraft.t) (mu : R) :
  Aircraft.ld_ratio a <> 0 ->
  net_force a mu =
  Ok (EDF.static_thrust_n (Aircraft.edf a)
      - 0.5 * RHO_SL_KGM3 * ((Aircraft.vr_ias_mps a * 0.7) ^ 2)
        * (Aircraft.wing_area_m2 a / Aircraft.ld_ratio a)
      - mu * Aircraft.weight_n a).
Proof.
  intro H. unfold net_force. rewrite fdiv_ok by exact H. reflexivity.
Qed.

Lemma built_ld_ratio (e : EDF.t) (b : Battery.t) (p : FixedWingParameters.t)
    (a : Aircraft.t) :
  FixedWingParameters.wf p -> Aircraft.__init__ e b p = Ok a ->
  7 <= Aircraft.ld_ratio a <= 12.
Proof.
  intros Hwf H.
  destruct (init_weights e b p a H) as (_ & _ & _ & _ & _ & _ & _ & Hld).
  rewrite Hld. apply ld_ratio_ge_7. exact Hwf.
Qed.

(** C7.  For every aircraft that the constructor returns, the net force
    of the takeoff roll is computed without raising; when it is zero or
    negative, [run_mission_simulation] returns, without raising and
    without entering the climb loop (so for any bound on it), the path
    that holds only the initial sample: one time and one distance, both
    zero, and a total distance of zero. *)
Theorem no_takeoff_degenerate_path (e : EDF.t) (b : Battery.t)
    (p : FixedWingParameters.t) (a : Aircraft.t) (fuel : nat) :
  FixedWingParameters.wf p ->
  Aircraft.__init__ e b p = Ok a ->
  (exists f, net_force a 0.04 = Ok f) /\
  (forall f, net_force a 0.04 = Ok f -> f <= 0 ->
     exists path,
       run_mission_simulation fuel a = Ok (Some path) /\
       path = FlightPath.__init__ /\
       FlightPath.time_s path = [0] /\
       FlightPath.dist_m path = [0] /\
       FlightPath.alt_ft path = [1] /\
       FlightPath.battery_pct path = [100] /\
       FlightPath.total_distance_km path = 0).
Proof.
  intros Hwf H.
  pose proof (built_ld_ratio e b p a Hwf H) as Hld.
  split.
  - eexists. apply net_force_value. lra.
  - intros f Hf Hle. exists FlightPath.__init__.
    split; [|repeat split; reflexivity].
    unfold run_mission_simulation, calculate_takeoff_distance.
    rewrite Hf. cbn [bind]. rewrite Rleb_true by exact Hle.
    reflexivity.
Qed.

Lemma no_thrust_net_force :
  exists a f,
    Aircraft.__init__ edf_no_thrust battery_5kg_30c default_params = Ok a /\
    net_force a 0.04 = Ok f /\ f <= 0.
Proof.
  destruct (init_ok edf_no_thrust battery_5kg_30c default_params)
    as (a & H & He & _ & _ & _ & _ & Hm & HW & Hld & _ & Hv & HS & Hs & Hvr & _);
    try (cbn; lra).
  - apply default_params_wf.
  - pose proof (built_ld_ratio _ _ _ a default_params_wf H) as Hl.
    pose proof (cruise_speed_pos (EDF.power_w edf_no_thrust) default_params
                  default_params_wf) as Hk.
    exists a. eexists. split; [exact H|].
    split; [apply net_force_value; lra|].
    rewrite He. cbn [edf_no_thrust EDF.__init__ EDF.static_thrust_n].
    assert (HWp : 0 < Aircraft.weight_n a) by (rewrite HW; cbn; lra).
    assert (Hv2 : 0 < (estimate_modified_cruise_speed
                         (EDF.power_w edf_no_thrust) default_params
                       * 0.514444) ^ 2) by (apply pow_lt; lra).
    assert (HSp : 0 <= Aircraft.wing_area_m2 a).
    { rewrite HS. apply Rmult_le_pos; [cbn; lra|].
      left. apply Rinv_0_lt_compat. lra. }
    assert (Hq : 0 <= Aircraft.wing_area_m2 a / Aircraft.ld_ratio a).
    { apply Rmult_le_pos; [exact HSp|]. left. apply Rinv_0_lt_compat. lra. }
    assert (Hsq : 0 <= (Aircraft.vr_ias_mps a * 0.7) ^ 2) by apply pow2_ge_0.
    assert (Hd : 0 <= 0.5 * RHO_SL_KGM3 * (Aircraft.vr_ias_mps a * 0.7) ^ 2
                      * (Aircraft.wing_area_m2 a / Aircraft.ld_ratio a)).
    { apply Rmult_le_pos; [|exact Hq].
      apply Rmult_le_pos; [unfold RHO_SL_KGM3; lra | exact Hsq]. }
    lra.
Qed.

Lemma no_takeoff_degenerate_path_witness :
  exists a f,
    Aircraft.__init__ edf_no_thrust battery_5kg_30c default_params = Ok a /\
    net_force a 0.04 = Ok f /\ f <= 0 /\
    run_mission_simulation 0 a = Ok (Some FlightPath.__init__).
Proof.
  destruct no_thrust_net_force as (a & f & H & Hf & Hle).
  exists a, f. split; [exact H|]. split; [exact Hf|]. split; [exact Hle|].
  destruct (no_takeoff_degenerate_path edf_no_thrust battery_5kg_30c
              default_params a 0 default_params_wf H) as [_ Hrun].
  destruct (Hrun f Hf Hle) as (path & Hp & -> & _).
  exact Hp.
Defined.

(** ** The staged objective functions *)

Lemma Int_part_IZR (z : Z) : Int_part (IZR z) = z.
Proof. symmetry. apply Int_part_spec. lra. Qed.

Lemma py_round_IZR (z : Z) : py_round (IZR z) = z.
Proof.
  unfold py_round. rewrite Int_part_IZR.
  rewrite Rltb_true by lra. reflexivity.
Qed.

Lemma iloc_out_of_frame (df : DataFrame) (i : Z) :
  out_of_frame df i -> iloc df i = Raise IndexError.
Proof.
  unfold out_of_frame, iloc. intros H.
  set (n := Z.of_nat (List.length df)) in *.
  assert (Hn : (0 <= n)%Z) by (unfold n; lia).
  destruct (Z.ltb_spec i 0).
  - destruct H as [H | H]; [|lia].
    replace (n + i <? 0)%Z with true by (symmetry; apply Z.ltb_lt; lia).
    reflexivity.
  - destruct H as [H | H]; [lia|].
    replace (i <? 0)%Z with false by (symmetry; apply Z.ltb_ge; lia).
    replace (n <=? i)%Z with true by (symmetry; apply Z.leb_le; lia).
    reflexivity.
Qed.

Lemma edf_body_out_of_frame (cat : catalogs) (p0 : R) (rest : list R)
    (tv : UAVVariant) :
  out_of_frame (edf_summary cat) (py_round p0) ->
  raises (edf_fitness_body cat (p0 :: rest) tv).
Proof.
  intro H. unfold edf_fitness_body, raises.
  cbn [param_item nth_error bind].
  destruct (param_item (p0 :: rest) 1) as [p1|ex]; cbn [bind];
    [|eexists; reflexivity].
  destruct (count_map (py_round p1)) as [k|ex]; cbn [bind];
    [|eexists; reflexivity].
  rewrite iloc_out_of_frame by exact H. eexists. reflexivity.
Qed.

Lemma battery_body_out_of_frame (cat : catalogs) (p0 : R) (rest : list R)
    (best : edf_score_details) (tv : UAVVariant) (geom : rules_t) :
  out_of_frame (battery_summary cat) (py_round p0) ->
  raises (battery_fitness_body cat (p0 :: rest) best tv geom).
Proof.
  intro H. unfold battery_fitness_body, raises.
  cbn [param_item nth_error bind].
  destruct (param_item (p0 :: rest) 1) as [p1|ex]; cbn [bind];
    [|eexists; reflexivity].
  destruct (count_map (py_round p1)) as [k|ex]; cbn [bind];
    [|eexists; reflexivity].
  rewrite iloc_out_of_frame by exact H. eexists. reflexivity.
Qed.

(** The guard at work: when the rounded catalog index is a position that
    the catalog's [iloc] rejects (at or past the number of rows, or below
    minus the number of rows), [edf_fitness_function] and
    [battery_fitness_function] return the cost [+inf] (with no details);
    being total they raise nothing; and on every input they hand the
    catalogs back as they were. *)
Lemma rejected_index_costs_inf (cat : catalogs) (p0 : R) (rest : list R)
    (tv : UAVVariant) (best : edf_score_details) (geom : rules_t) :
  (out_of_frame (edf_summary cat) (py_round p0) ->
   edf_fitness_function cat (p0 :: rest) tv = ((Inf, None), cat)) /\
  (out_of_frame (battery_summary cat) (py_round p0) ->
   battery_fitness_function cat (p0 :: rest) best tv geom
   = ((Inf, None), cat)) /\
  (forall params, snd (edf_fitness_function cat params tv) = cat) /\
  (forall params,
     snd (battery_fitness_function cat params best tv geom) = cat).
Proof.
  repeat split.
  - intro H. unfold edf_fitness_function.
    destruct (edf_body_out_of_frame cat p0 rest tv H) as [ex ->].
    reflexivity.
  - intro H. unfold battery_fitness_function.
    destruct (battery_body_out_of_frame cat p0 rest best tv geom H)
      as [ex ->].
    reflexivity.
Qed.

Lemma rejected_index_costs_inf_witness :
  edf_fitness_function sample_catalogs [IZR 1; IZR 0] sample_variant
  = ((Inf, None), sample_catalogs) /\
  battery_fitness_function sample_catalogs [IZR (-2); IZR 0]
    (mk_edf_details 0 1 49.05 1000 10 0.1 None) sample_variant []
  = ((Inf, None), sample_catalogs).
Proof.
  split.
  - apply (rejected_index_costs_inf sample_catalogs (IZR 1) [IZR 0]
             sample_variant (mk_edf_details 0 1 49.05 1000 10 0.1 None) []).
    rewrite py_round_IZR. right. cbn. lia.
  - apply (rejected_index_costs_inf sample_catalogs (IZR (-2)) [IZR 0]
             sample_variant (mk_edf_details 0 1 49.05 1000 10 0.1 None) []).
    rewrite py_round_IZR. left. cbn. lia.
Defined.

(** C8.  The guard misses the negative indices that [iloc] counts from
    the end: on the one-row EDF catalog the parameter vector [[-1, 0]]
    rounds to the index -1, which lies outside the rows [0 .. n-1], and
    yet [edf_fitness_function] selects the last row and returns the
    finite cost 0.1 with its details instead of [+inf]. *)
Theorem negative_index_wraps :
  py_round (IZR (-1)) = (-1)%Z /\
  ~ (0 <= -1 < Z.of_nat (List.length (edf_summary sample_catalogs)))%Z /\
  edf_fitness_function sample_catalogs [IZR (-1); IZR 0] sample_variant
  = ((Fin 0.1, Some (mk_edf_details (-1) 1 49.05 1000 10 0.1 None)),
     sample_catalogs).
Proof.
  split; [apply py_round_IZR|]. split; [cbn; lia|].
  unfold edf_fitness_function, edf_fitness_body.
  cbn [param_item nth_error bind]. rewrite !py_round_IZR.
  cbn.
  replace (49.05 * 1 - 10 * 9.81 * 0.5) with 0 by lra.
  replace (10 * 1 - 10) with 0 by lra.
  rewrite Rabs_R0.
  cmp_simpl.
  replace (49.05 * 1 / (10 * 1 * 9.81) - 0.5) with 0 by lra.
  rewrite Rabs_R0.
  cbn [try_except].
  replace (0 / (10 * 9.81 * 0.5) + 0 / 10 + 0 / 0.5 + 1000 * 1 / 10000)
    with 0.1 by lra.
  replace (49.05 * 1) with 49.05 by lra.
  replace (1000 * 1) with 1000 by lra.
  replace (10 * 1) with 10 by lra.
  reflexivity.
Qed.

(** ** Aircraft.design_from_mission

    First on real numbers, where the loop is followed as long as every
    guess stays positive; then on numpy scalars, where it is followed
    whatever the guesses become. *)

Lemma from_power_ok (P : R) :
  0 < P ->
  exists e,
    EDF.from_power P = Ok e /\
    EDF.power_w e = P /\
    0.05 < EDF.weight_kg e /\
    EDF.design_speed_mps e = 25 + P / 150.
Proof.
  intro HP. unfold EDF.from_power.
  rewrite !fpow_ok by exact HP. cbn [bind].
  eexists. split; [reflexivity|].
  cbn. repeat split.
  assert (0 < Rpower P 0.75) by apply exp_pos. lra.
Qed.

Lemma design_setup_ok (params : FixedWingParameters.t) (rules : rules_t)
    (guess target : R) :
  FixedWingParameters.wf params ->
  getitem rules "cruise_power_target" = Ok target ->
  0 < guess ->
  exists cruise eff,
    Aircraft.design_setup params rules guess = Ok (cruise, eff) /\
    0 < cruise <= 2039 /\ 0.1 <= eff <= 0.70.
Proof.
  intros Hwf Ht Hg. unfold Aircraft.design_setup.
  rewrite Ht. cbn [bind].
  set (P := guess * (if 80 <? target then 220 else 150)).
  assert (HP : 0 < P).
  { unfold P. destruct (80 <? target); apply Rmult_lt_0_compat; lra. }
  destruct (from_power_ok P HP) as (e & He & _ & _ & Hd).
  rewrite He. cbn [bind].
  assert (Hd0 : EDF.design_speed_mps e <> 0).
  { rewrite Hd. assert (0 < P / 150) by (apply Rdiv_lt_0_compat; lra). lra. }
  pose proof (efficiency_value e
                (estimate_modified_cruise_speed P params * 0.514444) Hd0)
    as Hv.
  rewrite Hv. cbn [bind].
  eexists. eexists. split; [reflexivity|].
  split.
  - pose proof (cruise_speed_pos P params Hwf).
    pose proof (cruise_speed_upper P params Hwf). lra.
  - apply (efficiency_range e _ _ Hv).
Qed.

Lemma required_motor_power_ok (params : FixedWingParameters.t)
    (rules : rules_t) (cruise eff guess target : R) :
  FixedWingParameters.wf params ->
  getitem rules "cruise_power_target" = Ok target ->
  0 < target -> 0 < cruise -> 0 < eff -> 0 < guess ->
  exists P,
    Aircraft.required_motor_power params rules cruise eff guess = Ok P /\
    0 < P.
Proof.
  intros Hwf Ht Htp Hc He Hg.
  pose proof (ld_ratio_ge_7 params Hwf) as Hld.
  unfold Aircraft.required_motor_power.
  set (ld := 7.0 + _) in *.
  rewrite (fdiv_ok _ ld) by lra. cbn [bind].
  rewrite (fdiv_ok _ eff) by lra. cbn [bind].
  rewrite Ht. cbn [bind].
  rewrite fdiv_ok by lra.
  eexists. split; [reflexivity|].
  repeat apply Rdiv_lt_0_compat; try lra.
  apply Rmult_lt_0_compat; [|exact Hc].
  apply Rdiv_lt_0_compat; lra.
Qed.


Section DesignLoop.

Variables (params : FixedWingParameters.t) (rules : rules_t) (b : Battery.t).
Variables (cruise eff target : R).
Hypothesis Hwf : FixedWingParameters.wf params.
Hypothesis Htarget : getitem rules "cruise_power_target" = Ok target.
Hypothesis Htarget_pos : 0 < target.
Hypothesis Hcruise : 0 < cruise.
Hypothesis Heff : 0 < eff.
Hypothesis Hweight : 0 <= Battery.weight_kg b.

(** What a finished run of the loop satisfies: it made between one and
    [n] passes, its aircraft is the one built in the pass at its last
    guess, and either that pass met the 1% test or all [n] passes were
    made. *)
Let finished (n : nat) (d : Aircraft.design) : Prop :=
  (1 <= Aircraft.passes d <= n)%nat /\
  0 < Aircraft.last_guess_kg d /\
  (exists c next,
     Aircraft.design_step params rules b cruise eff (Aircraft.last_guess_kg d)
     = Ok (Aircraft.aircraft d, c, next)) /\
  (Rabs (Aircraft.mtow_kg (Aircraft.aircraft d) - Aircraft.last_guess_kg d)
   / Aircraft.last_guess_kg d < 0.01
   \/ Aircraft.passes d = n).


End DesignLoop.

(** *** Sample inputs on real numbers

    Crude bounds on the guesses of successive passes, enough to see that
    a pack of very large power supplies all 15 of them. *)

Lemma required_motor_power_value (params : FixedWingParameters.t)
    (rules : rules_t) (cruise eff guess target : R) :
  FixedWingParameters.wf params ->
  getitem rules "cruise_power_target" = Ok target ->
  0 < target -> 0 < eff ->
  Aircraft.required_motor_power params rules cruise eff guess
  = Ok (guess * 9.80665
        / (7.0 + (LogScaledParameter.percent
                    (FixedWingParameters.endurance params) / 100) * 5.0)
        * cruise / eff / (target / 100)).
Proof.
  intros Hwf Ht Htp He.
  pose proof (ld_ratio_ge_7 params Hwf) as Hld.
  unfold Aircraft.required_motor_power.
  set (ld := 7.0 + _) in *.
  rewrite (fdiv_ok _ ld) by lra. cbn [bind].
  rewrite (fdiv_ok _ eff) by lra. cbn [bind].
  rewrite Ht. cbn [bind].
  rewrite fdiv_ok by lra. reflexivity.
Qed.

Lemma required_motor_power_bound (params : FixedWingParameters.t)
    (rules : rules_t) (cruise eff guess target P : R) :
  FixedWingParameters.wf params ->
  getitem rules "cruise_power_target" = Ok target ->
  70 <= target -> 0 < cruise <= 2039 -> 0.1 <= eff -> 0 < guess ->
  Aircraft.required_motor_power params rules cruise eff guess = Ok P ->
  0 < P <= 41000 * guess.
Proof.
  intros Hwf Ht Htp Hc He Hg HP.
  pose proof (ld_ratio_ge_7 params Hwf) as Hld.
  rewrite (required_motor_power_value params rules cruise eff guess target)
    in HP by (assumption || lra).
  injection HP as <-.
  set (ld := 7.0 + _) in *.
  assert (Hild : 0 < / ld <= / 7).
  { split; [apply Rinv_0_lt_compat; lra|].
    apply Rinv_le_contravar; lra. }
  assert (Hie : 0 < / eff <= 10).
  { split; [apply Rinv_0_lt_compat; lra|].
    replace 10 with (/ 0.1) by lra. apply Rinv_le_contravar; lra. }
  assert (Hit : 0 < / (target / 100) <= 100 / 70).
  { split; [apply Rinv_0_lt_compat; lra|].
    replace (100 / 70) with (/ (70 / 100)) by lra.
    apply Rinv_le_contravar; lra. }
  replace (guess * 9.80665 / ld * cruise / eff / (target / 100))
    with (guess * 9.80665 * / ld * cruise * / eff * / (target / 100))
    by reflexivity.
  set (x1 := / ld) in *. set (x2 := / eff) in *.
  set (x3 := / (target / 100)) in *.
  assert (H1 : 0 < guess * 9.80665 * x1 <= guess * 9.80665 * / 7).
  { split; [apply Rmult_lt_0_compat; lra|].
    apply Rmult_le_compat_l; lra. }
  assert (H2 : 0 < guess * 9.80665 * x1 * cruise
               <= guess * 9.80665 * / 7 * 2039).
  { split; [apply Rmult_lt_0_compat; lra|].
    apply Rmult_le_compat; lra. }
  assert (H3 : 0 < guess * 9.80665 * x1 * cruise * x2
               <= guess * 9.80665 * / 7 * 2039 * 10).
  { split; [apply Rmult_lt_0_compat; lra|].
    apply Rmult_le_compat; lra. }
  assert (H4 : 0 < guess * 9.80665 * x1 * cruise * x2 * x3
               <= guess * 9.80665 * / 7 * 2039 * 10 * (100 / 70)).
  { split; [apply Rmult_lt_0_compat; lra|].
    apply Rmult_le_compat; lra. }
  lra.
Qed.





(** *** The design loop on numpy scalars

    Nothing in a pass raises but the check of the battery: a zero
    divisor or a negative base gives an infinity or [nan], the square
    root is taken of a non-negative number or of [nan], and the ratios
    between the speeds are taken of numbers that are not zero. *)

Lemma np_div_num (a b : R) :
  b <> 0 -> NP.div (NP.Num a) (NP.Num b) = NP.Num (a / b).
Proof. intro H. unfold NP.div. rewrite Reqb_false by exact H. reflexivity. Qed.

Lemma np_py_div_num (x : NP.scalar) (b : R) :
  b <> 0 -> NP.py_div x (NP.Num b) = Ok (NP.div x (NP.Num b)).
Proof.
  intro H. unfold NP.py_div. rewrite Reqb_false by exact H. reflexivity.
Qed.

Lemma np_pow_num (a y : R) :
  0 < a -> NP.pow (NP.Num a) y = NP.Num (Rpower a y).
Proof.
  intro H. unfold NP.pow. rewrite Rltb_false, Reqb_false by lra. reflexivity.
Qed.

Lemma np_py_max_num (a b : R) :
  NP.py_max (NP.Num a) (NP.Num b) = NP.Num (Rmax a b).
Proof.
  unfold NP.py_max, NP.lt, Rltb, Rmax.
  destruct (Rlt_dec a b), (Rle_dec a b); try reflexivity; try lra.
  f_equal. lra.
Qed.

(** On a finite power the numpy estimate is the one of the float model. *)
Lemma np_cruise_speed_num (p : R) (params : FixedWingParameters.t) :
  NP.estimate_modified_cruise_speed (NP.Num p) params
  = NP.Num (estimate_modified_cruise_speed p params).
Proof.
  unfold NP.estimate_modified_cruise_speed, estimate_modified_cruise_speed.
  cbn [NP.np_clip]. fold (np_clip p 200 20000).
  pose proof (np_clip_range p 200 20000 ltac:(lra)) as Hc.
  set (c := np_clip p 200 20000) in *.
  rewrite np_pow_num by lra.
  rewrite np_div_num by lra.
  rewrite np_py_max_num.
  assert (Hm : 1 <= Rmax 1 (c / 1000)) by apply Rmax_l.
  unfold NP.np_log10. rewrite Rltb_false, Reqb_false by lra.
  reflexivity.
Qed.

(** The estimate of any power is [nan] or a positive number. *)
Lemma np_cruise_speed_range (P : NP.scalar) (params : FixedWingParameters.t) :
  FixedWingParameters.wf params ->
  NP.estimate_modified_cruise_speed P params = NP.NaN \/
  exists v, NP.estimate_modified_cruise_speed P params = NP.Num v /\ 0 < v.
Proof.
  intro Hwf. destruct P as [p| | |].
  - right. rewrite np_cruise_speed_num. eexists. split; [reflexivity|].
    apply cruise_speed_pos. exact Hwf.
  - right.
    replace (NP.estimate_modified_cruise_speed NP.PInf params)
      with (NP.estimate_modified_cruise_speed (NP.Num 20000) params).
    + rewrite np_cruise_speed_num. eexists. split; [reflexivity|].
      apply cruise_speed_pos. exact Hwf.
    + unfold NP.estimate_modified_cruise_speed. cbn [NP.np_clip].
      unfold Rmax, Rmin.
      destruct (Rle_dec 20000 200); [lra|].
      destruct (Rle_dec 20000 20000); [reflexivity | lra].
  - right.
    replace (NP.estimate_modified_cruise_speed NP.NInf params)
      with (NP.estimate_modified_cruise_speed (NP.Num 200) params).
    + rewrite np_cruise_speed_num. eexists. split; [reflexivity|].
      apply cruise_speed_pos. exact Hwf.
    + unfold NP.estimate_modified_cruise_speed. cbn [NP.np_clip].
      unfold Rmax, Rmin.
      destruct (Rle_dec 200 200); [|lra].
      destruct (Rle_dec 200 20000); [reflexivity | lra].
  - left. reflexivity.
Qed.

(** The efficiency is a number between the floor and the peak, whatever
    the operands: [nan] and infinities end at the floor. *)
Lemma np_efficiency_range (e : NP.EDF.t) (tas : NP.scalar) :
  exists eff,
    NP.EDF.get_propulsive_efficiency e tas = NP.Num eff /\ 0.1 <= eff <= 0.70.
Proof.
  unfold NP.EDF.get_propulsive_efficiency.
  set (w := NP.sub (NP.div tas (NP.EDF.design_speed_mps e)) (NP.Num 1)).
  destruct w as [a| | |].
  - cbn [NP.sqr NP.mul NP.neg].
    rewrite np_div_num by lra. cbn [NP.math_exp NP.mul].
    rewrite np_py_max_num. eexists. split; [reflexivity|].
    replace (- (a * a) / 0.8) with (- ((a + 1 - 1) ^ 2) / 0.8)
      by (f_equal; ring).
    apply efficiency_formula_range.
  - cbn [NP.sqr NP.mul NP.neg NP.div NP.signed_inf].
    rewrite Rltb_false by lra. cbn [NP.signed_inf NP.math_exp NP.mul].
    rewrite np_py_max_num. eexists. split; [reflexivity|].
    rewrite Rmult_0_r. rewrite Rmax_left by lra. lra.
  - cbn [NP.sqr NP.mul NP.neg NP.div NP.signed_inf].
    rewrite Rltb_false by lra. cbn [NP.signed_inf NP.math_exp NP.mul].
    rewrite np_py_max_num. eexists. split; [reflexivity|].
    rewrite Rmult_0_r. rewrite Rmax_left by lra. lra.
  - cbn. exists 0.1. split; [reflexivity | lra].
Qed.

Lemma np_add_finite (x y : NP.scalar) :
  NP.finite_or_nan x -> NP.finite_or_nan y -> NP.finite_or_nan (NP.add x y).
Proof. destruct x, y; cbn; tauto. Qed.

Lemma np_mul_finite (x y : NP.scalar) :
  NP.finite_or_nan x -> NP.finite_or_nan y -> NP.finite_or_nan (NP.mul x y).
Proof. destruct x, y; cbn; tauto. Qed.

Lemma np_div_finite (x : NP.scalar) (b : R) :
  b <> 0 -> NP.finite_or_nan x -> NP.finite_or_nan (NP.div x (NP.Num b)).
Proof.
  intros Hb Hx. destruct x; cbn in *; try tauto.
  rewrite Reqb_false by exact Hb. exact I.
Qed.

Lemma np_pow_finite (x : NP.scalar) (y : R) :
  NP.finite_or_nan x -> NP.finite_or_nan (NP.pow x y).
Proof.
  destruct x as [a| | |]; cbn; try tauto. intros _.
  destruct (a <? 0); [exact I|]. destruct (a =? 0); exact I.
Qed.

Lemma np_from_power_finite (P : NP.scalar) :
  NP.finite_or_nan P ->
  NP.EDF.power_w (NP.EDF.from_power P) = P /\
  NP.finite_or_nan (NP.EDF.weight_kg (NP.EDF.from_power P)).
Proof.
  intro HP. split; [reflexivity|].
  cbn [NP.EDF.from_power NP.EDF.__init__ NP.EDF.weight_kg].
  apply np_add_finite; [exact I|].
  apply np_mul_finite; [exact I|]. apply np_pow_finite. exact HP.
Qed.

(** The motor power of a pass is a number or [nan] when the guess is. *)
Lemma np_required_motor_power_returns (params : FixedWingParameters.t)
    (rules : rules_t) (cruise eff target : R) (guess : NP.scalar) :
  FixedWingParameters.wf params ->
  getitem rules "cruise_power_target" = Ok target ->
  0 < target -> 0 < eff ->
  NP.finite_or_nan guess ->
  exists P,
    NP.Aircraft.required_motor_power params rules (NP.Num cruise)
      (NP.Num eff) guess = Ok P /\
    NP.finite_or_nan P.
Proof.
  intros Hwf Ht Htp He Hg.
  pose proof (ld_ratio_ge_7 params Hwf) as Hld.
  unfold NP.Aircraft.required_motor_power.
  set (ld := 7.0 + _) in *.
  rewrite np_py_div_num by lra. cbn [bind].
  rewrite Ht. cbn [bind].
  eexists. split; [reflexivity|].
  assert (Ht100 : target / 100 <> 0).
  { assert (0 < target / 100) by (apply Rdiv_lt_0_compat; lra). lra. }
  apply np_div_finite; [exact Ht100|].
  apply np_div_finite; [lra|].
  apply np_mul_finite; [|exact I].
  apply np_div_finite; [lra|].
  apply np_mul_finite; [exact Hg | exact I].
Qed.

(** The stall speed: the ratio under the root is the square of the
    cruise speed times 0.4 / 1.5, or [nan] when the weight is zero or
    [nan]; never a negative number. *)
Lemma np_stall_speed_returns (W c : NP.scalar) :
  NP.finite_or_nan W ->
  (c = NP.NaN \/ exists v, c = NP.Num v /\ 0 < v) ->
  exists s,
    NP.math_sqrt
      (NP.div (NP.mul (NP.Num 2) W)
         (NP.mul
            (NP.mul (NP.Num 1.225)
               (NP.div (NP.mul (NP.Num 2) W)
                  (NP.mul (NP.mul (NP.Num 1.225) (NP.sqr c)) (NP.Num 0.4))))
            (NP.Num 1.5))) = Ok s /\
    (s = NP.NaN \/ exists r, s = NP.Num r /\ 0 < r).
Proof.
  intros HW Hc.
  destruct W as [w| | |]; try contradiction.
  - destruct Hc as [-> | (v & -> & Hv)].
    + cbn. exists NP.NaN. split; [reflexivity | left; reflexivity].
    + cbn [NP.sqr NP.mul].
      assert (HD : 0 < 1.225 * (v * v) * 0.4) by nra.
      rewrite np_div_num by lra. cbn [NP.mul].
      set (D := 1.225 * (v * v) * 0.4) in *.
      destruct (Req_dec w 0) as [-> | Hw].
      * unfold NP.div.
        replace (1.225 * (2 * 0 / D) * 1.5) with 0 by (unfold Rdiv; ring).
        replace (2 * 0) with 0 by ring.
        rewrite Reqb_true by reflexivity. cbn.
        exists NP.NaN. split; [reflexivity | left; reflexivity].
      * assert (Hq : 1.225 * (2 * w / D) * 1.5 <> 0 /\
                     0 < 2 * w / (1.225 * (2 * w / D) * 1.5)).
        { destruct (Rtotal_order w 0) as [Hn | [Hz | Hp]]; [|lra|].
          - assert (HS : 0 < (- (2 * w)) / D)
              by (apply Rdiv_lt_0_compat; lra).
            replace (- (2 * w) / D) with (- (2 * w / D)) in HS
              by (unfold Rdiv; ring).
            set (S := 2 * w / D) in *.
            split; [lra|].
            replace (2 * w / (1.225 * S * 1.5))
              with (- (2 * w) / - (1.225 * S * 1.5)) by (field; lra).
            apply Rdiv_lt_0_compat; lra.
          - assert (HS : 0 < 2 * w / D) by (apply Rdiv_lt_0_compat; lra).
            set (S := 2 * w / D) in *.
            split; [lra|]. apply Rdiv_lt_0_compat; lra. }
        destruct Hq as [HD2 Hq].
        rewrite np_div_num by exact HD2.
        unfold NP.math_sqrt. rewrite Rltb_false by lra.
        eexists. split; [reflexivity|]. right.
        eexists. split; [reflexivity|]. apply sqrt_lt_R0. exact Hq.
  - exists NP.NaN. cbn. split; [reflexivity | left; reflexivity].
Qed.

(** The climb rate: the two divisions between the speeds never meet a
    zero. *)
Lemma np_rate_of_climb_returns (e : NP.EDF.t) (W : NP.scalar) (ld : R)
    (s : NP.scalar) :
  (s = NP.NaN \/ exists r, s = NP.Num r /\ 0 < r) ->
  exists roc,
    NP.Aircraft.calculate_rate_of_climb e W ld (NP.mul s (NP.Num 1.20))
      (NP.mul s (NP.Num 1.31)) = Ok roc.
Proof.
  intros [-> | (r & -> & Hr)]; unfold NP.Aircraft.calculate_rate_of_climb.
  - cbn [NP.mul NP.lt bind]. rewrite np_py_div_num by lra. cbn [bind].
    eexists. reflexivity.
  - cbn [NP.mul NP.lt]. rewrite Rltb_true by lra.
    rewrite np_py_div_num by lra. cbn [bind].
    rewrite np_div_num by lra.
    assert (r * 1.20 / (r * 1.31) <> 0).
    { assert (0 < r * 1.20 / (r * 1.31)) by (apply Rdiv_lt_0_compat; lra).
      lra. }
    rewrite np_py_div_num by assumption. cbn [bind].
    eexists. reflexivity.
Qed.

(** What the constructor stores, when it returns. *)
Lemma np_init_inv (e : NP.EDF.t) (b : Battery.t)
    (params : FixedWingParameters.t) (a : NP.Aircraft.t) :
  NP.Aircraft.__init__ e b params = Ok a ->
  NP.check_power_output b (NP.EDF.power_w e) = Ok tt /\
  NP.Aircraft.edf a = e /\ NP.Aircraft.battery a = b /\
  NP.Aircraft.params a = params /\
  NP.Aircraft.mtow_kg a
  = NP.add
      (NP.add (NP.add (NP.EDF.weight_kg e) (NP.Num (Battery.weight_kg b)))
         (NP.add (NP.Num 0.4)
            (NP.mul
               (NP.add (NP.EDF.weight_kg e) (NP.Num (Battery.weight_kg b)))
               (NP.Num 0.8))))
      (NP.mul (NP.Num 0.20) (NP.div (NP.EDF.power_w e) (NP.Num 100))).
Proof.
  intro H. unfold NP.Aircraft.__init__ in H.
  destruct (NP.check_power_output b (NP.EDF.power_w e)) as [[]|x] eqn:Ec;
    [|discriminate].
  cbn [bind] in H.
  match type of H with
  | bind ?m _ = _ => destruct m as [s|x]; [|discriminate]
  end.
  cbn [bind] in H.
  match type of H with
  | bind ?m _ = _ => destruct m as [roc|x]; [|discriminate]
  end.
  cbn [bind] in H. injection H as <-.
  cbn. repeat split.
Qed.

(** The constructor returns whenever the check of the battery passes:
    nothing else in it can raise on the values the loop meets. *)
Lemma np_init_returns (e : NP.EDF.t) (b : Battery.t)
    (params : FixedWingParameters.t) :
  FixedWingParameters.wf params ->
  NP.finite_or_nan (NP.EDF.power_w e) ->
  NP.finite_or_nan (NP.EDF.weight_kg e) ->
  NP.check_power_output b (NP.EDF.power_w e) = Ok tt ->
  exists a,
    NP.Aircraft.__init__ e b params = Ok a /\
    NP.finite_or_nan (NP.Aircraft.mtow_kg a).
Proof.
  intros Hwf HP Hw Hc.
  assert (Hm : NP.finite_or_nan
    (NP.add
      (NP.add (NP.add (NP.EDF.weight_kg e) (NP.Num (Battery.weight_kg b)))
         (NP.add (NP.Num 0.4)
            (NP.mul
               (NP.add (NP.EDF.weight_kg e) (NP.Num (Battery.weight_kg b)))
               (NP.Num 0.8))))
      (NP.mul (NP.Num 0.20) (NP.div (NP.EDF.power_w e) (NP.Num 100))))).
  { repeat first [ apply np_add_finite | apply np_mul_finite
                 | apply np_div_finite; [lra|] | exact I | assumption ]. }
  assert (Ha : exists a, NP.Aircraft.__init__ e b params = Ok a).
  { unfold NP.Aircraft.__init__. rewrite Hc. cbn [bind].
    match goal with
    | |- exists a, bind (NP.math_sqrt (NP.div (NP.mul _ ?W) (NP.mul (NP.mul _
           (NP.div _ (NP.mul (NP.mul _ (NP.sqr ?c)) _))) _))) _ = _ =>
        destruct (np_stall_speed_returns W c) as (s & Hs & Hsr)
    end.
    - apply np_mul_finite; [exact Hm | exact I].
    - destruct (np_cruise_speed_range (NP.EDF.power_w e) params Hwf)
        as [-> | (v & -> & Hv)].
      + left. reflexivity.
      + right. cbn [NP.mul]. eexists. split; [reflexivity | lra].
    - rewrite Hs. cbn [bind].
      match goal with
      | |- exists a, bind (NP.Aircraft.calculate_rate_of_climb ?e ?W ?ld _ _)
                       _ = _ =>
          destruct (np_rate_of_climb_returns e W ld s Hsr) as (roc & Hroc)
      end.
      rewrite Hroc. cbn [bind]. eexists. reflexivity. }
  destruct Ha as (a & Ha). exists a. split; [exact Ha|].
  destruct (np_init_inv e b params a Ha) as (_ & _ & _ & _ & ->). exact Hm.
Qed.

Lemma np_design_setup_ok (params : FixedWingParameters.t) (rules : rules_t)
    (guess target : R) :
  FixedWingParameters.wf params ->
  getitem rules "cruise_power_target" = Ok target ->
  0 < guess ->
  exists cruise eff,
    NP.Aircraft.design_setup params rules guess
    = Ok (NP.Num cruise, NP.Num eff) /\
    0 < cruise <= 2039 /\ 0.1 <= eff <= 0.70.
Proof.
  intros Hwf Ht Hg. unfold NP.Aircraft.design_setup.
  rewrite Ht. cbn [bind].
  set (P := guess * (if 80 <? target then 220 else 150)).
  rewrite np_cruise_speed_num. cbn [NP.mul].
  destruct (np_efficiency_range (NP.EDF.from_power (NP.Num P))
              (NP.Num (estimate_modified_cruise_speed P params * 0.514444)))
    as (eff & -> & He).
  eexists. eexists. split; [reflexivity|]. split; [|exact He].
  pose proof (cruise_speed_pos P params Hwf).
  pose proof (cruise_speed_upper P params Hwf). lra.
Qed.

Section NumpyDesignLoop.

Variables (params : FixedWingParameters.t) (rules : rules_t) (b : Battery.t).
Variables (cruise eff target : R).
Hypothesis Hwf : FixedWingParameters.wf params.
Hypothesis Htarget : getitem rules "cruise_power_target" = Ok target.
Hypothesis Htarget_pos : 0 < target.
Hypothesis Heff : 0 < eff.

Lemma np_pass_returns (guess : NP.scalar) :
  NP.finite_or_nan guess ->
  (forall P,
     NP.Aircraft.required_motor_power params rules (NP.Num cruise)
       (NP.Num eff) guess = Ok P ->
     NP.check_power_output b P = Ok tt) ->
  exists a,
    NP.Aircraft.built_at params rules b (NP.Num cruise) (NP.Num eff) guess a /\
    NP.finite_or_nan (NP.Aircraft.mtow_kg a).
Proof.
  intros Hg Hsup.
  destruct (np_required_motor_power_returns params rules cruise eff target
              guess Hwf Htarget Htarget_pos Heff Hg) as (P & HP & HPf).
  destruct (np_from_power_finite P HPf) as [Hpw Hwe].
  destruct (np_init_returns (NP.EDF.from_power P) b params Hwf)
    as (a & Ha & Hm); [exact HPf | exact Hwe | exact (Hsup P HP) |].
  exists a. split; [exists P; split; assumption | exact Hm].
Qed.

Lemma np_design_loop_returns (n : nat) :
  forall guess,
    NP.finite_or_nan guess ->
    NP.Aircraft.supplies (S n) params rules b (NP.Num cruise) (NP.Num eff)
      guess ->
    exists r,
      NP.Aircraft.design_loop (S n) params rules b (NP.Num cruise)
        (NP.Num eff) guess = Ok r /\
      NP.Aircraft.finished params rules b (NP.Num cruise) (NP.Num eff) (S n)
        guess r.
Proof.
  induction n as [|m IH]; intros guess Hg [Hsup1 Hsup2].
  - destruct (np_pass_returns guess Hg Hsup1) as (a & (P & HP & Ha) & Hm).
    cbn [NP.Aircraft.design_loop]. rewrite HP. cbn [bind].
    rewrite Ha. cbn [bind].
    exists (NP.Aircraft.mk_design a [guess]).
    split; [destruct (NP.Aircraft.converged _ _); reflexivity|].
    unfold NP.Aircraft.finished. cbn.
    split; [lia|]. split; [reflexivity|].
    split; [intros i Hi; lia|].
    split; [exists P; split; assumption|].
    right. reflexivity.
  - destruct (np_pass_returns guess Hg Hsup1) as (a & (P & HP & Ha) & Hm).
    change (NP.Aircraft.design_loop (S (S m)) params rules b (NP.Num cruise)
              (NP.Num eff) guess)
      with (required_motor_power_w <-
              NP.Aircraft.required_motor_power params rules (NP.Num cruise)
                (NP.Num eff) guess ;;
            temp_aircraft <-
              NP.Aircraft.__init__ (NP.EDF.from_power required_motor_power_w)
                b params ;;
            if NP.Aircraft.converged (NP.Aircraft.mtow_kg temp_aircraft) guess
            then Ok (NP.Aircraft.mk_design temp_aircraft [guess])
            else
              r <- NP.Aircraft.design_loop (S m) params rules b
                     (NP.Num cruise) (NP.Num eff)
                     (NP.Aircraft.next_guess
                        (NP.Aircraft.mtow_kg temp_aircraft) guess) ;;
              Ok (NP.Aircraft.mk_design (NP.Aircraft.aircraft r)
                    (guess :: NP.Aircraft.guesses r))).
    rewrite HP. cbn [bind]. rewrite Ha. cbn [bind].
    destruct (NP.Aircraft.converged (NP.Aircraft.mtow_kg a) guess) eqn:Hconv.
    + exists (NP.Aircraft.mk_design a [guess]). split; [reflexivity|].
      unfold NP.Aircraft.finished. cbn.
      split; [lia|]. split; [reflexivity|].
      split; [intros i Hi; lia|].
      split; [exists P; split; assumption|].
      left. exact Hconv.
    + assert (Hnext : NP.finite_or_nan
                        (NP.Aircraft.next_guess (NP.Aircraft.mtow_kg a) guess)).
      { unfold NP.Aircraft.next_guess.
        apply np_add_finite; apply np_mul_finite;
          first [assumption | exact I]. }
      destruct (IH _ Hnext (Hsup2 P a HP Ha Hconv))
        as (r & Hr & (Hl1 & Hl2) & Hhd & Htrace & Hlast & Hend).
      rewrite Hr. cbn [bind].
      eexists. split; [reflexivity|].
      unfold NP.Aircraft.finished.
      cbn [NP.Aircraft.guesses NP.Aircraft.aircraft].
      destruct (NP.Aircraft.guesses r) as [|g1 gs] eqn:Egs;
        [cbn in Hl1; lia|].
      cbn [nth] in Hhd. subst g1.
      split; [cbn [List.length] in *; lia|].
      split; [reflexivity|].
      split.
      { intros [|i] Hi.
        - exists a. split; [exists P; split; assumption|].
          split; [exact Hconv | reflexivity].
        - cbn [List.length] in Hi.
          destruct (Htrace i ltac:(cbn [List.length]; lia))
            as (t & Ht1 & Ht2 & Ht3).
          exists t. split; [exact Ht1|]. split; [exact Ht2 | exact Ht3]. }
      split; [exact Hlast|].
      destruct Hend as [Hend | Hend];
        [left; exact Hend | right; cbn [List.length] in *; lia].
Qed.

End NumpyDesignLoop.


(** *** Sample inputs on numpy scalars

    Crude bounds on the guesses of successive passes, enough to see that
    a pack of very large power supplies all 15 of them, whatever the sign
    of its weight. *)

Lemma np_required_motor_power_factor (params : FixedWingParameters.t)
    (rules : rules_t) (cruise eff target : R) :
  FixedWingParameters.wf params ->
  getitem rules "cruise_power_target" = Ok target ->
  70 <= target -> 0 < cruise <= 2039 -> 0.1 <= eff ->
  exists k,
    0 < k <= 41000 /\
    (forall x,
       NP.Aircraft.required_motor_power params rules (NP.Num cruise)
         (NP.Num eff) (NP.Num x) = Ok (NP.Num (x * k))) /\
    NP.Aircraft.required_motor_power params rules (NP.Num cruise)
      (NP.Num eff) NP.NaN = Ok NP.NaN.
Proof.
  intros Hwf Ht Htp Hc He.
  pose proof (ld_ratio_ge_7 params Hwf) as Hld.
  pose proof (required_motor_power_value params rules cruise eff 1 target
                Hwf Ht ltac:(lra) ltac:(lra)) as Hv.
  pose proof (required_motor_power_bound params rules cruise eff 1 target _
                Hwf Ht Htp Hc He ltac:(lra) Hv) as Hb.
  set (ld := 7.0 + _) in *.
  assert (Ht100 : target / 100 <> 0).
  { assert (0 < target / 100) by (apply Rdiv_lt_0_compat; lra). lra. }
  exists (1 * 9.80665 / ld * cruise / eff / (target / 100)).
  split; [lra|]. split.
  - intro x. unfold NP.Aircraft.required_motor_power. fold ld.
    rewrite np_py_div_num by lra. cbn [bind NP.mul].
    rewrite Ht. cbn [bind].
    rewrite (np_div_num _ ld) by lra. cbn [NP.mul].
    rewrite (np_div_num _ eff) by lra.
    rewrite np_div_num by exact Ht100.
    do 2 f_equal. field. repeat split; lra.
  - unfold NP.Aircraft.required_motor_power. fold ld.
    rewrite np_py_div_num by lra. cbn [bind NP.mul NP.div].
    rewrite Ht. reflexivity.
Qed.

(** The MTOW of the aircraft built around [from_power] of a number. *)
Lemma np_built_mtow (p : R) (b : Battery.t) (params : FixedWingParameters.t)
    (a : NP.Aircraft.t) :
  NP.Aircraft.__init__ (NP.EDF.from_power (NP.Num p)) b params = Ok a ->
  (p < 0 /\ NP.Aircraft.mtow_kg a = NP.NaN) \/
  (0 <= p /\
   exists w,
     0.05 <= w <= 0.05 + 0.020 * (1 + p) /\
     NP.Aircraft.mtow_kg a
     = NP.Num (w + Battery.weight_kg b
               + (0.4 + (w + Battery.weight_kg b) * 0.8)
               + 0.20 * (p / 100))).
Proof.
  intro H.
  destruct (np_init_inv _ b params a H) as (_ & _ & _ & _ & ->).
  cbn [NP.EDF.from_power NP.EDF.__init__ NP.EDF.weight_kg NP.EDF.power_w].
  rewrite np_div_num by lra.
  destruct (Rtotal_order p 0) as [Hn | [-> | Hp]].
  - left. split; [exact Hn|].
    unfold NP.pow. rewrite Rltb_true by exact Hn. reflexivity.
  - right. split; [lra|].
    unfold NP.pow. rewrite Rltb_false by lra. rewrite Reqb_true by reflexivity.
    cbn [NP.mul NP.add]. eexists. split; [|reflexivity]. lra.
  - right. split; [lra|].
    rewrite np_pow_num by exact Hp. cbn [NP.mul NP.add].
    eexists. split; [|reflexivity].
    assert (Hr : 0 < Rpower p 0.75 <= 1 + p).
    { split; [apply exp_pos | apply Rpower_le_succ; lra]. }
    lra.
Qed.

Lemma np_supplies_of_bound (params : FixedWingParameters.t) (rules : rules_t)
    (b : Battery.t) (cruise eff target : R) (n : nat) :
  FixedWingParameters.wf params ->
  getitem rules "cruise_power_target" = Ok target ->
  70 <= target -> 0 < cruise <= 2039 -> 0.1 <= eff ->
  -10 <= Battery.weight_kg b <= 10 ->
  forall guess bound,
    1 <= bound ->
    NP.within bound guess ->
    41000 * bound * 1.2 * 800 ^ n <= Battery.max_power_w b ->
    NP.Aircraft.supplies n params rules b (NP.Num cruise) (NP.Num eff) guess.
Proof.
  intros Hwf Ht Htp Hc He Hwb.
  destruct (np_required_motor_power_factor params rules cruise eff target
              Hwf Ht Htp Hc He) as (k & Hk & Hnum & Hnan).
  induction n as [|m IH]; intros guess bound Hb Hg Hmax; [exact I|].
  assert (Hpow : 1 <= 800 ^ m) by (apply pow_R1_Rle; lra).
  rewrite <- tech_pow_Rmult in Hmax.
  assert (Hmax1 : 41000 * bound * 1.2 <= Battery.max_power_w b).
  { assert (41000 * bound * 1.2 * 1 <= 41000 * bound * 1.2 * (800 * 800 ^ m))
      by (apply Rmult_le_compat_l; lra).
    lra. }
  assert (Hmaxm : 41000 * (800 * bound) * 1.2 * 800 ^ m
                  <= Battery.max_power_w b) by lra.
  destruct guess as [x| | |]; cbn [NP.within] in Hg; try contradiction.
  - assert (HP : - (41000 * bound) <= x * k <= 41000 * bound) by nra.
    cbn [NP.Aircraft.supplies]. split.
    + intros P HPeq. rewrite Hnum in HPeq. injection HPeq as <-.
      unfold NP.check_power_output. cbn [NP.mul NP.lt].
      rewrite Rltb_false by lra. reflexivity.
    + intros P a HPeq Ha _. rewrite Hnum in HPeq. injection HPeq as <-.
      apply (IH _ (800 * bound)); [lra | | exact Hmaxm].
      destruct (np_built_mtow _ b params a Ha)
        as [(_ & ->) | (Hp0 & w & Hw & ->)].
      * exact I.
      * cbn [NP.Aircraft.next_guess NP.mul NP.add NP.within].
        unfold NP.Aircraft.next_guess. cbn [NP.mul NP.add NP.within].
        lra.
  - cbn [NP.Aircraft.supplies]. split.
    + intros P HPeq. rewrite Hnan in HPeq. injection HPeq as <-.
      reflexivity.
    + intros P a HPeq Ha _. rewrite Hnan in HPeq. injection HPeq as <-.
      apply (IH _ (800 * bound)); [lra | | exact Hmaxm].
      destruct (np_init_inv _ b params a Ha) as (_ & _ & _ & _ & ->).
      exact I.
Qed.



(** With the weight of the pack entered as -10 kg the loop still
    returns. *)
Lemma design_with_negative_battery_weight :
  exists a,
    NP.Aircraft.design_from_mission default_params rules_70 15
      battery_unlimited_negative_weight = Ok a.
Proof.
  destruct (np_design_setup_ok default_params rules_70 15 70 default_params_wf
              eq_refl ltac:(lra)) as (cruise & eff & Hset & Hc & He).
  destruct (np_design_loop_returns default_params rules_70
              battery_unlimited_negative_weight cruise eff 70
              default_params_wf eq_refl ltac:(lra) ltac:(lra) 14 (NP.Num 15) I)
    as (r & Hr & _).
  - apply (np_supplies_of_bound default_params rules_70
             battery_unlimited_negative_weight cruise eff 70 15
             default_params_wf eq_refl ltac:(lra) Hc ltac:(lra))
      with (bound := 15).
    + unfold battery_unlimited_negative_weight, Battery.__init__.
      cbn [Battery.weight_kg]. lra.
    + lra.
    + cbn [NP.within]. lra.
    + unfold battery_unlimited_negative_weight, Battery.__init__.
      cbn [Battery.max_power_w]. lra.
  - exists (NP.Aircraft.aircraft r).
    unfold NP.Aircraft.design_from_mission,
      NP.Aircraft.design_from_mission_run.
    rewrite Hset. cbn [bind fst snd]. rewrite Hr. reflexivity.
Qed.

(** ** The mission simulation *)

Lemma last_item_app (l : list R) (x : R) : last_item (l ++ [x]) = Ok x.
Proof.
  unfold last_item. destruct (l ++ [x]) eqn:E.
  - destruct l; discriminate.
  - rewrite <- E. rewrite last_last. reflexivity.
Qed.

Lemma last_item_ok (l : list R) :
  l <> [] -> last_item l = Ok (last l 0).
Proof. destruct l; [contradiction | reflexivity]. Qed.

Lemma nondecreasing_app (l : list R) (x : R) :
  nondecreasing l -> (l <> [] -> last l 0 <= x) -> nondecreasing (l ++ [x]).
Proof.
  induction l as [|a [|b t] IH]; intros Hs Hl.
  - exact I.
  - cbn. split; [|exact I]. apply Hl. discriminate.
  - destruct Hs as [Hab Ht]. split; [exact Hab|].
    apply IH; [exact Ht|]. intros _. apply Hl. discriminate.
Qed.

Lemma nonincreasing_app (l : list R) (x : R) :
  nonincreasing l -> (l <> [] -> x <= last l 0) -> nonincreasing (l ++ [x]).
Proof.
  induction l as [|a [|b t] IH]; intros Hs Hl.
  - exact I.
  - cbn. split; [|exact I]. apply Hl. discriminate.
  - destruct Hs as [Hab Ht]. split; [exact Hab|].
    apply IH; [exact Ht|]. intros _. apply Hl. discriminate.
Qed.

Lemma app_neq_nil (l : list R) (x : R) : l ++ [x] <> [].
Proof. destruct l; discriminate. Qed.

Lemma record_step_monotone (path : FlightPath.t)
    (dt dist_step alt_step ias battery_drain : R) :
  monotone_path path ->
  0 <= dt -> 0 <= dist_step -> 0 <= battery_drain ->
  exists path',
    FlightPath.record_step path dt dist_step alt_step ias battery_drain
    = Ok path' /\
    monotone_path path' /\
    last (FlightPath.alt_ft path') 0
    = last (FlightPath.alt_ft path) 0 + alt_step /\
    last (FlightPath.battery_pct path') 0
    = last (FlightPath.battery_pct path) 0 - battery_drain.
Proof.
  intros (Ht & Hd & Ha & Hb & Hst & Hsd & Hsb) Hdt Hds Hdr.
  unfold FlightPath.record_step.
  rewrite !last_item_ok by assumption. cbn [bind].
  eexists. split; [reflexivity|].
  unfold monotone_path. cbn.
  rewrite !last_last.
  repeat split; try apply app_neq_nil.
  - apply nondecreasing_app; [exact Hst | intros _; lra].
  - apply nondecreasing_app; [exact Hsd | intros _; lra].
  - apply nonincreasing_app; [exact Hsb | intros _; lra].
Qed.

Lemma init_passed_check (e : EDF.t) (b : Battery.t)
    (p : FixedWingParameters.t) (a : Aircraft.t) :
  Aircraft.__init__ e b p = Ok a ->
  EDF.power_w e * 1.2 <= Battery.max_power_w b.
Proof.
  intro H. unfold Aircraft.__init__, Battery.check_power_output in H.
  unfold Rltb in H.
  destruct (Rlt_dec (Battery.max_power_w b) (EDF.power_w e * 1.2));
    [discriminate | lra].
Qed.

(** An aircraft that the constructor returns is flyable as soon as its
    rated power, its MTOW and the energy of its battery are positive;
    the design speed is the one that [EDF(...)] sets. *)
Lemma built_flyable (e : EDF.t) (b : Battery.t) (p : FixedWingParameters.t)
    (a : Aircraft.t) :
  FixedWingParameters.wf p ->
  Aircraft.__init__ e b p = Ok a ->
  EDF.design_speed_mps e = 25 + EDF.power_w e / 150 ->
  0 < EDF.power_w e ->
  0 < Aircraft.mtow_kg a ->
  0 < Battery.total_energy_j b ->
  flyable a.
Proof.
  intros Hwf H Hd HP Hmt HE.
  pose proof (init_passed_check e b p a H) as Hchk.
  assert (HP150 : 0 < EDF.power_w e / 150) by (apply Rdiv_lt_0_compat; lra).
  destruct (init_weights e b p a H) as (_ & _ & _ & Haf & Hpl & Hmtow & _).
  rewrite Haf, Hpl in Hmtow.
  destruct (init_ok e b p Hwf Hchk)
    as (a' & H' & He & Hb & _ & _ & _ & Hm & _ & Hld & _ & Hv & _ & Hs
        & Hvr & Hvy & Hbg & _); try lra.
  rewrite H in H'. injection H' as <-.
  pose proof (ld_ratio_ge_7 p Hwf) as Hld7.
  pose proof (cruise_speed_pos (EDF.power_w e) p Hwf) as Hk.
  unfold flyable. rewrite He, Hb, Hld, Hv.
  repeat split; try assumption; try lra.
Qed.

Lemma isa_density_ok (alt_m : R) :
  0 <= alt_m <= 14000 ->
  exists rho, isa_density alt_m = Ok rho /\ 0 < rho.
Proof.
  intros [H0 H1]. unfold isa_density.
  rewrite fpow_ok by lra. cbn [bind].
  rewrite fdiv_ok by lra.
  eexists. split; [reflexivity|].
  apply Rdiv_lt_0_compat; [|lra].
  apply Rmult_lt_0_compat; [lra | apply exp_pos].
Qed.

Lemma set_climb_rate_monotone (path : FlightPath.t) (v : R) :
  monotone_path path ->
  monotone_path (FlightPath.set_climb_rate_fpm path v) /\
  FlightPath.alt_ft (FlightPath.set_climb_rate_fpm path v)
  = FlightPath.alt_ft path /\
  FlightPath.battery_pct (FlightPath.set_climb_rate_fpm path v)
  = FlightPath.battery_pct path.
Proof. intro H. repeat split; apply H. Qed.

Lemma set_cruise_power_monotone (path : FlightPath.t) (v : R) :
  monotone_path path ->
  monotone_path (FlightPath.set_cruise_power_pct path v) /\
  FlightPath.alt_ft (FlightPath.set_cruise_power_pct path v)
  = FlightPath.alt_ft path /\
  FlightPath.battery_pct (FlightPath.set_cruise_power_pct path v)
  = FlightPath.battery_pct path.
Proof. intro H. repeat split; apply H. Qed.

(** One pass of the climb loop either breaks out or records a step that
    keeps the path monotone and adds 250 ft. *)
Lemma climb_step_ok (a : Aircraft.t) (path : FlightPath.t) :
  flyable a -> monotone_path path ->
  1 <= last (FlightPath.alt_ft path) 0 <= 45250 ->
  climb_step a (Aircraft.mtow_kg a * G)
    (Battery.total_energy_j (Aircraft.battery a)) path = Ok None
  \/
  exists path',
    climb_step a (Aircraft.mtow_kg a * G)
      (Battery.total_energy_j (Aircraft.battery a)) path = Ok (Some path') /\
    monotone_path path' /\
    last (FlightPath.alt_ft path') 0 = last (FlightPath.alt_ft path) 0 + 250.
Proof.
  intros (HP & Hds & HE & Hm & Hld & Hcr & Hs & Hvr & Hvy & Hbg) Hmono Halt.
  assert (HW : 0 < Aircraft.mtow_kg a * G) by (unfold G; lra).
  set (W := Aircraft.mtow_kg a * G) in *.
  set (E := Battery.total_energy_j (Aircraft.battery a)) in *.
  unfold climb_step.
  rewrite last_item_ok by apply Hmono. cbn [bind].
  set (alt := last (FlightPath.alt_ft path) 0) in *.
  destruct (isa_density_ok (alt * 0.3048)) as (rho & Hrho & Hrp); [lra|].
  rewrite Hrho. cbn [bind].
  assert (HR : 0 < RHO_SL_KGM3) by (unfold RHO_SL_KGM3; lra).
  rewrite (fdiv_ok RHO_SL_KGM3 rho) by lra. cbn [bind].
  assert (Hq : 0 < RHO_SL_KGM3 / rho) by (apply Rdiv_lt_0_compat; assumption).
  rewrite math_sqrt_ok by lra. cbn [bind].
  set (s := sqrt (RHO_SL_KGM3 / rho)).
  assert (Hsp : 0 < s) by (apply sqrt_lt_R0; exact Hq).
  set (tas := Aircraft.vy_ias_mps a * s).
  assert (Htas : 0 < tas)
    by (unfold tas; rewrite Hvy; apply Rmult_lt_0_compat; lra).
  rewrite (fdiv_ok W) by lra. cbn [bind].
  assert (Hgs : 0 < Aircraft.best_glide_ias_mps a * s)
    by (rewrite Hbg; apply Rmult_lt_0_compat; lra).
  rewrite (fdiv_ok tas) by lra. cbn [bind].
  assert (Hvrat : 0 < tas / (Aircraft.best_glide_ias_mps a * s))
    by (apply Rdiv_lt_0_compat; assumption).
  rewrite (fdiv_ok 1) by lra. cbn [bind].
  rewrite efficiency_value by lra. cbn [bind].
  set (excess := _ - _).
  destruct (Rle_dec excess 0) as [Hex | Hex].
  - left. rewrite Rleb_true by exact Hex. reflexivity.
  - right. rewrite Rleb_false by exact Hex.
    assert (Hexp : 0 < excess) by lra.
    rewrite (fdiv_ok excess W) by lra. cbn [bind].
    assert (Hroc : 0 < excess / W) by (apply Rdiv_lt_0_compat; assumption).
    rewrite (fdiv_ok _ (excess / W)) by lra. cbn [bind].
    set (tc := 250.0 * 0.3048 / (excess / W)).
    assert (Htc : 0 < tc) by (unfold tc; apply Rdiv_lt_0_compat; lra).
    rewrite (fdiv_ok _ E) by lra. cbn [bind].
    set (pe := EDF.power_w (Aircraft.edf a) * (rho / RHO_SL_KGM3)).
    assert (Hpe : 0 < pe).
    { unfold pe. apply Rmult_lt_0_compat; [exact HP|].
      apply Rdiv_lt_0_compat; assumption. }
    assert (Hdrain : 0 <= pe * tc / E * 100).
    { apply Rmult_le_pos; [|lra]. left.
      apply Rdiv_lt_0_compat; [apply Rmult_lt_0_compat|]; assumption. }
    assert (Hdist : 0 <= tas * tc)
      by (left; apply Rmult_lt_0_compat; assumption).
    set (path0 := if FlightPath.climb_rate_fpm path =? 0
                  then FlightPath.set_climb_rate_fpm path (excess / W * 196.85)
                  else path).
    assert (H0 : monotone_path path0 /\
                 FlightPath.alt_ft path0 = FlightPath.alt_ft path).
    { unfold path0. destruct (FlightPath.climb_rate_fpm path =? 0).
      - split; [apply set_climb_rate_monotone; exact Hmono | reflexivity].
      - split; [exact Hmono | reflexivity]. }
    destruct H0 as [Hm0 Ha0].
    destruct (record_step_monotone path0 tc (tas * tc) 250.0
                (Aircraft.vy_ias_mps a * 1.94384) (pe * tc / E * 100))
      as (path' & Hrec & Hm' & Ha' & _); try assumption; try lra.
    rewrite Hrec. cbn [bind].
    exists path'. split; [reflexivity|]. split; [exact Hm'|].
    rewrite Ha', Ha0. fold alt. lra.
Qed.

(** The climb loop ends within the bound as soon as the bound covers the
    250 ft steps left below 45000 ft, and keeps the path monotone. *)
Lemma climb_loop_ok (a : Aircraft.t) :
  flyable a ->
  forall (fuel : nat) (path : FlightPath.t),
    monotone_path path ->
    1 <= last (FlightPath.alt_ft path) 0 <= 45250 ->
    45000 <= last (FlightPath.alt_ft path) 0 + 250 * INR fuel ->
    exists path',
      climb_loop fuel a (Aircraft.mtow_kg a * G)
        (Battery.total_energy_j (Aircraft.battery a)) path = Ok (Some path') /\
      monotone_path path' /\
      1 <= last (FlightPath.alt_ft path') 0 <= 45250.
Proof.
  intros Hfly.
  induction fuel as [|fuel IH]; intros path Hmono Halt Hfuel.
  - exists path. split; [|split; assumption].
    cbn [climb_loop INR] in *.
    rewrite !last_item_ok by apply Hmono. cbn [bind].
    rewrite (Rltb_false _ 45000) by lra.
    destruct (75.0 <? _); reflexivity.
  - cbn [climb_loop].
    rewrite !last_item_ok by apply Hmono. cbn [bind].
    destruct (75.0 <? last (FlightPath.battery_pct path) 0);
      [|exists path; split; [reflexivity | split; assumption]].
    unfold Rltb at 1.
    destruct (Rlt_dec (last (FlightPath.alt_ft path) 0) 45000) as [Hlow|Hhigh];
      [|exists path; split; [reflexivity | split; assumption]].
    destruct (climb_step_ok a path Hfly Hmono Halt)
      as [Hbreak | (path' & Hstep & Hm' & Ha')].
    + rewrite Hbreak. cbn [bind].
      exists path. split; [reflexivity | split; assumption].
    + rewrite Hstep. cbn [bind].
      apply IH; [exact Hm' | rewrite Ha'; lra |].
      rewrite Ha'. rewrite S_INR in Hfuel. lra.
Qed.

Lemma cruise_phase_ok (a : Aircraft.t) (path : FlightPath.t) :
  flyable a -> monotone_path path ->
  1 <= last (FlightPath.alt_ft path) 0 <= 45250 ->
  exists path',
    cruise_phase a (Aircraft.mtow_kg a * G)
      (Battery.total_energy_j (Aircraft.battery a)) path = Ok path' /\
    monotone_path path' /\
    last (FlightPath.alt_ft path') 0 = last (FlightPath.alt_ft path) 0.
Proof.
  intros (HP & Hds & HE & Hm & Hld & Hcr & Hs & Hvr & Hvy & Hbg) Hmono Halt.
  assert (HW : 0 < Aircraft.mtow_kg a * G) by (unfold G; lra).
  set (W := Aircraft.mtow_kg a * G) in *.
  set (E := Battery.total_energy_j (Aircraft.battery a)) in *.
  unfold cruise_phase.
  rewrite last_item_ok by apply Hmono. cbn [bind].
  set (bl := last (FlightPath.battery_pct path) 0).
  set (usable := (bl - 10.0) / 100.0 * E).
  destruct (Rlt_dec 0 usable) as [Hu | Hu];
    [rewrite Rltb_true by exact Hu
    | rewrite Rltb_false by exact Hu; exists path; repeat split; apply Hmono].
  assert (Hbl : 10 < bl).
  { destruct (Rlt_le_dec 10 bl) as [H|H]; [exact H|exfalso].
    assert (usable <= 0); [|lra]. unfold usable.
    assert (0 <= (10 - bl) / 100 * E) by (apply Rmult_le_pos; lra). lra. }
  rewrite last_item_ok by apply Hmono. cbn [bind].
  set (alt := last (FlightPath.alt_ft path) 0) in *.
  destruct (isa_density_ok (alt * 0.3048)) as (rho & Hrho & Hrp); [lra|].
  rewrite Hrho. cbn [bind].
  assert (HR : 0 < RHO_SL_KGM3) by (unfold RHO_SL_KGM3; lra).
  assert (Hq : 0 < rho / RHO_SL_KGM3) by (apply Rdiv_lt_0_compat; assumption).
  rewrite math_sqrt_ok by lra. cbn [bind].
  set (s := sqrt (rho / RHO_SL_KGM3)).
  assert (Hsp : 0 < s) by (apply sqrt_lt_R0; exact Hq).
  rewrite (fdiv_ok _ s) by lra. cbn [bind].
  set (tas := Aircraft.cruise_ias_mps a / s).
  assert (Htas : 0 < tas) by (apply Rdiv_lt_0_compat; assumption).
  rewrite (fdiv_ok W) by lra. cbn [bind].
  assert (Hthr : 0 < W / Aircraft.ld_ratio a)
    by (apply Rdiv_lt_0_compat; lra).
  rewrite efficiency_value by lra. cbn [bind].
  set (eff := Rmax 0.1 _).
  assert (Heff : 0.1 <= eff) by apply Rmax_l.
  rewrite (fdiv_ok _ eff) by lra. cbn [bind].
  set (elec := W / Aircraft.ld_ratio a * tas / eff).
  assert (Helec : 0 < elec).
  { unfold elec. apply Rdiv_lt_0_compat; [|lra].
    apply Rmult_lt_0_compat; assumption. }
  rewrite (fdiv_ok elec) by lra. cbn [bind].
  rewrite Rltb_true by exact Helec.
  rewrite (fdiv_ok usable) by lra. cbn [bind].
  set (path0 := FlightPath.set_cruise_power_pct path _).
  destruct (set_cruise_power_monotone path
              (elec / EDF.power_w (Aircraft.edf a) * 100) Hmono)
    as (Hm0 & Ha0 & Hb0).
  fold path0 in Hm0, Ha0, Hb0.
  rewrite last_item_ok by apply Hm0. cbn [bind].
  rewrite Hb0. fold bl.
  assert (Htime : 0 < usable / elec) by (apply Rdiv_lt_0_compat; assumption).
  destruct (record_step_monotone path0 (usable / elec) (tas * (usable / elec))
              0 (Aircraft.cruise_ias_kts a) (bl - 10.0))
    as (path' & Hrec & Hm' & Ha' & _); try assumption; try lra.
  - left. apply Rmult_lt_0_compat; assumption.
  - exists path'. split; [exact Hrec|]. split; [exact Hm'|].
    rewrite Ha', Ha0. fold alt. lra.
Qed.

Lemma descent_phase_ok (a : Aircraft.t) (path : FlightPath.t) :
  flyable a -> monotone_path path ->
  1 <= last (FlightPath.alt_ft path) 0 <= 45250 ->
  exists path',
    descent_phase a path = Ok path' /\ monotone_path path'.
Proof.
  intros (HP & Hds & HE & Hm & Hld & Hcr & Hs & Hvr & Hvy & Hbg) Hmono Halt.
  unfold descent_phase.
  rewrite last_item_ok by apply Hmono. cbn [bind].
  set (alt := last (FlightPath.alt_ft path) 0) in *.
  rewrite (fdiv_ok 1) by lra. cbn [bind].
  assert (Hinv : 0 < 1 / Aircraft.ld_ratio a)
    by (apply Rdiv_lt_0_compat; lra).
  rewrite tan_atan.
  rewrite (fdiv_ok (alt * 0.3048)) by lra. cbn [bind].
  assert (Hdist : 0 <= alt * 0.3048 / (1 / Aircraft.ld_ratio a)).
  { left. apply Rdiv_lt_0_compat; lra. }
  destruct (isa_density_ok (alt / 2 * 0.3048)) as (rho & Hrho & Hrp); [lra|].
  rewrite Hrho. cbn [bind].
  assert (HR : 0 < RHO_SL_KGM3) by (unfold RHO_SL_KGM3; lra).
  rewrite (fdiv_ok RHO_SL_KGM3 rho) by lra. cbn [bind].
  assert (Hq : 0 < RHO_SL_KGM3 / rho) by (apply Rdiv_lt_0_compat; assumption).
  rewrite math_sqrt_ok by lra. cbn [bind].
  set (sink := _ * sin _).
  assert (Htime : exists t,
            (if 0 <? sink then fdiv (alt * 0.3048) sink else Ok 0) = Ok t
            /\ 0 <= t).
  { destruct (Rlt_dec 0 sink) as [Hsk | Hsk].
    - rewrite Rltb_true by exact Hsk. rewrite fdiv_ok by lra.
      eexists. split; [reflexivity|]. left. apply Rdiv_lt_0_compat; lra.
    - rewrite Rltb_false by exact Hsk. exists 0. split; [reflexivity | lra]. }
  destruct Htime as (t & Ht & Htp). rewrite Ht. cbn [bind].
  destruct (record_step_monotone path t
              (alt * 0.3048 / (1 / Aircraft.ld_ratio a)) (- alt)
              (Aircraft.best_glide_ias_mps a * 1.94384) 0)
    as (path' & Hrec & Hm' & _); try assumption; try lra.
  rewrite Hrec. cbn [bind].
  destruct Hm' as (Ht' & Hd' & Ha' & Hb' & Hst & Hsd & Hsb).
  rewrite !last_item_ok by assumption. cbn [bind].
  destruct (FlightPath.alt_ft path') as [|x xs] eqn:Ealt; [contradiction|].
  cbn [list_max bind].
  eexists. split; [reflexivity|].
  unfold monotone_path, FlightPath.set_totals. cbn.
  rewrite Ealt. repeat split; try assumption; discriminate.
Qed.

Lemma initial_path_monotone : monotone_path FlightPath.__init__.
Proof. unfold monotone_path. cbn. repeat split; discriminate. Qed.

(** *** What each phase adds to a path *)

Lemma last_item_inv (l : list R) (x : R) :
  last_item l = Ok x -> l <> [] /\ x = last l 0.
Proof.
  destruct l; [discriminate|]. intro H. injection H as <-.
  split; [discriminate | reflexivity].
Qed.

Lemma record_step_inv (p p' : FlightPath.t) (dt ds da ias drain : R) :
  FlightPath.record_step p dt ds da ias drain = Ok p' ->
  FlightPath.time_s p' = FlightPath.time_s p ++ [last (FlightPath.time_s p) 0 + dt] /\
  FlightPath.dist_m p' = FlightPath.dist_m p ++ [last (FlightPath.dist_m p) 0 + ds] /\
  FlightPath.alt_ft p' = FlightPath.alt_ft p ++ [last (FlightPath.alt_ft p) 0 + da] /\
  FlightPath.ias_kts p' = FlightPath.ias_kts p ++ [ias] /\
  FlightPath.battery_pct p'
  = FlightPath.battery_pct p ++ [last (FlightPath.battery_pct p) 0 - drain].
Proof.
  intro H. unfold FlightPath.record_step in H.
  repeat bind_inv H. injection H as <-.
  destruct (last_item_inv _ _ E) as [_ ->].
  destruct (last_item_inv _ _ E0) as [_ ->].
  destruct (last_item_inv _ _ E1) as [_ ->].
  destruct (last_item_inv _ _ E2) as [_ ->].
  cbn. repeat split; reflexivity.
Qed.

Lemma record_step_one_more (p p' : FlightPath.t) (dt ds da ias drain : R) :
  aligned p ->
  FlightPath.record_step p dt ds da ias drain = Ok p' ->
  one_more p p'.
Proof.
  intros (H1 & H2 & H3 & H4) H.
  destruct (record_step_inv _ _ _ _ _ _ _ H) as (Ht & Hd & Ha & Hi & Hb).
  unfold one_more, aligned.
  rewrite Ht, Hd, Ha, Hi, Hb. rewrite !length_app. cbn [List.length].
  rewrite H1, H2, H3, H4. repeat split; lia.
Qed.

Lemma same_samples_aligned (p p' : FlightPath.t) :
  same_samples p p' -> aligned p -> aligned p'.
Proof.
  intros (H1 & H2 & H3 & H4 & H5). unfold aligned.
  rewrite H1, H2, H3, H4, H5. exact (fun H => H).
Qed.

Lemma climb_step_inv (a : Aircraft.t) (W E : R) (p p' : FlightPath.t) :
  climb_step a W E p = Ok (Some p') ->
  aligned p ->
  one_more p p' /\
  last (FlightPath.alt_ft p') 0 = last (FlightPath.alt_ft p) 0 + 250.
Proof.
  intros H Hal. unfold climb_step in H.
  repeat bind_inv H.
  destruct (_ <=? 0) in H; [discriminate|].
  repeat bind_inv H. injection H as <-.
  match goal with
  | Hr : FlightPath.record_step ?q _ _ _ _ _ = Ok _ |- _ =>
      assert (Hs : same_samples p q)
        by (destruct (FlightPath.climb_rate_fpm p =? 0);
            repeat split; reflexivity);
      pose proof (same_samples_aligned p q Hs Hal) as Hal0;
      destruct (record_step_one_more _ _ _ _ _ _ _ Hal0 Hr) as [Ha1 Hlen];
      destruct (record_step_inv _ _ _ _ _ _ _ Hr) as (_ & _ & Halt & _)
  end.
  destruct Hs as (Ht & _ & Hat & _).
  split.
  - split; [exact Ha1|]. rewrite Hlen, Ht. reflexivity.
  - rewrite Halt, last_last, Hat. lra.
Qed.

Lemma climb_loop_inv (a : Aircraft.t) (W E : R) (fuel : nat) :
  forall p p',
    climb_loop fuel a W E p = Ok (Some p') ->
    aligned p ->
    aligned p' /\
    (List.length (FlightPath.time_s p)
     <= List.length (FlightPath.time_s p'))%nat.
Proof.
  induction fuel as [|fuel IH]; intros p p' H Hal; cbn [climb_loop] in H.
  - bind_inv H. destruct (75.0 <? _) in H.
    + bind_inv H. destruct (_ <? 45000) in H; [discriminate|].
      injection H as <-. split; [exact Hal | lia].
    + injection H as <-. split; [exact Hal | lia].
  - bind_inv H. destruct (75.0 <? _) in H.
    + bind_inv H. destruct (_ <? 45000) in H.
      * destruct (climb_step a W E p) as [[p1|]|] eqn:Hstep;
          cbn [bind] in H; [| |discriminate].
        -- destruct (climb_step_inv _ _ _ _ _ Hstep Hal) as [[Hal1 Hlen] _].
           destruct (IH p1 p' H Hal1) as [Hal' Hle].
           split; [exact Hal' | lia].
        -- injection H as <-. split; [exact Hal | lia].
      * injection H as <-. split; [exact Hal | lia].
    + injection H as <-. split; [exact Hal | lia].
Qed.

Lemma cruise_ends_at_ten_percent_aux (a : Aircraft.t) (W E : R)
    (p p' : FlightPath.t) :
  cruise_phase a W E p = Ok p' ->
  aligned p ->
  aligned p' /\
  (List.length (FlightPath.time_s p)
   <= List.length (FlightPath.time_s p'))%nat.
Proof.
  intros H Hal. unfold cruise_phase in H.
  bind_inv H.
  destruct (0 <? _) in H; [|injection H as <-; split; [exact Hal | lia]].
  do 8 bind_inv H.
  destruct (0 <? _) in H;
    [|injection H as <-; split; [exact Hal | cbn; lia]].
  do 2 bind_inv H.
  match goal with
  | Hr : FlightPath.record_step ?q _ _ _ _ _ = Ok _ |- _ =>
      assert (Hal0 : aligned q) by exact Hal;
      destruct (record_step_one_more _ _ _ _ _ _ _ Hal0 Hr) as [Ha1 Hlen]
  end.
  split; [exact Ha1|]. rewrite Hlen. cbn. lia.
Qed.

Lemma descent_phase_inv (a : Aircraft.t) (p p' : FlightPath.t) :
  descent_phase a p = Ok p' ->
  aligned p ->
  one_more p p' /\
  last (FlightPath.alt_ft p') 0 = 0 /\
  last (FlightPath.battery_pct p') 0 = last (FlightPath.battery_pct p) 0 /\
  FlightPath.total_distance_km p' = last (FlightPath.dist_m p') 0 / 1000 /\
  FlightPath.total_time_min p' = last (FlightPath.time_s p') 0 / 60 /\
  list_max (FlightPath.alt_ft p') = Ok (FlightPath.max_altitude_ft p').
Proof.
  intros H Hal. unfold descent_phase in H.
  do 7 bind_inv H.
  destruct (FlightPath.record_step p _ _ _ _ 0) as [q|] eqn:Hrec;
    cbn [bind] in H; [|discriminate].
  destruct (last_item (FlightPath.dist_m q)) as [dl|] eqn:Ed;
    cbn [bind] in H; [|discriminate].
  destruct (last_item (FlightPath.time_s q)) as [tl|] eqn:Et;
    cbn [bind] in H; [|discriminate].
  destruct (list_max (FlightPath.alt_ft q)) as [m|] eqn:Em;
    cbn [bind] in H; [|discriminate].
  injection H as <-.
  destruct (record_step_one_more _ _ _ _ _ _ _ Hal Hrec) as [Hal1 Hlen].
  destruct (record_step_inv _ _ _ _ _ _ _ Hrec) as (_ & _ & Ha & _ & Hb).
  destruct (last_item_inv _ _ Ed) as [_ ->].
  destruct (last_item_inv _ _ Et) as [_ ->].
  match goal with
  | Hl : last_item (FlightPath.alt_ft p) = Ok ?x |- _ =>
      destruct (last_item_inv _ _ Hl) as [_ Hx]
  end.
  unfold one_more, aligned, FlightPath.set_totals.
  cbn [FlightPath.time_s FlightPath.dist_m FlightPath.alt_ft
       FlightPath.ias_kts FlightPath.battery_pct FlightPath.total_time_min
       FlightPath.total_distance_km FlightPath.max_altitude_ft].
  split; [split; [exact Hal1 | exact Hlen]|].
  split; [rewrite Ha, last_last, <- Hx; lra|].
  split; [rewrite Hb, last_last; lra|].
  split; [reflexivity|]. split; [reflexivity | exact Em].
Qed.

Lemma initial_path_aligned : aligned FlightPath.__init__.
Proof. unfold aligned. cbn. repeat split. Qed.

(** A flyable aircraft with a positive net force flies the whole
    mission: the simulation returns, 180 passes of the climb loop being
    enough, a path of at least three samples that is monotone. *)
Lemma flyable_mission_run (a : Aircraft.t) (f : R) (fuel : nat) :
  flyable a ->
  net_force a 0.04 = Ok f ->
  0 < f ->
  (180 <= fuel)%nat ->
  exists path,
    run_mission_simulation fuel a = Ok (Some path) /\
    (3 <= List.length (FlightPath.time_s path))%nat /\
    nondecreasing (FlightPath.time_s path) /\
    nondecreasing (FlightPath.dist_m path) /\
    nonincreasing (FlightPath.battery_pct path).
Proof.
  intros Hfly Hf Hfp Hfuel.
  pose proof Hfly as (HP & Hds & HE & Hm & Hld & Hcr & Hs & Hvr & Hvy & Hbg).
  unfold run_mission_simulation, calculate_takeoff_distance.
  rewrite Hf. cbn [bind]. rewrite Rleb_false by lra.
  rewrite (fdiv_ok f) by lra. cbn [bind].
  assert (Hacc : 0 < f / Aircraft.mtow_kg a)
    by (apply Rdiv_lt_0_compat; assumption).
  rewrite !fdiv_ok by lra. cbn [bind].
  assert (Hvrp : 0 < Aircraft.vr_ias_mps a) by (rewrite Hvr; lra).
  assert (Htime : 0 <= Aircraft.vr_ias_mps a / (f / Aircraft.mtow_kg a))
    by (left; apply Rdiv_lt_0_compat; assumption).
  assert (Hdist : 0 <= Aircraft.vr_ias_mps a ^ 2
                       / (2 * (f / Aircraft.mtow_kg a))).
  { left. apply Rdiv_lt_0_compat; [apply pow_lt; exact Hvrp | lra]. }
  assert (Hdrain : 0 <= EDF.power_w (Aircraft.edf a)
                        * (Aircraft.vr_ias_mps a / (f / Aircraft.mtow_kg a))
                        / Battery.total_energy_j (Aircraft.battery a) * 100).
  { apply Rmult_le_pos; [|lra].
    apply Rmult_le_pos; [apply Rmult_le_pos; lra|].
    left. apply Rinv_0_lt_compat. exact HE. }
  destruct (record_step_monotone FlightPath.__init__ _ _ 0
              (Aircraft.vr_ias_mps a * 1.94384) _
              initial_path_monotone Htime Hdist Hdrain)
    as (p1 & Hrec & Hm1 & Ha1 & _).
  rewrite (fdiv_ok _ (Battery.total_energy_j (Aircraft.battery a))) by lra.
  cbn [bind]. rewrite Hrec. cbn [bind].
  assert (Halt1 : last (FlightPath.alt_ft p1) 0 = 1)
    by (rewrite Ha1; cbn; lra).
  destruct (record_step_one_more _ _ _ _ _ _ _ initial_path_aligned Hrec)
    as [Hal1 Hlen1].
  cbn [FlightPath.__init__ FlightPath.time_s List.length] in Hlen1.
  destruct (climb_loop_ok a Hfly fuel p1 Hm1) as (p2 & Hclimb & Hm2 & Ha2).
  - rewrite Halt1. lra.
  - rewrite Halt1. apply le_INR in Hfuel.
    replace (INR 180) with 180 in Hfuel by (cbn; lra). lra.
  - rewrite Hclimb. cbn [bind].
    destruct (climb_loop_inv _ _ _ _ _ _ Hclimb Hal1) as [Hal2 Hlen2].
    destruct (cruise_phase_ok a p2 Hfly Hm2 Ha2) as (p3 & Hcruise & Hm3 & Ha3).
    rewrite Hcruise. cbn [bind].
    destruct (cruise_ends_at_ten_percent_aux _ _ _ _ _ Hcruise Hal2)
      as [Hal3 Hlen3].
    destruct (descent_phase_ok a p3 Hfly Hm3) as (p4 & Hdesc & Hm4).
    + rewrite Ha3. exact Ha2.
    + rewrite Hdesc. cbn [bind].
      destruct (descent_phase_inv _ _ _ Hdesc Hal3) as ([_ Hlen4] & _).
      exists p4. split; [reflexivity|].
      split; [lia | apply Hm4].
Qed.

(** C4 (as amended).  For every aircraft that the constructor returns
    with a positive rated power, a positive MTOW and a battery holding a
    positive energy, and whose takeoff succeeds (the net accelerating
    force is positive), [run_mission_simulation] returns a flight path
    (180 passes of the climb loop always suffice) that records the flight
    (the takeoff and the descent at least, so three samples or more) and
    whose [time_s] and [dist_m] sequences never decrease from one sample
    to the next and whose [battery_pct] sequence never increases, through
    the final (descent) sample. *)
Theorem mission_path_monotone (name : string)
    (power_w static_thrust_n weight_kg diameter_m : R) (b : Battery.t)
    (p : FixedWingParameters.t) (a : Aircraft.t) (f : R) (fuel : nat) :
  let e := EDF.__init__ name power_w static_thrust_n weight_kg diameter_m in
  FixedWingParameters.wf p ->
  Aircraft.__init__ e b p = Ok a ->
  0 < power_w ->
  0 < Aircraft.mtow_kg a ->
  0 < Battery.total_energy_j b ->
  net_force a 0.04 = Ok f ->
  0 < f ->
  (180 <= fuel)%nat ->
  exists path,
    run_mission_simulation fuel a = Ok (Some path) /\
    (3 <= List.length (FlightPath.time_s path))%nat /\
    nondecreasing (FlightPath.time_s path) /\
    nondecreasing (FlightPath.dist_m path) /\
    nonincreasing (FlightPath.battery_pct path).
Proof.
  intros e Hwf Hbuilt Hpw Hmt Hen Hf Hfp Hfuel.
  apply (flyable_mission_run a f fuel); try assumption.
  apply (built_flyable e b p a); try assumption; reflexivity.
Qed.

Lemma sample_takeoff :
  exists a f,
    Aircraft.__init__ edf_8kw battery_5kg_30c default_params = Ok a /\
    net_force a 0.04 = Ok f /\ 0 < f.
Proof.
  destruct (init_ok edf_8kw battery_5kg_30c default_params)
    as (a & H & He & _ & _ & _ & _ & Hm & HW & Hld & _ & Hv & HS & Hs & Hvr
        & _ & _ & Hst);
    try (cbn; lra).
  - apply default_params_wf.
  - pose proof (built_ld_ratio _ _ _ a default_params_wf H) as Hl.
    pose proof (cruise_speed_pos (EDF.power_w edf_8kw) default_params
                  default_params_wf) as Hk.
    exists a. eexists. split; [exact H|].
    split; [apply net_force_value; lra|].
    rewrite He. cbn [edf_8kw EDF.__init__ EDF.static_thrust_n].
    set (v := estimate_modified_cruise_speed (EDF.power_w edf_8kw)
                default_params * 0.514444) in *.
    assert (Hvp : 0 < v) by (unfold v; lra).
    assert (Hv2 : 0 < v ^ 2) by (apply pow_lt; exact Hvp).
    assert (Hmv : Aircraft.mtow_kg a = 56) by (rewrite Hm; cbn; lra).
    assert (HWv : Aircraft.weight_n a = 56 * 9.80665) by (rewrite HW; cbn; lra).
    assert (Hsq : Aircraft.stall_speed_ias_mps a ^ 2 = v ^ 2 * 0.4 / 1.5).
    { rewrite Hst. apply pow2_sqrt. lra. }
    assert (HSv : Aircraft.wing_area_m2 a
                  = 2 * (56 * 9.80665) / (1.225 * v ^ 2 * 0.4)).
    { rewrite HS. f_equal. cbn. lra. }
    assert (Hdrag : 0.5 * RHO_SL_KGM3 * (Aircraft.vr_ias_mps a * 0.7) ^ 2
                    * (Aircraft.wing_area_m2 a / Aircraft.ld_ratio a)
                    = 0.5929 * (56 * 9.80665) / 1.5 * / Aircraft.ld_ratio a).
    { rewrite Hvr, HSv.
      replace ((Aircraft.stall_speed_ias_mps a * 1.10 * 0.7) ^ 2)
        with (0.5929 * Aircraft.stall_speed_ias_mps a ^ 2) by nra.
      rewrite Hsq. unfold RHO_SL_KGM3.
      assert (Hx : v ^ 2 * 0.4 / 1.5
                   * (2 * (56 * 9.80665) / (1.225 * v ^ 2 * 0.4))
                   = 0.4 / 1.5 * (2 * (56 * 9.80665)) / (1.225 * 0.4))
        by (field; lra).
      replace (0.5 * 1.225 * (0.5929 * (v ^ 2 * 0.4 / 1.5))
               * (2 * (56 * 9.80665) / (1.225 * v ^ 2 * 0.4)
                  / Aircraft.ld_ratio a))
        with (0.5 * 1.225 * 0.5929
              * (v ^ 2 * 0.4 / 1.5
                 * (2 * (56 * 9.80665) / (1.225 * v ^ 2 * 0.4)))
              * / Aircraft.ld_ratio a)
        by (unfold Rdiv; ring).
      rewrite Hx. lra. }
    rewrite Hdrag, HWv.
    assert (Hil : 0 < / Aircraft.ld_ratio a <= / 7).
    { split; [apply Rinv_0_lt_compat; lra|].
      apply Rinv_le_contravar; lra. }
    lra.
Qed.

Lemma sample_mtow (a : Aircraft.t) :
  Aircraft.__init__ edf_8kw battery_5kg_30c default_params = Ok a ->
  Aircraft.mtow_kg a = 56.
Proof.
  intro H.
  destruct (init_weights _ _ _ a H) as (_ & _ & _ & Haf & Hpl & Hm & _).
  rewrite Hm, Haf, Hpl. cbn. lra.
Qed.

Lemma sample_flyable (a : Aircraft.t) :
  Aircraft.__init__ edf_8kw battery_5kg_30c default_params = Ok a ->
  flyable a.
Proof.
  intro H.
  apply (built_flyable edf_8kw battery_5kg_30c default_params a);
    try exact H; try apply default_params_wf; try (cbn; lra).
  rewrite (sample_mtow a H). lra.
Qed.

Lemma mission_path_monotone_witness :
  exists a f path,
    Aircraft.__init__ edf_8kw battery_5kg_30c default_params = Ok a /\
    net_force a 0.04 = Ok f /\ 0 < f /\
    run_mission_simulation 180 a = Ok (Some path) /\
    (3 <= List.length (FlightPath.time_s path))%nat /\
    nondecreasing (FlightPath.time_s path) /\
    nondecreasing (FlightPath.dist_m path) /\
    nonincreasing (FlightPath.battery_pct path).
Proof.
  destruct sample_takeoff as (a & f & H & Hf & Hfp).
  assert (Hmt : 0 < Aircraft.mtow_kg a) by (rewrite (sample_mtow a H); lra).
  assert (Hen : 0 < Battery.total_energy_j battery_5kg_30c) by (cbn; lra).
  destruct (mission_path_monotone "8.0kW EDF" 8000 1900 17 0.25
              battery_5kg_30c default_params a f 180 default_params_wf H
              ltac:(lra) Hmt Hen Hf Hfp (le_n 180))
    as (path & Hrun & Hmono).
  exists a, f, path.
  split; [exact H|]. split; [exact Hf|]. split; [exact Hfp|].
  split; [exact Hrun | exact Hmono].
Defined.

(** *** A negative weight: the mission runs backwards *)

(** The drag of the takeoff roll, in closed form. *)
Lemma built_takeoff_drag (e : EDF.t) (b : Battery.t)
    (p : FixedWingParameters.t) (a : Aircraft.t) :
  FixedWingParameters.wf p ->
  EDF.design_speed_mps e <> 0 ->
  EDF.power_w e <> 0 ->
  Aircraft.__init__ e b p = Ok a ->
  0 < Aircraft.stall_speed_ias_mps a /\
  Aircraft.vr_ias_mps a = Aircraft.stall_speed_ias_mps a * 1.10 /\
  Aircraft.vy_ias_mps a = Aircraft.stall_speed_ias_mps a * 1.20 /\
  Aircraft.best_glide_ias_mps a = Aircraft.stall_speed_ias_mps a * 1.31 /\
  0.5 * RHO_SL_KGM3 * (Aircraft.vr_ias_mps a * 0.7) ^ 2
  * (Aircraft.wing_area_m2 a / Aircraft.ld_ratio a)
  = 0.5929 * Aircraft.weight_n a / 1.5 * / Aircraft.ld_ratio a.
Proof.
  intros Hwf Hd HP H.
  pose proof (init_passed_check e b p a H) as Hchk.
  destruct (init_weights e b p a H) as (_ & _ & _ & Haf & Hpl & Hm & HW & _).
  assert (Hmt : Aircraft.mtow_kg a <> 0).
  { unfold Aircraft.__init__ in H. bind_inv H. bind_inv H.
    destruct (fdiv_inv _ _ _ E0) as [Hw _].
    repeat bind_inv H. injection H as <-.
    cbn [Aircraft.mtow_kg]. lra. }
  rewrite Haf, Hpl in Hm.
  destruct (init_ok e b p Hwf Hchk Hd HP)
    as (a' & H' & _ & _ & _ & _ & _ & Hm' & HW' & _ & _ & Hv & HS & Hs & Hvr
        & Hvy & Hbg & Hst); [lra|].
  rewrite H in H'. injection H' as <-.
  split; [exact Hs|]. split; [exact Hvr|]. split; [exact Hvy|].
  split; [exact Hbg|].
  pose proof (cruise_speed_pos (EDF.power_w e) p Hwf) as Hk.
  set (v := estimate_modified_cruise_speed (EDF.power_w e) p * 0.514444) in *.
  assert (Hvp : 0 < v) by (unfold v; lra).
  assert (Hv2 : 0 < v ^ 2) by (apply pow_lt; exact Hvp).
  assert (Hsq : Aircraft.stall_speed_ias_mps a ^ 2 = v ^ 2 * 0.4 / 1.5).
  { rewrite Hst. apply pow2_sqrt. lra. }
  rewrite Hvr, HS, <- HW'.
  set (W := Aircraft.weight_n a).
  replace ((Aircraft.stall_speed_ias_mps a * 1.10 * 0.7) ^ 2)
    with (0.5929 * Aircraft.stall_speed_ias_mps a ^ 2) by nra.
  rewrite Hsq. unfold RHO_SL_KGM3.
  assert (Hx : v ^ 2 * 0.4 / 1.5 * (2 * W / (1.225 * v ^ 2 * 0.4))
               = 0.4 / 1.5 * (2 * W) / (1.225 * 0.4))
    by (field; lra).
  replace (0.5 * 1.225 * (0.5929 * (v ^ 2 * 0.4 / 1.5))
           * (2 * W / (1.225 * v ^ 2 * 0.4) / Aircraft.ld_ratio a))
    with (0.5 * 1.225 * 0.5929
          * (v ^ 2 * 0.4 / 1.5 * (2 * W / (1.225 * v ^ 2 * 0.4)))
          * / Aircraft.ld_ratio a)
    by (unfold Rdiv; ring).
  rewrite Hx. lra.
Qed.

Lemma extends_refl (p : FlightPath.t) : extends p p.
Proof. exists []. symmetry. apply app_nil_r. Qed.

Lemma extends_trans (p q r : FlightPath.t) :
  extends p q -> extends q r -> extends p r.
Proof.
  intros [l Hl] [m Hm]. exists (l ++ m). rewrite Hm, Hl. symmetry.
  apply app_assoc.
Qed.

Lemma record_step_extends (p p' : FlightPath.t) (dt ds da ias drain : R) :
  FlightPath.record_step p dt ds da ias drain = Ok p' -> extends p p'.
Proof.
  intro H. destruct (record_step_inv _ _ _ _ _ _ _ H) as (Ht & _).
  eexists. exact Ht.
Qed.

Lemma climb_step_extends (a : Aircraft.t) (W E : R) (p p' : FlightPath.t) :
  climb_step a W E p = Ok (Some p') -> extends p p'.
Proof.
  intro H. unfold climb_step in H.
  repeat bind_inv H.
  destruct (_ <=? 0) in H; [discriminate|].
  repeat bind_inv H. injection H as <-.
  match goal with
  | Hr : FlightPath.record_step ?q _ _ _ _ _ = Ok _ |- _ =>
      assert (Hs : same_samples p q)
        by (destruct (FlightPath.climb_rate_fpm p =? 0);
            repeat split; reflexivity);
      apply extends_trans with q;
        [|exact (record_step_extends _ _ _ _ _ _ _ Hr)]
  end.
  destruct Hs as (Ht & _). exists []. rewrite app_nil_r. exact Ht.
Qed.

Lemma climb_loop_extends (a : Aircraft.t) (W E : R) (fuel : nat) :
  forall p p', climb_loop fuel a W E p = Ok (Some p') -> extends p p'.
Proof.
  induction fuel as [|fuel IH]; intros p p' H; cbn [climb_loop] in H.
  - bind_inv H. destruct (75.0 <? _) in H.
    + bind_inv H. destruct (_ <? 45000) in H; [discriminate|].
      injection H as <-. apply extends_refl.
    + injection H as <-. apply extends_refl.
  - bind_inv H. destruct (75.0 <? _) in H.
    + bind_inv H. destruct (_ <? 45000) in H.
      * destruct (climb_step a W E p) as [[p1|]|] eqn:Hstep;
          cbn [bind] in H; [| |discriminate].
        -- apply extends_trans with p1;
             [exact (climb_step_extends _ _ _ _ _ Hstep) | exact (IH _ _ H)].
        -- injection H as <-. apply extends_refl.
      * injection H as <-. apply extends_refl.
    + injection H as <-. apply extends_refl.
Qed.

Lemma cruise_phase_extends (a : Aircraft.t) (W E : R) (p p' : FlightPath.t) :
  cruise_phase a W E p = Ok p' -> extends p p'.
Proof.
  intro H. unfold cruise_phase in H.
  bind_inv H.
  destruct (0 <? _) in H; [|injection H as <-; apply extends_refl].
  do 8 bind_inv H.
  destruct (0 <? _) in H;
    [|injection H as <-; exists []; cbn; symmetry; apply app_nil_r].
  do 2 bind_inv H.
  destruct (record_step_extends _ _ _ _ _ _ _ H) as [l Hl].
  exists l. exact Hl.
Qed.

Lemma descent_phase_extends (a : Aircraft.t) (p p' : FlightPath.t) :
  descent_phase a p = Ok p' -> extends p p'.
Proof.
  intro H. unfold descent_phase in H.
  do 7 bind_inv H.
  destruct (FlightPath.record_step p _ _ _ _ 0) as [q|] eqn:Hrec;
    cbn [bind] in H; [|discriminate].
  do 3 bind_inv H. injection H as <-.
  exact (record_step_extends _ _ _ _ _ _ _ Hrec).
Qed.

(** A takeoff that takes a negative time makes any path that the
    simulation returns run backwards in time. *)
Lemma negative_takeoff_time (fuel : nat) (a : Aircraft.t) (f : R)
    (path : FlightPath.t) :
  net_force a 0.04 = Ok f ->
  0 < f ->
  Aircraft.mtow_kg a < 0 ->
  0 < Aircraft.vr_ias_mps a ->
  run_mission_simulation fuel a = Ok (Some path) ->
  ~ nondecreasing (FlightPath.time_s path).
Proof.
  intros Hf Hfp Hm Hvr H. unfold run_mission_simulation in H.
  unfold calculate_takeoff_distance in H. rewrite Hf in H. cbn [bind] in H.
  rewrite Rleb_false in H by lra.
  rewrite (fdiv_ok f) in H by lra. cbn [bind] in H.
  assert (Hacc : f / Aircraft.mtow_kg a < 0).
  { replace (f / Aircraft.mtow_kg a) with (- (f / - Aircraft.mtow_kg a))
      by (field; lra).
    assert (0 < f / - Aircraft.mtow_kg a) by (apply Rdiv_lt_0_compat; lra).
    lra. }
  rewrite !fdiv_ok in H by lra. cbn [bind] in H.
  bind_inv H.
  destruct (FlightPath.record_step FlightPath.__init__ _ _ _ _ _)
    as [p1|] eqn:Hrec; cbn [bind] in H; [|discriminate].
  destruct (climb_loop fuel a _ _ p1) as [[p2|]|] eqn:Hclimb;
    cbn [bind] in H; try discriminate.
  destruct (cruise_phase a _ _ p2) as [p3|] eqn:Hcruise;
    cbn [bind] in H; [|discriminate].
  destruct (descent_phase a p3) as [p4|] eqn:Hdesc;
    cbn [bind] in H; [|discriminate].
  injection H as <-.
  destruct (record_step_inv _ _ _ _ _ _ _ Hrec) as (Ht & _).
  cbn [FlightPath.__init__ FlightPath.time_s app last] in Ht.
  assert (Hext : extends p1 p4).
  { apply extends_trans with p2; [exact (climb_loop_extends _ _ _ _ _ _ Hclimb)|].
    apply extends_trans with p3; [exact (cruise_phase_extends _ _ _ _ _ Hcruise)|].
    exact (descent_phase_extends _ _ _ Hdesc). }
  destruct Hext as [l Hl]. rewrite Hl, Ht. cbn [app nondecreasing].
  intros [Hle _].
  assert (Htime : Aircraft.vr_ias_mps a / (f / Aircraft.mtow_kg a) < 0).
  { set (acc := f / Aircraft.mtow_kg a) in *.
    replace (Aircraft.vr_ias_mps a / acc)
      with (- (Aircraft.vr_ias_mps a / - acc)) by (field; lra).
    assert (0 < Aircraft.vr_ias_mps a / - acc)
      by (apply Rdiv_lt_0_compat; lra).
    lra. }
  lra.
Qed.

Lemma record_step_nonempty (path : FlightPath.t)
    (dt dist_step alt_step ias battery_drain : R) :
  nonempty path ->
  exists path',
    FlightPath.record_step path dt dist_step alt_step ias battery_drain
    = Ok path' /\
    nonempty path' /\
    last (FlightPath.alt_ft path') 0
    = last (FlightPath.alt_ft path) 0 + alt_step /\
    last (FlightPath.battery_pct path') 0
    = last (FlightPath.battery_pct path) 0 - battery_drain.
Proof.
  intros (Ht & Hd & Ha & Hb). unfold FlightPath.record_step.
  rewrite !last_item_ok by assumption. cbn [bind].
  eexists. split; [reflexivity|].
  unfold nonempty. cbn. rewrite !last_last.
  repeat split; try apply app_neq_nil.
Qed.

Section NegativeWeight.

Variable a : Aircraft.t.
Hypothesis HP : 0 < EDF.power_w (Aircraft.edf a).
Hypothesis Hds : 0 < EDF.design_speed_mps (Aircraft.edf a).
Hypothesis HE : 0 < Battery.total_energy_j (Aircraft.battery a).
Hypothesis Hm : Aircraft.mtow_kg a < 0.
Hypothesis Hld : 7 <= Aircraft.ld_ratio a <= 12.
Hypothesis Hcr : 0 < Aircraft.cruise_ias_mps a.
Hypothesis Hs : 0 < Aircraft.stall_speed_ias_mps a.
Hypothesis Hvy :
  Aircraft.vy_ias_mps a = Aircraft.stall_speed_ias_mps a * 1.20.
Hypothesis Hbg :
  Aircraft.best_glide_ias_mps a = Aircraft.stall_speed_ias_mps a * 1.31.

Let W := Aircraft.mtow_kg a * G.
Let E := Battery.total_energy_j (Aircraft.battery a).

(** With a negative weight the drag term is negative, so there is always
    excess power: every pass of the climb loop records a step, which
    takes a negative time and so charges the battery. *)
Lemma negative_weight_climb_step (path : FlightPath.t) :
  nonempty path ->
  1 <= last (FlightPath.alt_ft path) 0 <= 45250 ->
  exists path',
    climb_step a W E path = Ok (Some path') /\
    nonempty path' /\
    last (FlightPath.alt_ft path') 0 = last (FlightPath.alt_ft path) 0 + 250 /\
    last (FlightPath.battery_pct path) 0
    <= last (FlightPath.battery_pct path') 0.
Proof.
  intros Hne Halt.
  assert (HW : W < 0) by (unfold W, G; lra).
  unfold climb_step.
  rewrite last_item_ok by apply Hne. cbn [bind].
  set (alt := last (FlightPath.alt_ft path) 0) in *.
  destruct (isa_density_ok (alt * 0.3048)) as (rho & Hrho & Hrp); [lra|].
  rewrite Hrho. cbn [bind].
  assert (HR : 0 < RHO_SL_KGM3) by (unfold RHO_SL_KGM3; lra).
  rewrite (fdiv_ok RHO_SL_KGM3 rho) by lra. cbn [bind].
  assert (Hq : 0 < RHO_SL_KGM3 / rho) by (apply Rdiv_lt_0_compat; assumption).
  rewrite math_sqrt_ok by lra. cbn [bind].
  set (s := sqrt (RHO_SL_KGM3 / rho)).
  assert (Hsp : 0 < s) by (apply sqrt_lt_R0; exact Hq).
  set (tas := Aircraft.vy_ias_mps a * s).
  assert (Htas : 0 < tas)
    by (unfold tas; rewrite Hvy; apply Rmult_lt_0_compat; lra).
  rewrite (fdiv_ok W) by lra. cbn [bind].
  assert (Hgs : 0 < Aircraft.best_glide_ias_mps a * s)
    by (rewrite Hbg; apply Rmult_lt_0_compat; lra).
  rewrite (fdiv_ok tas) by lra. cbn [bind].
  assert (Hvrat : 0 < tas / (Aircraft.best_glide_ias_mps a * s))
    by (apply Rdiv_lt_0_compat; assumption).
  rewrite (fdiv_ok 1) by lra. cbn [bind].
  rewrite efficiency_value by lra. cbn [bind].
  set (eff := Rmax 0.1 _).
  assert (Heff : 0.1 <= eff) by apply Rmax_l.
  set (vr := tas / (Aircraft.best_glide_ias_mps a * s)) in *.
  set (pe := EDF.power_w (Aircraft.edf a) * (rho / RHO_SL_KGM3)).
  assert (Hpe : 0 < pe).
  { unfold pe. apply Rmult_lt_0_compat; [exact HP|].
    apply Rdiv_lt_0_compat; assumption. }
  set (drag := W / Aircraft.ld_ratio a * 0.5 * (vr ^ 2 + (1 / vr) ^ 2)).
  assert (Hdrag : drag < 0).
  { unfold drag.
    assert (Hd : W / Aircraft.ld_ratio a < 0).
    { replace (W / Aircraft.ld_ratio a)
        with (- (- W / Aircraft.ld_ratio a)) by (field; lra).
      assert (0 < - W / Aircraft.ld_ratio a)
        by (apply Rdiv_lt_0_compat; lra).
      lra. }
    assert (Hsum : 0 < vr ^ 2 + (1 / vr) ^ 2).
    { assert (0 < vr ^ 2) by (apply pow_lt; exact Hvrat).
      assert (0 <= (1 / vr) ^ 2) by (apply pow2_ge_0). lra. }
    nra. }
  set (excess := pe * eff - drag * tas).
  assert (Hexp : 0 < excess).
  { unfold excess.
    assert (0 < pe * eff) by (apply Rmult_lt_0_compat; lra).
    assert (drag * tas < 0) by nra. lra. }
  rewrite Rleb_false by lra.
  rewrite (fdiv_ok excess W) by lra. cbn [bind].
  assert (Hroc : excess / W < 0).
  { replace (excess / W) with (- (excess / - W)) by (field; lra).
    assert (0 < excess / - W) by (apply Rdiv_lt_0_compat; lra). lra. }
  rewrite (fdiv_ok _ (excess / W)) by lra. cbn [bind].
  set (tc := 250.0 * 0.3048 / (excess / W)).
  assert (Htc : tc < 0).
  { unfold tc.
    replace (250.0 * 0.3048 / (excess / W))
      with (- (250.0 * 0.3048 / - (excess / W))) by (field; lra).
    assert (0 < 250.0 * 0.3048 / - (excess / W))
      by (apply Rdiv_lt_0_compat; lra).
    lra. }
  rewrite (fdiv_ok _ E) by (unfold E; lra). cbn [bind].
  assert (Hdrain : pe * tc / E * 100 <= 0).
  { assert (Hn : pe * tc < 0) by nra.
    assert (Hi : 0 < / E) by (apply Rinv_0_lt_compat; exact HE).
    unfold Rdiv. nra. }
  set (path0 := if FlightPath.climb_rate_fpm path =? 0
                then FlightPath.set_climb_rate_fpm path (excess / W * 196.85)
                else path).
  assert (H0 : nonempty path0 /\
               FlightPath.alt_ft path0 = FlightPath.alt_ft path /\
               FlightPath.battery_pct path0 = FlightPath.battery_pct path).
  { unfold path0. destruct (FlightPath.climb_rate_fpm path =? 0);
      (split; [exact Hne | split; reflexivity]). }
  destruct H0 as (Hne0 & Ha0 & Hb0).
  destruct (record_step_nonempty path0 tc (tas * tc) 250.0
              (Aircraft.vy_ias_mps a * 1.94384) (pe * tc / E * 100) Hne0)
    as (path' & Hrec & Hne' & Ha' & Hb').
  rewrite Hrec. cbn [bind].
  exists path'. split; [reflexivity|]. split; [exact Hne'|].
  split; [rewrite Ha', Ha0; fold alt; lra|].
  rewrite Hb', Hb0. lra.
Qed.

(** So the climb goes on until 45000 ft are passed. *)
Lemma negative_weight_climb_loop :
  forall (fuel : nat) (path : FlightPath.t),
    nonempty path ->
    1 <= last (FlightPath.alt_ft path) 0 <= 45250 ->
    75 < last (FlightPath.battery_pct path) 0 ->
    45000 <= last (FlightPath.alt_ft path) 0 + 250 * INR fuel ->
    exists path',
      climb_loop fuel a W E path = Ok (Some path') /\
      nonempty path' /\
      1 <= last (FlightPath.alt_ft path') 0 <= 45250 /\
      75 < last (FlightPath.battery_pct path') 0.
Proof.
  induction fuel as [|fuel IH]; intros path Hne Halt Hb Hfuel.
  - exists path. split; [|split; [|split]]; try assumption.
    cbn [climb_loop INR] in *.
    rewrite !last_item_ok by apply Hne. cbn [bind].
    rewrite (Rltb_false _ 45000) by lra.
    destruct (75.0 <? _); reflexivity.
  - cbn [climb_loop].
    rewrite !last_item_ok by apply Hne. cbn [bind].
    rewrite (Rltb_true 75.0) by lra.
    unfold Rltb at 1.
    destruct (Rlt_dec (last (FlightPath.alt_ft path) 0) 45000) as [Hlow|Hhigh];
      [|exists path; split; [reflexivity | split; [|split]]; assumption].
    destruct (negative_weight_climb_step path Hne Halt)
      as (path' & Hstep & Hne' & Ha' & Hb').
    rewrite Hstep. cbn [bind].
    apply IH; [exact Hne' | rewrite Ha'; lra | lra |].
    rewrite Ha'. rewrite S_INR in Hfuel. lra.
Qed.

(** The cruise needs a negative power, so it records nothing. *)
Lemma negative_weight_cruise (path : FlightPath.t) :
  nonempty path ->
  1 <= last (FlightPath.alt_ft path) 0 <= 45250 ->
  75 < last (FlightPath.battery_pct path) 0 ->
  exists path',
    cruise_phase a W E path = Ok path' /\
    nonempty path' /\
    last (FlightPath.alt_ft path') 0 = last (FlightPath.alt_ft path) 0.
Proof.
  intros Hne Halt Hb.
  assert (HW : W < 0) by (unfold W, G; lra).
  unfold cruise_phase.
  rewrite last_item_ok by apply Hne. cbn [bind].
  set (bl := last (FlightPath.battery_pct path) 0) in *.
  assert (Hu : 0 < (bl - 10.0) / 100.0 * E)
    by (apply Rmult_lt_0_compat; [lra | exact HE]).
  rewrite Rltb_true by exact Hu.
  rewrite last_item_ok by apply Hne. cbn [bind].
  set (alt := last (FlightPath.alt_ft path) 0) in *.
  destruct (isa_density_ok (alt * 0.3048)) as (rho & Hrho & Hrp); [lra|].
  rewrite Hrho. cbn [bind].
  assert (HR : 0 < RHO_SL_KGM3) by (unfold RHO_SL_KGM3; lra).
  assert (Hq : 0 < rho / RHO_SL_KGM3) by (apply Rdiv_lt_0_compat; assumption).
  rewrite math_sqrt_ok by lra. cbn [bind].
  set (s := sqrt (rho / RHO_SL_KGM3)).
  assert (Hsp : 0 < s) by (apply sqrt_lt_R0; exact Hq).
  rewrite (fdiv_ok _ s) by lra. cbn [bind].
  set (tas := Aircraft.cruise_ias_mps a / s).
  assert (Htas : 0 < tas) by (apply Rdiv_lt_0_compat; assumption).
  rewrite (fdiv_ok W) by lra. cbn [bind].
  assert (Hthr : W / Aircraft.ld_ratio a < 0).
  { replace (W / Aircraft.ld_ratio a)
      with (- (- W / Aircraft.ld_ratio a)) by (field; lra).
    assert (0 < - W / Aircraft.ld_ratio a) by (apply Rdiv_lt_0_compat; lra).
    lra. }
  rewrite efficiency_value by lra. cbn [bind].
  set (eff := Rmax 0.1 _).
  assert (Heff : 0.1 <= eff) by apply Rmax_l.
  rewrite (fdiv_ok _ eff) by lra. cbn [bind].
  set (elec := W / Aircraft.ld_ratio a * tas / eff).
  assert (Helec : elec < 0).
  { unfold elec. assert (Hn : W / Aircraft.ld_ratio a * tas < 0) by nra.
    assert (Hi : 0 < / eff) by (apply Rinv_0_lt_compat; lra).
    unfold Rdiv at 1. nra. }
  rewrite (fdiv_ok elec) by lra. cbn [bind].
  rewrite Rltb_false by lra.
  eexists. split; [reflexivity|]. split; [exact Hne | reflexivity].
Qed.

(** The descent does not depend on the weight. *)
Lemma negative_weight_descent (path : FlightPath.t) :
  nonempty path ->
  1 <= last (FlightPath.alt_ft path) 0 <= 45250 ->
  exists path', descent_phase a path = Ok path'.
Proof.
  intros Hne Halt.
  unfold descent_phase.
  rewrite last_item_ok by apply Hne. cbn [bind].
  set (alt := last (FlightPath.alt_ft path) 0) in *.
  rewrite (fdiv_ok 1) by lra. cbn [bind].
  assert (Hinv : 0 < 1 / Aircraft.ld_ratio a)
    by (apply Rdiv_lt_0_compat; lra).
  rewrite tan_atan.
  rewrite (fdiv_ok (alt * 0.3048)) by lra. cbn [bind].
  destruct (isa_density_ok (alt / 2 * 0.3048)) as (rho & Hrho & Hrp); [lra|].
  rewrite Hrho. cbn [bind].
  assert (HR : 0 < RHO_SL_KGM3) by (unfold RHO_SL_KGM3; lra).
  rewrite (fdiv_ok RHO_SL_KGM3 rho) by lra. cbn [bind].
  assert (Hq : 0 < RHO_SL_KGM3 / rho) by (apply Rdiv_lt_0_compat; assumption).
  rewrite math_sqrt_ok by lra. cbn [bind].
  set (sink := _ * sin _).
  assert (Htime : exists t,
            (if 0 <? sink then fdiv (alt * 0.3048) sink else Ok 0) = Ok t).
  { destruct (Rlt_dec 0 sink) as [Hsk | Hsk].
    - rewrite Rltb_true by exact Hsk. rewrite fdiv_ok by lra.
      eexists. reflexivity.
    - rewrite Rltb_false by exact Hsk. exists 0. reflexivity. }
  destruct Htime as (t & Ht). rewrite Ht. cbn [bind].
  destruct (record_step_nonempty path t
              (alt * 0.3048 / (1 / Aircraft.ld_ratio a)) (- alt)
              (Aircraft.best_glide_ias_mps a * 1.94384) 0 Hne)
    as (path' & Hrec & (Ht' & Hd' & Ha' & Hb') & _).
  rewrite Hrec. cbn [bind].
  rewrite !last_item_ok by assumption. cbn [bind].
  destruct (FlightPath.alt_ft path') as [|x xs] eqn:Ealt; [contradiction|].
  cbn [list_max bind].
  eexists. reflexivity.
Qed.

(** The whole mission is simulated: with a positive net force the
    takeoff roll takes a negative time, and the simulation returns. *)
Lemma negative_weight_mission_returns (f : R) (fuel : nat) :
  net_force a 0.04 = Ok f ->
  0 < f ->
  0 < Aircraft.vr_ias_mps a ->
  (180 <= fuel)%nat ->
  exists path, run_mission_simulation fuel a = Ok (Some path).
Proof.
  intros Hf Hfp Hvr Hfuel.
  unfold run_mission_simulation, calculate_takeoff_distance.
  rewrite Hf. cbn [bind]. rewrite Rleb_false by lra.
  rewrite (fdiv_ok f) by lra. cbn [bind].
  assert (Hacc : f / Aircraft.mtow_kg a < 0).
  { replace (f / Aircraft.mtow_kg a) with (- (f / - Aircraft.mtow_kg a))
      by (field; lra).
    assert (0 < f / - Aircraft.mtow_kg a) by (apply Rdiv_lt_0_compat; lra).
    lra. }
  rewrite !fdiv_ok by lra. cbn [bind].
  set (time := Aircraft.vr_ias_mps a / (f / Aircraft.mtow_kg a)).
  assert (Htime : time < 0).
  { unfold time. set (acc := f / Aircraft.mtow_kg a) in *.
    replace (Aircraft.vr_ias_mps a / acc)
      with (- (Aircraft.vr_ias_mps a / - acc)) by (field; lra).
    assert (0 < Aircraft.vr_ias_mps a / - acc)
      by (apply Rdiv_lt_0_compat; lra).
    lra. }
  rewrite (fdiv_ok _ (Battery.total_energy_j (Aircraft.battery a))) by lra.
  cbn [bind].
  set (drain := EDF.power_w (Aircraft.edf a) * time
                / Battery.total_energy_j (Aircraft.battery a) * 100).
  assert (Hdrain : drain < 0).
  { unfold drain.
    assert (Hn : EDF.power_w (Aircraft.edf a) * time < 0) by nra.
    assert (Hi : 0 < / Battery.total_energy_j (Aircraft.battery a))
      by (apply Rinv_0_lt_compat; exact HE).
    unfold Rdiv. nra. }
  assert (Hne0 : nonempty FlightPath.__init__)
    by (unfold nonempty; cbn; repeat split; discriminate).
  destruct (record_step_nonempty FlightPath.__init__ time
              (Aircraft.vr_ias_mps a ^ 2 / (2 * (f / Aircraft.mtow_kg a))) 0
              (Aircraft.vr_ias_mps a * 1.94384) drain Hne0)
    as (p1 & Hrec & Hne1 & Ha1 & Hb1).
  rewrite Hrec. cbn [bind].
  cbn [FlightPath.__init__ FlightPath.alt_ft FlightPath.battery_pct last]
    in Ha1, Hb1.
  destruct (negative_weight_climb_loop fuel p1 Hne1)
    as (p2 & Hclimb & Hne2 & Ha2 & Hb2); try lra.
  { rewrite Ha1. apply le_INR in Hfuel.
    replace (INR 180) with 180 in Hfuel by (cbn; lra). lra. }
  fold W E. rewrite Hclimb. cbn [bind].
  destruct (negative_weight_cruise p2 Hne2 Ha2 Hb2) as (p3 & Hcruise & Hne3 & Ha3).
  rewrite Hcruise. cbn [bind].
  destruct (negative_weight_descent p3 Hne3) as (p4 & Hdesc);
    [rewrite Ha3; exact Ha2|].
  rewrite Hdesc. cbn [bind]. exists p4. reflexivity.
Qed.

End NegativeWeight.

(** C4, as stated for every aircraft that the constructor returns, fails
    for a pack whose weight is entered as negative: with the 100 W EDF
    and the -10 kg pack the MTOW is -16.5 kg, the net force of the
    takeoff roll is positive, so the takeoff "succeeds", and the
    acceleration [net_force / mtow] is negative: the simulation returns a
    path whose second time sample is below the first. *)
Lemma mission_path_negative_weight :
  exists a f path,
    Aircraft.__init__ edf_100w battery_negative_weight default_params = Ok a /\
    Aircraft.mtow_kg a = -16.5 /\
    net_force a 0.04 = Ok f /\ 0 < f /\
    run_mission_simulation 180 a = Ok (Some path) /\
    ~ nondecreasing (FlightPath.time_s path).
Proof.
  destruct (init_ok edf_100w battery_negative_weight default_params)
    as (a & H & He & Hb & _ & _ & _ & Hm & HW & _ & _ & Hv & _);
    try (cbn; lra); [apply default_params_wf|].
  assert (Hmv : Aircraft.mtow_kg a = -16.5) by (rewrite Hm; cbn; lra).
  assert (HWv : Aircraft.weight_n a = -16.5 * 9.80665) by (rewrite HW; cbn; lra).
  pose proof (built_ld_ratio _ _ _ a default_params_wf H) as Hld.
  destruct (built_takeoff_drag edf_100w battery_negative_weight default_params
              a default_params_wf) as (Hs & Hvr & Hvy & Hbg & Hdrag);
    try (cbn; lra); [exact H|].
  assert (Hvrp : 0 < Aircraft.vr_ias_mps a) by (rewrite Hvr; lra).
  pose proof (cruise_speed_pos (EDF.power_w edf_100w) default_params
                default_params_wf) as Hk.
  set (f := EDF.static_thrust_n (Aircraft.edf a)
            - 0.5 * RHO_SL_KGM3 * (Aircraft.vr_ias_mps a * 0.7) ^ 2
              * (Aircraft.wing_area_m2 a / Aircraft.ld_ratio a)
            - 0.04 * Aircraft.weight_n a).
  assert (Hf : net_force a 0.04 = Ok f) by (apply net_force_value; lra).
  assert (Hfp : 0 < f).
  { unfold f. rewrite Hdrag, HWv, He.
    cbn [edf_100w EDF.__init__ EDF.static_thrust_n].
    assert (Hil : 0 < / Aircraft.ld_ratio a)
      by (apply Rinv_0_lt_compat; lra).
    nra. }
  destruct (negative_weight_mission_returns a) with (f := f) (fuel := 180%nat)
    as (path & Hrun); try assumption; try lia.
  - rewrite He. cbn. lra.
  - rewrite He. cbn. lra.
  - rewrite Hb. cbn. lra.
  - lra.
  - rewrite Hv. lra.
  - exists a, f, path.
    split; [exact H|]. split; [exact Hmv|]. split; [exact Hf|].
    split; [exact Hfp|]. split; [exact Hrun|].
    apply (negative_takeoff_time 180 a f path); try assumption. lra.
Qed.

(** * Further properties *)

(** ** LogScaledParameter: construction, value and score *)

Lemma parameter_init_ok (n u : string) (lo hi : R) :
  0 < lo -> lo <= hi ->
  LogScaledParameter.__init__ n u lo hi
  = Ok (LogScaledParameter.mk n u lo hi 50).
Proof.
  intros Hlo Hle.
  unfold LogScaledParameter.__init__, LogScaledParameter.set_percent.
  cmp_simpl. reflexivity.
Qed.

(** X1.  The constructor raises [ValueError] exactly when a bound is not
    positive or the minimum exceeds the maximum; otherwise it returns the
    parameter at 50%. *)
Theorem parameter_init_validation (n u : string) (lo hi : R) :
  (LogScaledParameter.__init__ n u lo hi = Raise ValueError <->
   lo <= 0 \/ hi <= 0 \/ hi < lo) /\
  (LogScaledParameter.__init__ n u lo hi
   = Ok (LogScaledParameter.mk n u lo hi 50) <->
   0 < lo /\ lo <= hi).
Proof.
  unfold LogScaledParameter.__init__, LogScaledParameter.set_percent.
  cbn [LogScaledParameter.name LogScaledParameter.unit
       LogScaledParameter.min_val LogScaledParameter.max_val].
  rewrite (Rleb_true 0 50), (Rleb_true 50 100) by lra.
  cbn [negb andb].
  unfold Rleb, Rltb.
  destruct (Rle_dec lo 0), (Rle_dec hi 0), (Rlt_dec hi lo); cbn [orb];
    (split; split; intro H; try discriminate; try reflexivity; try lra).
Qed.

(** In exact arithmetic, for a parameter with [0 < min_val <= max_val]
    and a percentage in [[0, 100]], [value] lies in
    [[min_val, max_val]]: it is [min_val] at 0% and [max_val] at 100%.
    (In binary64 the endpoints can be missed by one unit in the last
    place; see [Binary64] below.) *)
Lemma value_in_range (self : LogScaledParameter.t) :
  LogScaledParameter.wf self ->
  exists v,
    LogScaledParameter.value self = Ok v /\
    LogScaledParameter.min_val self <= v <= LogScaledParameter.max_val self /\
    (LogScaledParameter.percent self = 0 ->
     v = LogScaledParameter.min_val self) /\
    (LogScaledParameter.percent self = 100 ->
     v = LogScaledParameter.max_val self).
Proof.
  intros (Hmin & Hle & Hp).
  destruct self as [nm un lo hi pc].
  cbn [LogScaledParameter.min_val LogScaledParameter.max_val
       LogScaledParameter._percent LogScaledParameter.percent] in *.
  unfold LogScaledParameter.value.
  cbn [LogScaledParameter.min_val LogScaledParameter.max_val
       LogScaledParameter._percent].
  rewrite !math_log_ok by lra. cbn [bind].
  assert (Hln : ln lo <= ln hi).
  { destruct Hle as [Hlt | Heq]; [left; apply ln_increasing; lra
                                 | right; rewrite Heq; reflexivity]. }
  eexists. split; [reflexivity|]. split; [|split].
  - apply exp_between; try lra. split; nra.
  - intros ->. replace (ln lo + 0 / 100 * (ln hi - ln lo)) with (ln lo) by lra.
    apply exp_ln. lra.
  - intros ->.
    replace (ln lo + 100 / 100 * (ln hi - ln lo)) with (ln hi) by lra.
    apply exp_ln. lra.
Qed.

(** X3.  The default value, read right after construction, is the
    geometric mean of the two bounds. *)
Theorem default_value_geometric_mean (n u : string) (lo hi : R) :
  0 < lo -> lo <= hi ->
  exists p,
    LogScaledParameter.__init__ n u lo hi = Ok p /\
    LogScaledParameter.value p = Ok (sqrt (lo * hi)).
Proof.
  intros Hlo Hle.
  exists (LogScaledParameter.mk n u lo hi 50).
  split; [apply parameter_init_ok; assumption|].
  unfold LogScaledParameter.value.
  cbn [LogScaledParameter.min_val LogScaledParameter.max_val
       LogScaledParameter._percent].
  rewrite !math_log_ok by lra. cbn [bind]. f_equal.
  assert (Hprod : 0 < lo * hi) by (apply Rmult_lt_0_compat; lra).
  rewrite <- (Rpower_sqrt (lo * hi)) by exact Hprod.
  unfold Rpower. f_equal. rewrite ln_mult by lra. lra.
Qed.

Lemma default_value_geometric_mean_witness :
  exists p,
    LogScaledParameter.__init__ "Takeoff Weight" "kg" 5 250 = Ok p /\
    LogScaledParameter.value p = Ok (sqrt (5 * 250)).
Proof.
  apply (default_value_geometric_mean "Takeoff Weight" "kg" 5 250); lra.
Defined.

(** X4.  On a range with [0 < min_val < max_val] the value grows strictly
    with the percentage. *)
Theorem value_increasing (self : LogScaledParameter.t) (p q : R) :
  0 < LogScaledParameter.min_val self < LogScaledParameter.max_val self ->
  0 <= p -> p < q -> q <= 100 ->
  exists s1 s2 v1 v2,
    LogScaledParameter.set_percent self p = Ok s1 /\
    LogScaledParameter.set_percent self q = Ok s2 /\
    LogScaledParameter.value s1 = Ok v1 /\
    LogScaledParameter.value s2 = Ok v2 /\
    v1 < v2.
Proof.
  intros [Hmin Hlt] Hp Hpq Hq.
  destruct self as [nm un lo hi pc]. cbn in Hmin, Hlt.
  assert (Hln : ln lo < ln hi) by (apply ln_increasing; lra).
  unfold LogScaledParameter.set_percent, LogScaledParameter.value.
  cbn [LogScaledParameter.min_val LogScaledParameter.max_val
       LogScaledParameter._percent LogScaledParameter.name
       LogScaledParameter.unit].
  cmp_simpl.
  do 4 eexists.
  split; [reflexivity|]. split; [reflexivity|].
  cbn [LogScaledParameter.min_val LogScaledParameter.max_val
       LogScaledParameter._percent].
  rewrite !math_log_ok by lra. cbn [bind].
  split; [reflexivity|]. split; [reflexivity|].
  apply exp_increasing. nra.
Qed.

Lemma value_increasing_witness :
  exists s1 s2 v1 v2,
    LogScaledParameter.set_percent
      (LogScaledParameter.mk "Wingspan" "m" 0.3 3 50) 10 = Ok s1 /\
    LogScaledParameter.set_percent
      (LogScaledParameter.mk "Wingspan" "m" 0.3 3 50) 90 = Ok s2 /\
    LogScaledParameter.value s1 = Ok v1 /\
    LogScaledParameter.value s2 = Ok v2 /\
    v1 < v2.
Proof.
  apply (value_increasing (LogScaledParameter.mk "Wingspan" "m" 0.3 3 50)
           10 90); cbn; lra.
Defined.

(** X5.  On a range with [0 < min_val], setting the value raises
    [ValueError] exactly when the new value is outside
    [[min_val, max_val]]; with [min_val < max_val] a value inside the
    range is accepted, leaves a percentage in [[0, 100]] and the bounds
    as they were, and is read back unchanged. *)
Theorem set_value_round_trip (self : LogScaledParameter.t) (v : R) :
  0 < LogScaledParameter.min_val self ->
  (LogScaledParameter.set_value self v = Raise ValueError <->
   ~ (LogScaledParameter.min_val self <= v <= LogScaledParameter.max_val self))
  /\
  (LogScaledParameter.min_val self < LogScaledParameter.max_val self ->
   LogScaledParameter.min_val self <= v <= LogScaledParameter.max_val self ->
   exists s,
     LogScaledParameter.set_value self v = Ok s /\
     0 <= LogScaledParameter.percent s <= 100 /\
     LogScaledParameter.min_val s = LogScaledParameter.min_val self /\
     LogScaledParameter.max_val s = LogScaledParameter.max_val self /\
     LogScaledParameter.value s = Ok v).
Proof.
  intros Hmin.
  destruct self as [nm un lo hi pc].
  cbn [LogScaledParameter.min_val LogScaledParameter.max_val] in *.
  unfold LogScaledParameter.set_value.
  cbn [LogScaledParameter.min_val LogScaledParameter.max_val
       LogScaledParameter.name LogScaledParameter.unit].
  split.
  - destruct (Rle_dec lo v) as [H1 | H1], (Rle_dec v hi) as [H2 | H2];
      try (rewrite ?(Rleb_false lo v), ?(Rleb_false v hi),
             ?(Rleb_true lo v), ?(Rleb_true v hi) by assumption;
           cbn [negb andb]; split; [intros _; lra | reflexivity]).
    rewrite Rleb_true, Rleb_true by assumption. cbn [negb andb].
    rewrite !math_log_ok by lra. cbn [bind].
    split; [|intro H; exfalso; apply H; split; assumption].
    unfold fdiv. destruct (_ =? 0); cbn [bind]; discriminate.
  - intros Hlt [H1 H2].
    rewrite Rleb_true, Rleb_true by assumption. cbn [negb andb].
    rewrite !math_log_ok by lra. cbn [bind].
    assert (Hln : ln lo < ln hi) by (apply ln_increasing; lra).
    assert (Hlv : ln lo <= ln v <= ln hi).
    { split.
      - destruct H1 as [H|H]; [left; apply ln_increasing; lra
                              | right; rewrite H; reflexivity].
      - destruct H2 as [H|H]; [left; apply ln_increasing; lra
                              | right; rewrite H; reflexivity]. }
    rewrite fdiv_ok by lra. cbn [bind].
    eexists. split; [reflexivity|].
    cbn [LogScaledParameter.percent LogScaledParameter._percent
         LogScaledParameter.min_val LogScaledParameter.max_val].
    assert (Hd : 0 < / (ln hi - ln lo)) by (apply Rinv_0_lt_compat; lra).
    split; [|split; [reflexivity | split; [reflexivity|]]].
    + split.
      * apply Rmult_le_pos; lra.
      * apply Rmult_le_reg_r with (r := ln hi - ln lo); [lra|].
        unfold Rdiv. rewrite Rmult_assoc, Rinv_l by lra. lra.
    + unfold LogScaledParameter.value.
      cbn [LogScaledParameter.min_val LogScaledParameter.max_val
           LogScaledParameter._percent].
      rewrite !math_log_ok by lra. cbn [bind]. f_equal.
      replace (ln lo + 100 * (ln v - ln lo) / (ln hi - ln lo) / 100
                       * (ln hi - ln lo))
        with (ln v) by (field; lra).
      apply exp_ln. lra.
Qed.

Lemma set_value_round_trip_witness :
  exists s,
    LogScaledParameter.set_value
      (LogScaledParameter.mk "Takeoff Weight" "kg" 5 250 50) 50 = Ok s /\
    0 <= LogScaledParameter.percent s <= 100 /\
    LogScaledParameter.value s = Ok 50.
Proof.
  destruct (set_value_round_trip
              (LogScaledParameter.mk "Takeoff Weight" "kg" 5 250 50) 50)
    as [_ H]; [cbn; lra|].
  destruct H as (s & Hs & Hp & _ & _ & Hv); [cbn; lra | cbn; lra |].
  exists s. split; [exact Hs|]. split; [exact Hp | exact Hv].
Defined.

Lemma score_outside_range_aux (self : LogScaledParameter.t) (a : R) :
  0 < LogScaledParameter.min_val self ->
  LogScaledParameter.min_val self < LogScaledParameter.max_val self ->
  0 <= a ->
  a < LogScaledParameter.min_val self \/ LogScaledParameter.max_val self < a ->
  exists s, LogScaledParameter.score self a = Ok s /\ 0 <= s < 1.
Proof.
  intros Hmin Hlt Ha [Hlo | Hhi].
  - rewrite score_below by (try split; assumption).
    eexists. split; [reflexivity|].
    assert (Hi : 0 < / LogScaledParameter.min_val self)
      by (apply Rinv_0_lt_compat; exact Hmin).
    split; [apply Rmult_le_pos; lra|].
    apply Rmult_lt_reg_r with (r := LogScaledParameter.min_val self); [lra|].
    unfold Rdiv. rewrite Rmult_assoc, Rinv_l by lra. lra.
  - rewrite score_above by (try split; assumption).
    eexists. split; [reflexivity|].
    assert (Hi : 0 < / a) by (apply Rinv_0_lt_compat; lra).
    split; [apply Rmult_le_pos; lra|].
    apply Rmult_lt_reg_r with (r := a); [lra|].
    unfold Rdiv. rewrite Rmult_assoc, Rinv_l by lra. lra.
Qed.

(** X6.  For any parameter with [0 < min_val <= max_val] and any actual
    value that is not negative, [score] returns without raising a number
    between 0 and 1. *)
Theorem score_unit_interval (self : LogScaledParameter.t) (a : R) :
  0 < LogScaledParameter.min_val self ->
  LogScaledParameter.min_val self <= LogScaledParameter.max_val self ->
  0 <= a ->
  exists s, LogScaledParameter.score self a = Ok s /\ 0 <= s <= 1.
Proof.
  intros Hmin Hle Ha.
  destruct Hle as [Hlt | Heq].
  - destruct (Rlt_le_dec a (LogScaledParameter.min_val self)) as [H1 | H1];
      [|destruct (Rlt_le_dec (LogScaledParameter.max_val self) a)
          as [H2 | H2]].
    + destruct (score_outside_range_aux self a) as (s & Hs & Hb); auto.
      exists s. split; [exact Hs | lra].
    + destruct (score_outside_range_aux self a) as (s & Hs & Hb); auto.
      exists s. split; [exact Hs | lra].
    + rewrite score_inside by (try split; assumption).
      eexists. split; [reflexivity|].
      set (lo := LogScaledParameter.min_val self) in *.
      set (hi := LogScaledParameter.max_val self) in *.
      assert (Hd : 0 <= Rabs (a - (lo + hi) / 2) <= (hi - lo) / 2)
        by (split; [apply Rabs_pos | apply Rabs_le; lra]).
      assert (Hh : 0 < / ((hi - lo) / 2)) by (apply Rinv_0_lt_compat; lra).
      assert (Hq : 0 <= Rabs (a - (lo + hi) / 2) / ((hi - lo) / 2) <= 1).
      { split; [apply Rmult_le_pos; lra|].
        apply Rmult_le_reg_r with (r := (hi - lo) / 2); [lra|].
        unfold Rdiv at 1. rewrite Rmult_assoc, Rinv_l by lra. lra. }
      lra.
  - unfold LogScaledParameter.score.
    rewrite (Reqb_true _ _ Heq).
    rewrite (Rleb_false (LogScaledParameter.min_val self) 0) by lra.
    destruct (Rle_dec a 0) as [H0 | H0].
    + rewrite Rleb_true by exact H0. cbn [orb].
      exists 0. split; [reflexivity | lra].
    + rewrite Rleb_false by exact H0. cbn [orb].
      set (t := LogScaledParameter.min_val self) in *.
      assert (Hmx : 0 < Rmax a t) by (pose proof (Rmax_r a t); lra).
      assert (Hmn : 0 < Rmin a t) by (apply Rmin_glb_lt; lra).
      assert (Hmm : Rmin a t <= Rmax a t)
        by (apply Rle_trans with t; [apply Rmin_r | apply Rmax_r]).
      rewrite fdiv_ok by lra.
      eexists. split; [reflexivity|].
      assert (Hi : 0 < / Rmax a t) by (apply Rinv_0_lt_compat; exact Hmx).
      split; [apply Rmult_le_pos; lra|].
      apply Rmult_le_reg_r with (r := Rmax a t); [exact Hmx|].
      unfold Rdiv. rewrite Rmult_assoc, Rinv_l by lra. lra.
Qed.

Lemma score_unit_interval_witness :
  exists s,
    LogScaledParameter.score
      (LogScaledParameter.mk "Endurance" "hours" 1 2 50) 0 = Ok s /\
    0 <= s <= 1.
Proof.
  apply (score_unit_interval
           (LogScaledParameter.mk "Endurance" "hours" 1 2 50) 0); cbn; lra.
Defined.

(** X7.  On a single-point target [min_val = max_val = t > 0] the score of
    a positive value is the smaller of the two over the larger, and it is
    1 exactly when the value hits the target; a value that is zero or
    negative scores 0. *)
Theorem score_point_target (self : LogScaledParameter.t) (a : R) :
  LogScaledParameter.min_val self = LogScaledParameter.max_val self ->
  0 < LogScaledParameter.min_val self ->
  let t := LogScaledParameter.min_val self in
  (a <= 0 -> LogScaledParameter.score self a = Ok 0) /\
  (0 < a ->
   LogScaledParameter.score self a = Ok (Rmin a t / Rmax a t) /\
   (Rmin a t / Rmax a t = 1 <-> a = t)).
Proof.
  intros Heq Hmin t. unfold LogScaledParameter.score.
  rewrite (Reqb_true _ _ Heq). fold t.
  rewrite (Rleb_false t 0) by (unfold t; lra).
  split.
  - intro Ha. rewrite Rleb_true by exact Ha. reflexivity.
  - intro Ha. rewrite Rleb_false by lra. cbn [orb].
    assert (Hmx : 0 < Rmax a t) by (pose proof (Rmax_l a t); lra).
    rewrite fdiv_ok by lra. split; [reflexivity|].
    split.
    + intro H1.
      assert (H2 : Rmin a t = Rmax a t).
      { apply (f_equal (fun x => x * Rmax a t)) in H1.
        unfold Rdiv in H1. rewrite Rmult_assoc, Rinv_l in H1 by lra. lra. }
      unfold Rmin, Rmax in H2.
      destruct (Rle_dec a t); lra.
    + intros ->. rewrite Rmin_left, Rmax_left by lra.
      unfold Rdiv. apply Rinv_r. unfold t. lra.
Qed.

Lemma score_point_target_witness :
  LogScaledParameter.score
    (LogScaledParameter.mk "Takeoff Weight" "kg" 15 15 50) 10
  = Ok (Rmin 10 15 / Rmax 10 15).
Proof.
  destruct (score_point_target
              (LogScaledParameter.mk "Takeoff Weight" "kg" 15 15 50) 10)
    as [_ H]; [reflexivity | cbn; lra |].
  destruct H as [H _]; [lra | exact H].
Defined.

(** X8.  The score is not monotone across an edge of the range: the edge
    itself scores 0, while every positive value below [min_val] and every
    value above [max_val] scores strictly more than 0. *)
Theorem score_jumps_at_edges (self : LogScaledParameter.t) (a : R) :
  0 < LogScaledParameter.min_val self < LogScaledParameter.max_val self ->
  (0 < a < LogScaledParameter.min_val self \/
   LogScaledParameter.max_val self < a) ->
  exists s,
    LogScaledParameter.score self a = Ok s /\
    LogScaledParameter.score self (LogScaledParameter.min_val self) = Ok 0 /\
    LogScaledParameter.score self (LogScaledParameter.max_val self) = Ok 0 /\
    0 < s.
Proof.
  intros [Hmin Hlt] Ha.
  set (lo := LogScaledParameter.min_val self) in *.
  set (hi := LogScaledParameter.max_val self) in *.
  assert (Hedge : forall x, x = lo \/ x = hi ->
            LogScaledParameter.score self x = Ok 0).
  { intros x Hx. rewrite score_inside by (fold lo hi; destruct Hx; lra).
    fold lo hi. f_equal.
    assert (Hab : Rabs (x - (lo + hi) / 2) = (hi - lo) / 2).
    { destruct Hx as [-> | ->].
      - rewrite Rabs_left1 by lra. lra.
      - rewrite Rabs_right by lra. lra. }
    rewrite Hab. unfold Rdiv at 1. rewrite Rinv_r by lra. lra. }
  destruct Ha as [[Ha0 Ha1] | Ha1].
  - exists (a / lo). split; [apply score_below; fold lo hi; lra|].
    split; [apply Hedge; left; reflexivity|].
    split; [apply Hedge; right; reflexivity|].
    apply Rdiv_lt_0_compat; lra.
  - exists (hi / a). split; [apply score_above; fold lo hi; lra|].
    split; [apply Hedge; left; reflexivity|].
    split; [apply Hedge; right; reflexivity|].
    apply Rdiv_lt_0_compat; lra.
Qed.

Lemma score_jumps_at_edges_witness :
  exists s,
    LogScaledParameter.score
      (LogScaledParameter.mk "Takeoff Weight" "kg" 10 20 50) 9 = Ok s /\
    LogScaledParameter.score
      (LogScaledParameter.mk "Takeoff Weight" "kg" 10 20 50) 10 = Ok 0 /\
    LogScaledParameter.score
      (LogScaledParameter.mk "Takeoff Weight" "kg" 10 20 50) 20 = Ok 0 /\
    0 < s.
Proof.
  apply (score_jumps_at_edges
           (LogScaledParameter.mk "Takeoff Weight" "kg" 10 20 50) 9).
  - cbn. lra.
  - left. cbn. lra.
Defined.

(** X9.  [set_range] leaves the percentage as it was and takes any two
    bounds; reading the value afterwards raises [ValueError] exactly when
    one of the new bounds is zero or negative. *)
Theorem set_range_unchecked (param : LogScaledParameter.t) (lo hi : R) :
  LogScaledParameter.percent (set_range param lo hi)
  = LogScaledParameter.percent param /\
  LogScaledParameter.min_val (set_range param lo hi) = lo /\
  LogScaledParameter.max_val (set_range param lo hi) = hi /\
  (LogScaledParameter.value (set_range param lo hi) = Raise ValueError <->
   lo <= 0 \/ hi <= 0).
Proof.
  repeat split.
  - unfold LogScaledParameter.value, set_range, math_log, Rltb.
    cbn [LogScaledParameter.min_val LogScaledParameter.max_val].
    destruct (Rlt_dec 0 lo), (Rlt_dec 0 hi); cbn [bind];
      intro H; try discriminate; lra.
  - unfold LogScaledParameter.value, set_range, math_log, Rltb.
    cbn [LogScaledParameter.min_val LogScaledParameter.max_val].
    destruct (Rlt_dec 0 lo), (Rlt_dec 0 hi); cbn [bind];
      intro H; try reflexivity; lra.
Qed.

(** ** Battery *)

Lemma ln_le_compat (x y : R) : 0 < x -> x <= y -> ln x <= ln y.
Proof.
  intros Hx [H | H]; [left; apply ln_increasing; assumption
                     | right; rewrite H; reflexivity].
Qed.

(** X10.  The energy density is 210 Wh/kg for every C-rating up to 10 and
    never grows with the C-rating. *)
Theorem energy_density_decreasing (c1 c2 : R) :
  (c1 <= 10 -> Battery._calculate_energy_density c1 = 210) /\
  (c1 <= c2 ->
   Battery._calculate_energy_density c2
   <= Battery._calculate_energy_density c1) /\
  Battery._calculate_energy_density c1 <= 210.
Proof.
  unfold Battery._calculate_energy_density, log10.
  pose proof ln_10_pos as H10.
  assert (Hinv : 0 < / ln 10) by (apply Rinv_0_lt_compat; exact H10).
  assert (Hpos : forall c, 0 <= ln (Rmax 1 (c / 10))).
  { intro c. rewrite <- ln_1. apply ln_le_compat; [lra | apply Rmax_l]. }
  split; [|split].
  - intro H. rewrite Rmax_left by lra. rewrite ln_1. lra.
  - intro H.
    assert (Hm : Rmax 1 (c1 / 10) <= Rmax 1 (c2 / 10))
      by (apply Rle_max_compat_l; lra).
    assert (Hl : ln (Rmax 1 (c1 / 10)) <= ln (Rmax 1 (c2 / 10))).
    { apply ln_le_compat; [|exact Hm]. pose proof (Rmax_l 1 (c1 / 10)). lra. }
    assert (ln (Rmax 1 (c1 / 10)) * / ln 10 <= ln (Rmax 1 (c2 / 10)) * / ln 10)
      by (apply Rmult_le_compat_r; lra).
    unfold Rdiv. lra.
  - assert (0 <= ln (Rmax 1 (c1 / 10)) * / ln 10)
      by (apply Rmult_le_pos; [apply Hpos | lra]).
    unfold Rdiv. lra.
Qed.

Lemma from_c_and_weight_fails (c w : R) (cells n : Z) :
  c <= 0 \/ w <= 0 ->
  Battery.from_c_and_weight c w cells n = Raise ValueError.
Proof.
  unfold Battery.from_c_and_weight. intros [H | H].
  - rewrite (Rleb_true c 0) by exact H. reflexivity.
  - rewrite (Rleb_true w 0) by exact H. rewrite orb_true_r. reflexivity.
Qed.

(** X11.  [Battery.from_c_and_weight] raises [ValueError] when the
    C-rating or the weight budget is not positive and
    [ZeroDivisionError] for a pack count of zero; otherwise the pack it
    returns weighs exactly the budget, whatever the pack count, stores
    budget times energy density, and delivers that energy times the
    C-rating. *)
Theorem from_c_and_weight_budget (c w : R) (cells n : Z) :
  (c <= 0 \/ w <= 0 ->
   Battery.from_c_and_weight c w cells n = Raise ValueError) /\
  (0 < c -> 0 < w -> n = 0%Z ->
   Battery.from_c_and_weight c w cells n = Raise ZeroDivisionError) /\
  (0 < c -> 0 < w -> n <> 0%Z ->
   exists b,
     Battery.from_c_and_weight c w cells n = Ok b /\
     Battery.weight_kg b = w /\
     Battery.energy_wh b = w * Battery._calculate_energy_density c /\
     Battery.max_power_w b = w * Battery._calculate_energy_density c * c /\
     Battery.voltage b = IZR cells * 3.7 /\
     Battery.total_energy_j b = Battery.energy_wh b * 3600).
Proof.
  unfold Battery.from_c_and_weight.
  split; [|split].
  - intros [H | H].
    + rewrite (Rleb_true c 0) by exact H. reflexivity.
    + rewrite (Rleb_true w 0) by exact H. rewrite orb_true_r. reflexivity.
  - intros Hc Hw ->. rewrite !Rleb_false by lra. cbn [orb].
    rewrite fdiv_zero. reflexivity.
  - intros Hc Hw Hn. rewrite !Rleb_false by lra. cbn [orb].
    assert (Hn0 : IZR n <> 0) by (apply not_0_IZR; exact Hn).
    rewrite fdiv_ok by exact Hn0. cbn [bind].
    eexists. split; [reflexivity|].
    unfold Battery.__init__.
    cbn [Battery.weight_kg Battery.energy_wh Battery.max_power_w
         Battery.voltage Battery.total_energy_j].
    repeat split; field; exact Hn0.
Qed.

Lemma from_c_and_weight_budget_witness :
  exists b,
    Battery.from_c_and_weight 30 5 6 2 = Ok b /\
    Battery.weight_kg b = 5 /\
    Battery.energy_wh b = 5 * Battery._calculate_energy_density 30.
Proof.
  destruct (from_c_and_weight_budget 30 5 6 2) as (_ & _ & H).
  destruct H as (b & Hb & Hw & He & _); [lra | lra | discriminate |].
  exists b. split; [exact Hb|]. split; [exact Hw | exact He].
Defined.

(** ** EDF *)

(** X12.  [EDF.from_power] sizes a heavier, stronger and larger fan for a
    larger positive power, with a higher design speed; every fan it sizes
    weighs more than 0.05 kg. *)
Theorem from_power_increasing (P1 P2 : R) :
  0 < P1 -> P1 < P2 ->
  exists e1 e2,
    EDF.from_power P1 = Ok e1 /\ EDF.from_power P2 = Ok e2 /\
    0.05 < EDF.weight_kg e1 < EDF.weight_kg e2 /\
    0 < EDF.static_thrust_n e1 < EDF.static_thrust_n e2 /\
    0 < EDF.diameter_m e1 < EDF.diameter_m e2 /\
    25 < EDF.design_speed_mps e1 < EDF.design_speed_mps e2.
Proof.
  intros H1 H12. unfold EDF.from_power.
  rewrite !fpow_ok by lra. cbn [bind].
  do 2 eexists. split; [reflexivity|]. split; [reflexivity|].
  unfold EDF.__init__.
  cbn [EDF.weight_kg EDF.static_thrust_n EDF.diameter_m EDF.design_speed_mps].
  assert (Hm : forall c, 0 < c -> 0 < Rpower P1 c < Rpower P2 c).
  { intros c Hc. split; [apply exp_pos|].
    apply Rlt_Rpower_l; [exact Hc | lra]. }
  pose proof (Hm 0.75 ltac:(lra)). pose proof (Hm 0.88 ltac:(lra)).
  pose proof (Hm 0.44 ltac:(lra)).
  repeat split; lra.
Qed.

Lemma from_power_increasing_witness :
  exists e1 e2,
    EDF.from_power 500 = Ok e1 /\ EDF.from_power 8000 = Ok e2 /\
    0.05 < EDF.weight_kg e1 < EDF.weight_kg e2 /\
    0 < EDF.static_thrust_n e1 < EDF.static_thrust_n e2 /\
    0 < EDF.diameter_m e1 < EDF.diameter_m e2 /\
    25 < EDF.design_speed_mps e1 < EDF.design_speed_mps e2.
Proof. apply (from_power_increasing 500 8000); lra. Defined.

(** X13.  The efficiency curve is symmetric about the design speed and
    falls (never rises) with the distance of the airspeed from it; with a
    design speed of zero the call divides by zero. *)
Theorem propulsive_efficiency_symmetric (e : EDF.t) (x y : R) :
  let d := EDF.design_speed_mps e in
  (d = 0 -> EDF.get_propulsive_efficiency e x = Raise ZeroDivisionError) /\
  (d <> 0 ->
   EDF.get_propulsive_efficiency e (d + x)
   = EDF.get_propulsive_efficiency e (d - x)) /\
  (d <> 0 -> Rabs x <= Rabs y ->
   exists ex ey,
     EDF.get_propulsive_efficiency e (d + x) = Ok ex /\
     EDF.get_propulsive_efficiency e (d + y) = Ok ey /\
     ey <= ex).
Proof.
  intro d. split; [|split].
  - intro H. unfold EDF.get_propulsive_efficiency. fold d. rewrite H.
    rewrite fdiv_zero. reflexivity.
  - intro H. rewrite !efficiency_value by exact H. fold d.
    do 3 f_equal.
    replace ((d + x) / d - 1) with (x / d) by (field; exact H).
    replace ((d - x) / d - 1) with (- (x / d)) by (field; exact H).
    f_equal. f_equal. ring.
  - intros H Hxy. rewrite !efficiency_value by exact H. fold d.
    do 2 eexists. split; [reflexivity|]. split; [reflexivity|].
    replace ((d + x) / d - 1) with (x / d) by (field; exact H).
    replace ((d + y) / d - 1) with (y / d) by (field; exact H).
    apply Rle_max_compat_l.
    assert (Hsq : (x / d) ^ 2 <= (y / d) ^ 2).
    { rewrite <- !Rsqr_pow2. apply Rsqr_le_abs_1.
      unfold Rdiv. rewrite !Rabs_mult.
      apply Rmult_le_compat_r; [apply Rabs_pos | exact Hxy]. }
    assert (Hexp : exp (- (y / d) ^ 2 / 0.8) <= exp (- (x / d) ^ 2 / 0.8)).
    { destruct Hsq as [Hlt | Heq].
      - left. apply exp_increasing. lra.
      - right. rewrite Heq. reflexivity. }
    lra.
Qed.

Lemma propulsive_efficiency_symmetric_witness :
  EDF.get_propulsive_efficiency edf_8kw (EDF.design_speed_mps edf_8kw + 10)
  = EDF.get_propulsive_efficiency edf_8kw (EDF.design_speed_mps edf_8kw - 10).
Proof.
  destruct (propulsive_efficiency_symmetric edf_8kw 10 10) as (_ & H & _).
  apply H. cbn. lra.
Defined.

(** ** estimate_modified_cruise_speed *)

(** X14.  The estimated cruise speed saturates outside 200 W .. 20 kW (the
    power is clipped), is positive, and for one power is never higher
    for a mission spec with a higher endurance percentage. *)
Theorem cruise_speed_saturates (power_w : R)
    (params params' : FixedWingParameters.t) :
  (power_w <= 200 ->
   estimate_modified_cruise_speed power_w params
   = estimate_modified_cruise_speed 200 params) /\
  (20000 <= power_w ->
   estimate_modified_cruise_speed power_w params
   = estimate_modified_cruise_speed 20000 params) /\
  (FixedWingParameters.wf params -> FixedWingParameters.wf params' ->
   LogScaledParameter.percent (FixedWingParameters.endurance params)
   <= LogScaledParameter.percent (FixedWingParameters.endurance params') ->
   0 < estimate_modified_cruise_speed power_w params'
     <= estimate_modified_cruise_speed power_w params).
Proof.
  split; [|split].
  - intro H. unfold estimate_modified_cruise_speed, np_clip.
    rewrite (Rmax_right power_w 200) by exact H.
    rewrite (Rmax_left 200 200) by lra. reflexivity.
  - intro H. unfold estimate_modified_cruise_speed, np_clip.
    rewrite (Rmin_right (Rmax power_w 200) 20000)
      by (apply Rle_trans with power_w; [exact H | apply Rmax_l]).
    rewrite (Rmin_right (Rmax 20000 200) 20000) by apply Rmax_l.
    reflexivity.
  - intros Hwf Hwf' Hle.
    split; [apply cruise_speed_pos; exact Hwf'|].
    unfold FixedWingParameters.wf in Hwf, Hwf'.
    unfold estimate_modified_cruise_speed.
    set (c := np_clip power_w 200 20000).
    set (e := LogScaledParameter.percent (FixedWingParameters.endurance params))
      in *.
    set (e' := LogScaledParameter.percent
                 (FixedWingParameters.endurance params')) in *.
    assert (Hc : 200 <= c <= 20000) by (apply np_clip_range; lra).
    assert (Hb : 0 < Rpower c 0.6246) by apply exp_pos.
    assert (Hl : 0 <= log10 (Rmax 1 (c / 1000)) <= 2).
    { apply log10_le_2. split; [apply Rmax_l|]. apply Rmax_lub; lra. }
    set (b := 0.19815 * Rpower c 0.6246).
    set (sp := 1 - 0.10 * log10 (Rmax 1 (c / 1000))).
    assert (Hbp : 0 < b) by (unfold b; lra).
    assert (Hsp : 0 < sp) by (unfold sp; lra).
    apply Rmult_le_compat_r; [lra|].
    apply Rmult_le_compat_l; lra.
Qed.

Lemma cruise_speed_saturates_witness :
  estimate_modified_cruise_speed 100 default_params
  = estimate_modified_cruise_speed 200 default_params /\
  estimate_modified_cruise_speed 30000 default_params
  = estimate_modified_cruise_speed 20000 default_params /\
  0 < estimate_modified_cruise_speed 100 long_endurance_params
    <= estimate_modified_cruise_speed 100 default_params.
Proof.
  assert (Hwf : FixedWingParameters.wf long_endurance_params)
    by (unfold FixedWingParameters.wf; cbn; lra).
  destruct (cruise_speed_saturates 100 default_params long_endurance_params)
    as (Hlow & _ & Hend).
  destruct (cruise_speed_saturates 30000 default_params default_params)
    as (_ & Hhigh & _).
  split; [apply Hlow; lra|].
  split; [apply Hhigh; lra|].
  apply Hend; [apply default_params_wf | exact Hwf | cbn; lra].
Defined.

(** ** Aircraft *)

Lemma rate_of_climb_nonneg (e : EDF.t) (w ld vy bg r : R) :
  Aircraft.calculate_rate_of_climb e w ld vy bg = Ok r -> 0 <= r.
Proof.
  intro H. unfold Aircraft.calculate_rate_of_climb in H.
  repeat bind_inv H. injection H as <-. apply Rmax_l.
Qed.

(** X15.  Every aircraft that the constructor returns has a stall speed
    that depends on the cruise speed alone
    ([stall^2 = cruise^2 * 0.4 / 1.5], so it is below the cruise speed in
    magnitude), rotation, climb and glide speeds of 1.10, 1.20 and 1.31
    times the stall speed, a thrust-to-weight ratio that gives back the
    static thrust, a wing area sized for a lift coefficient of 0.4 at
    cruise, and a rate of climb that is not negative. *)
Theorem constructed_aircraft_speeds (e : EDF.t) (b : Battery.t)
    (p : FixedWingParameters.t) (a : Aircraft.t) :
  Aircraft.__init__ e b p = Ok a ->
  0 <= Aircraft.stall_speed_ias_mps a /\
  Aircraft.stall_speed_ias_mps a ^ 2
  = Aircraft.cruise_ias_mps a ^ 2 * 0.4 / 1.5 /\
  Aircraft.vr_ias_mps a = Aircraft.stall_speed_ias_mps a * 1.10 /\
  Aircraft.vy_ias_mps a = Aircraft.stall_speed_ias_mps a * 1.20 /\
  Aircraft.best_glide_ias_mps a = Aircraft.stall_speed_ias_mps a * 1.31 /\
  Aircraft.thrust_to_weight_ratio a * Aircraft.weight_n a
  = EDF.static_thrust_n e /\
  Aircraft.wing_area_m2 a * (1.225 * Aircraft.cruise_ias_mps a ^ 2 * 0.4)
  = 2 * Aircraft.weight_n a /\
  0 <= Aircraft.rate_of_climb_fpm a.
Proof.
  intro H. unfold Aircraft.__init__ in H.
  bind_inv H. bind_inv H. bind_inv H. bind_inv H. bind_inv H. bind_inv H.
  repeat bind_inv H.
  injection H as <-.
  cbn [Aircraft.weight_n Aircraft.cruise_ias_mps Aircraft.stall_speed_ias_mps
       Aircraft.vr_ias_mps Aircraft.vy_ias_mps Aircraft.best_glide_ias_mps
       Aircraft.thrust_to_weight_ratio Aircraft.wing_area_m2
       Aircraft.rate_of_climb_fpm].
  destruct (fdiv_inv _ _ _ E0) as [HW Hx0].
  destruct (fdiv_inv _ _ _ E1) as [Hv Hx1].
  destruct (fdiv_inv _ _ _ E2) as [HS Hx2].
  destruct (math_sqrt_inv _ _ E3) as [Hq Hx3].
  pose proof (rate_of_climb_nonneg _ _ _ _ _ _ E4) as Hroc.
  set (W := (EDF.weight_kg e + Battery.weight_kg b
             + (0.4 + (EDF.weight_kg e + Battery.weight_kg b) * 0.8)
             + 0.20 * (EDF.power_w e / 100)) * 9.80665) in *.
  set (v := estimate_modified_cruise_speed (EDF.power_w e) p * 0.514444) in *.
  assert (Hv0 : v <> 0).
  { intro Hz. apply Hv. rewrite Hz. simpl. lra. }
  assert (Hq2 : x2 = v ^ 2 * 0.4 / 1.5).
  { rewrite Hx2, Hx1. field. repeat split; try lra; assumption. }
  split; [rewrite Hx3; apply sqrt_pos|].
  split; [rewrite Hx3, pow2_sqrt by exact Hq; exact Hq2|].
  split; [reflexivity|]. split; [reflexivity|]. split; [reflexivity|].
  split; [rewrite Hx0; field; exact HW|].
  split; [rewrite Hx1; field; repeat split; try lra; exact Hv0|].
  exact Hroc.
Qed.

Lemma constructed_aircraft_speeds_witness :
  exists a,
    Aircraft.__init__ edf_8kw battery_5kg_30c default_params = Ok a /\
    Aircraft.stall_speed_ias_mps a ^ 2
    = Aircraft.cruise_ias_mps a ^ 2 * 0.4 / 1.5 /\
    0 <= Aircraft.rate_of_climb_fpm a.
Proof.
  destruct sample_aircraft_built as [a H].
  exists a. split; [exact H|].
  destruct (constructed_aircraft_speeds edf_8kw battery_5kg_30c
              default_params a H)
    as (_ & Hs & _ & _ & _ & _ & _ & Hr).
  split; [exact Hs | exact Hr].
Defined.

(** X16.  [Aircraft.with_virtual_battery] raises [ValueError] when the
    C-rating is not positive or the EDF weight times the battery-to-motor
    ratio is not positive; an aircraft it returns carries the given EDF
    and a one-pack battery that weighs the EDF weight times the ratio and
    passes the power check. *)
Theorem virtual_battery_weight (e : EDF.t) (p : FixedWingParameters.t)
    (c ratio : R) :
  (c <= 0 \/ EDF.weight_kg e * ratio <= 0 ->
   Aircraft.with_virtual_battery e p c ratio = Raise ValueError) /\
  (forall a,
     Aircraft.with_virtual_battery e p c ratio = Ok a ->
     Aircraft.edf a = e /\
     Battery.weight_kg (Aircraft.battery a) = EDF.weight_kg e * ratio /\
     Battery.num_batteries (Aircraft.battery a) = 1%Z /\
     Battery.c_rating (Aircraft.battery a) = c /\
     EDF.power_w e * 1.2 <= Battery.max_power_w (Aircraft.battery a)).
Proof.
  unfold Aircraft.with_virtual_battery. split.
  - intro H.
    rewrite (from_c_and_weight_fails c (EDF.weight_kg e * ratio) 6 1 H).
    reflexivity.
  - intros a H. bind_inv H. rename x into vb.
    destruct (init_weights e vb p a H) as (He & Hb & _).
    pose proof (init_passed_check e vb p a H) as Hchk.
    rewrite He, Hb.
    unfold Battery.from_c_and_weight in E.
    destruct ((c <=? 0) || (EDF.weight_kg e * ratio <=? 0));
      [discriminate|].
    bind_inv E. injection E as <-.
    destruct (fdiv_inv _ _ _ E0) as [_ ->].
    unfold Battery.__init__ in *.
    cbn [Battery.weight_kg Battery.num_batteries Battery.c_rating
         Battery.max_power_w] in *.
    repeat split; try assumption. field.
Qed.

(** ** design_from_mission: failures and what a returned design holds *)

Lemma getitem_missing (d : rules_t) (key : string) :
  ~ In key (map fst d) -> getitem d key = Raise KeyError.
Proof.
  induction d as [|[k v] d IH]; intro H; [reflexivity|].
  cbn [getitem]. destruct (String.eqb_spec k key) as [Heq | Hne].
  - exfalso. apply H. left. exact Heq.
  - apply IH. intro Hin. apply H. right. exact Hin.
Qed.

(** X17.  When the [rules] dictionary has no [cruise_power_target] entry,
    [design_from_mission] raises [KeyError], whatever the other
    arguments. *)
Theorem design_without_target_raises (params : FixedWingParameters.t)
    (rules : rules_t) (guess : R) (b : Battery.t) :
  ~ In "cruise_power_target"%string (map fst rules) ->
  Aircraft.design_from_mission params rules guess b = Raise KeyError.
Proof.
  intro H.
  unfold Aircraft.design_from_mission, Aircraft.design_from_mission_run,
    Aircraft.design_setup.
  rewrite (getitem_missing rules _ H). reflexivity.
Qed.

Lemma design_without_target_raises_witness :
  Aircraft.design_from_mission default_params
    [("c_rating"%string, 50); ("batt_motor_ratio"%string, 2.5)] 15
    battery_5kg_30c
  = Raise KeyError.
Proof.
  apply (design_without_target_raises default_params
           [("c_rating"%string, 50); ("batt_motor_ratio"%string, 2.5)] 15
           battery_5kg_30c).
  cbn. intros [H | [H | H]]; try discriminate. exact H.
Defined.




(** X19.  A battery that cannot supply 1.2 times the motor power of the
    first pass makes [design_from_mission] raise [ValueError]. *)
Theorem undersized_battery_design_fails (params : FixedWingParameters.t)
    (rules : rules_t) (guess : R) (b : Battery.t) (cruise eff P : R) :
  Aircraft.design_setup params rules guess = Ok (cruise, eff) ->
  Aircraft.required_motor_power params rules cruise eff guess = Ok P ->
  0 < P ->
  Battery.max_power_w b < P * 1.2 ->
  Aircraft.design_from_mission params rules guess b = Raise ValueError.
Proof.
  intros Hset HP HPpos Hlow.
  destruct (from_power_ok P HPpos) as (e & He & Hpw & _).
  unfold Aircraft.design_from_mission, Aircraft.design_from_mission_run.
  rewrite Hset. cbn [bind fst snd].
  cbn [Aircraft.design_loop]. unfold Aircraft.design_step.
  rewrite HP. cbn [bind]. rewrite He. cbn [bind].
  unfold Aircraft.__init__, Battery.check_power_output.
  rewrite Hpw. rewrite Rltb_true by exact Hlow. reflexivity.
Qed.



Lemma undersized_battery_design_fails_witness :
  Aircraft.design_from_mission default_params rules_70 15 battery_empty
  = Raise ValueError.
Proof.
  destruct (design_setup_ok default_params rules_70 15 70 default_params_wf
              eq_refl ltac:(lra)) as (cruise & eff & Hset & Hc & He).
  destruct (required_motor_power_ok default_params rules_70 cruise eff 15 70
              default_params_wf eq_refl)
    as (P & HP & HPpos); try lra.
  apply (undersized_battery_design_fails default_params rules_70 15
           battery_empty cruise eff P Hset HP HPpos).
  unfold battery_empty, Battery.__init__. cbn [Battery.max_power_w]. lra.
Defined.

(** ** The mission simulation: shape of the returned path *)

(** X20.  For every aircraft that the constructor returns,
    [calculate_takeoff_distance] returns without raising: two infinities
    when the net force is zero or negative, and for a positive net force
    [f] a finite ground roll with [distance = vr * time / 2] and
    [time * f = vr * mtow]. *)
Theorem takeoff_roll_kinematics (e : EDF.t) (b : Battery.t)
    (p : FixedWingParameters.t) (a : Aircraft.t) (mu : R) :
  FixedWingParameters.wf p ->
  Aircraft.__init__ e b p = Ok a ->
  exists f,
    net_force a mu = Ok f /\
    (f <= 0 -> calculate_takeoff_distance a mu = Ok (Inf, Inf)) /\
    (0 < f ->
     exists dist time,
       calculate_takeoff_distance a mu = Ok (Fin dist, Fin time) /\
       dist = Aircraft.vr_ias_mps a * time / 2 /\
       time * f = Aircraft.vr_ias_mps a * Aircraft.mtow_kg a).
Proof.
  intros Hwf H.
  pose proof (built_ld_ratio e b p a Hwf H) as Hld.
  destruct (init_weights e b p a H) as (_ & _ & _ & _ & _ & _ & HW & _).
  assert (Hm : Aircraft.mtow_kg a <> 0).
  { unfold Aircraft.__init__ in H. bind_inv H. bind_inv H.
    destruct (fdiv_inv _ _ _ E0) as [Hw _].
    repeat bind_inv H. injection H as <-.
    cbn [Aircraft.mtow_kg]. lra. }
  eexists. split; [apply net_force_value; lra|].
  set (f := EDF.static_thrust_n (Aircraft.edf a)
            - 0.5 * RHO_SL_KGM3 * (Aircraft.vr_ias_mps a * 0.7) ^ 2
              * (Aircraft.wing_area_m2 a / Aircraft.ld_ratio a)
            - mu * Aircraft.weight_n a).
  assert (Hf : net_force a mu = Ok f) by (apply net_force_value; lra).
  unfold calculate_takeoff_distance. rewrite Hf. cbn [bind].
  split.
  - intro Hle. rewrite Rleb_true by exact Hle. reflexivity.
  - intro Hpos. rewrite Rleb_false by lra.
    assert (Hacc : f / Aircraft.mtow_kg a <> 0).
    { unfold Rdiv. apply Rmult_integral_contrapositive_currified; [lra|].
      apply Rinv_neq_0_compat. exact Hm. }
    rewrite (fdiv_ok f) by exact Hm. cbn [bind].
    rewrite !fdiv_ok by (try exact Hacc; lra). cbn [bind].
    do 2 eexists. split; [reflexivity|].
    split; field; repeat split; try assumption; lra.
Qed.

Lemma takeoff_roll_kinematics_witness :
  exists a f dist time,
    Aircraft.__init__ edf_8kw battery_5kg_30c default_params = Ok a /\
    net_force a 0.04 = Ok f /\ 0 < f /\
    calculate_takeoff_distance a 0.04 = Ok (Fin dist, Fin time) /\
    dist = Aircraft.vr_ias_mps a * time / 2 /\
    time * f = Aircraft.vr_ias_mps a * Aircraft.mtow_kg a.
Proof.
  destruct sample_takeoff as (a & f & H & Hf & Hfp).
  destruct (takeoff_roll_kinematics edf_8kw battery_5kg_30c default_params
              a 0.04 default_params_wf H) as (f' & Hf' & _ & Hfin).
  rewrite Hf in Hf'. injection Hf' as <-.
  destruct (Hfin Hfp) as (dist & time & Hc & Hd & Ht).
  exists a, f, dist, time.
  split; [exact H|]. split; [exact Hf|]. split; [exact Hfp|].
  split; [exact Hc|]. split; [exact Hd | exact Ht].
Defined.

Lemma fold_left_Rmax_spec (l : list R) (a : R) :
  In (fold_left Rmax l a) (a :: l) /\
  forall x, In x (a :: l) -> x <= fold_left Rmax l a.
Proof.
  revert a. induction l as [|y l IH]; intro a; cbn [fold_left].
  - split; [left; reflexivity|]. intros x [-> | []]. lra.
  - destruct (IH (Rmax a y)) as [Hin Hub]. split.
    + destruct Hin as [Heq | Hin]; [|right; right; exact Hin].
      rewrite <- Heq. unfold Rmax. destruct (Rle_dec a y);
        [right; left; reflexivity | left; reflexivity].
    + intros x [-> | [-> | Hx]].
      * apply Rle_trans with (Rmax x y); [apply Rmax_l|].
        apply Hub. left. reflexivity.
      * apply Rle_trans with (Rmax a x); [apply Rmax_r|].
        apply Hub. left. reflexivity.
      * apply Hub. right. exact Hx.
Qed.

(** [list_max] stands for Python's [max]: a [ValueError] on the empty
    list; otherwise an element of the list that no element exceeds. *)
Lemma list_max_spec (l : list R) :
  (l = [] -> list_max l = Raise ValueError) /\
  (l <> [] ->
   exists m, list_max l = Ok m /\ In m l /\ forall x, In x l -> x <= m).
Proof.
  split.
  - intros ->. reflexivity.
  - intro H. destruct l as [|a l]; [contradiction|].
    exists (fold_left Rmax l a). split; [reflexivity|].
    apply fold_left_Rmax_spec.
Qed.

(** X23.  The cruise phase either records no sample or, the usable
    energy [(battery - 10)% * E] being positive, records exactly one, at
    the altitude reached and the cruise speed, that leaves the battery
    at exactly 10%. *)
Theorem cruise_ends_at_ten_percent (a : Aircraft.t) (W E : R)
    (p p' : FlightPath.t) :
  cruise_phase a W E p = Ok p' ->
  same_samples p p' \/
  (FlightPath.battery_pct p' = FlightPath.battery_pct p ++ [10] /\
   FlightPath.alt_ft p'
   = FlightPath.alt_ft p ++ [last (FlightPath.alt_ft p) 0] /\
   FlightPath.ias_kts p'
   = FlightPath.ias_kts p ++ [Aircraft.cruise_ias_kts a] /\
   0 < (last (FlightPath.battery_pct p) 0 - 10) * E /\
   List.length (FlightPath.time_s p')
   = S (List.length (FlightPath.time_s p))).
Proof.
  intro H. unfold cruise_phase in H.
  destruct (last_item (FlightPath.battery_pct p)) as [bl|] eqn:Ebl;
    cbn [bind] in H; [|discriminate].
  destruct (last_item_inv _ _ Ebl) as [_ Hbl].
  unfold Rltb in H at 1.
  destruct (Rlt_dec 0 ((bl - 10.0) / 100.0 * E)) as [Hu | Hu];
    [|injection H as <-; left; repeat split; reflexivity].
  do 8 bind_inv H.
  destruct (0 <? _) in H;
    [|injection H as <-; left; repeat split; reflexivity].
  bind_inv H.
  cbn [FlightPath.set_cruise_power_pct FlightPath.battery_pct] in H.
  rewrite Ebl in H. cbn [bind] in H.
  destruct (record_step_inv _ _ _ _ _ _ _ H) as (Ht & _ & Ha & Hi & Hb).
  cbn [FlightPath.set_cruise_power_pct FlightPath.battery_pct
       FlightPath.alt_ft FlightPath.ias_kts FlightPath.time_s] in *.
  right. split; [|split; [|split; [|split]]].
  - rewrite Hb. f_equal. f_equal. rewrite <- Hbl. lra.
  - rewrite Ha. f_equal. f_equal. lra.
  - exact Hi.
  - rewrite <- Hbl. lra.
  - rewrite Ht, length_app. cbn. lia.
Qed.

Lemma cruise_ends_at_ten_percent_witness :
  exists a p',
    cruise_phase a (Aircraft.mtow_kg a * G)
      (Battery.total_energy_j (Aircraft.battery a)) FlightPath.__init__
    = Ok p' /\
    (same_samples FlightPath.__init__ p' \/
     FlightPath.battery_pct p' = [100; 10]).
Proof.
  destruct sample_takeoff as (a & f & H & _).
  pose proof (sample_flyable a H) as Hfly.
  destruct (cruise_phase_ok a FlightPath.__init__ Hfly initial_path_monotone)
    as (p' & Hp' & _); [cbn; lra|].
  exists a, p'. split; [exact Hp'|].
  destruct (cruise_ends_at_ten_percent a _ _ _ _ Hp')
    as [Hs | (Hb & _)]; [left; exact Hs | right; exact Hb].
Defined.

(** X22.  Every path that [run_mission_simulation] returns after a
    successful takeoff (a positive net force) has five sequences of one
    length and at least three samples; it ends at altitude 0, its total
    distance and time are the last distance over 1000 and the last time
    over 60, and its maximum altitude is the largest altitude sample. *)
Theorem mission_path_shape (fuel : nat) (a : Aircraft.t) (f : R)
    (path : FlightPath.t) :
  net_force a 0.04 = Ok f ->
  0 < f ->
  run_mission_simulation fuel a = Ok (Some path) ->
  aligned path /\
  (3 <= List.length (FlightPath.time_s path))%nat /\
  last (FlightPath.alt_ft path) 0 = 0 /\
  FlightPath.total_distance_km path
  = last (FlightPath.dist_m path) 0 / 1000 /\
  FlightPath.total_time_min path = last (FlightPath.time_s path) 0 / 60 /\
  list_max (FlightPath.alt_ft path) = Ok (FlightPath.max_altitude_ft path).
Proof.
  intros Hf Hfp H. unfold run_mission_simulation in H.
  unfold calculate_takeoff_distance in H. rewrite Hf in H. cbn [bind] in H.
  rewrite Rleb_false in H by lra.
  destruct (fdiv f (Aircraft.mtow_kg a)) as [acc|];
    cbn [bind] in H; [|discriminate].
  destruct (fdiv (Aircraft.vr_ias_mps a ^ 2) (2 * acc)) as [dist|];
    cbn [bind] in H; [|discriminate].
  destruct (fdiv (Aircraft.vr_ias_mps a) acc) as [time|];
    cbn [bind] in H; [|discriminate].
  bind_inv H.
  destruct (FlightPath.record_step FlightPath.__init__ _ _ _ _ _)
    as [p1|] eqn:Hrec; cbn [bind] in H; [|discriminate].
  destruct (climb_loop fuel a _ _ p1) as [[p2|]|] eqn:Hclimb;
    cbn [bind] in H; try discriminate.
  destruct (cruise_phase a _ _ p2) as [p3|] eqn:Hcruise;
    cbn [bind] in H; [|discriminate].
  destruct (descent_phase a p3) as [p4|] eqn:Hdesc;
    cbn [bind] in H; [|discriminate].
  injection H as <-.
  destruct (record_step_one_more _ _ _ _ _ _ _ initial_path_aligned Hrec)
    as [Hal1 Hlen1].
  destruct (climb_loop_inv _ _ _ _ _ _ Hclimb Hal1) as [Hal2 Hlen2].
  destruct (cruise_ends_at_ten_percent_aux _ _ _ _ _ Hcruise Hal2)
    as [Hal3 Hlen3].
  destruct (descent_phase_inv _ _ _ Hdesc Hal3)
    as ([Hal4 Hlen4] & Halt & _ & Hd & Ht & Hm).
  split; [exact Hal4|].
  cbn [FlightPath.__init__ FlightPath.time_s List.length] in Hlen1.
  split; [lia|]. split; [exact Halt|]. split; [exact Hd|].
  split; [exact Ht | exact Hm].
Qed.

Lemma mission_path_shape_witness :
  exists a f path,
    Aircraft.__init__ edf_8kw battery_5kg_30c default_params = Ok a /\
    net_force a 0.04 = Ok f /\ 0 < f /\
    run_mission_simulation 180 a = Ok (Some path) /\
    aligned path /\
    (3 <= List.length (FlightPath.time_s path))%nat /\
    last (FlightPath.alt_ft path) 0 = 0 /\
    FlightPath.total_distance_km path
    = last (FlightPath.dist_m path) 0 / 1000 /\
    FlightPath.total_time_min path = last (FlightPath.time_s path) 0 / 60 /\
    list_max (FlightPath.alt_ft path) = Ok (FlightPath.max_altitude_ft path).
Proof.
  destruct sample_takeoff as (a & f & H & Hf & Hfp).
  destruct (flyable_mission_run a f 180 (sample_flyable a H) Hf Hfp
              (le_n 180)) as (path & Hrun & _).
  exists a, f, path.
  split; [exact H|]. split; [exact Hf|]. split; [exact Hfp|].
  split; [exact Hrun|].
  exact (mission_path_shape 180 a f path Hf Hfp Hrun).
Defined.

(** ** The catalog search: rounding, row selection, rejected candidates *)

Lemma Int_part_bounds (x : R) : IZR (Int_part x) <= x < IZR (Int_part x) + 1.
Proof.
  unfold Int_part. destruct (archimed x) as [H1 H2].
  rewrite minus_IZR. lra.
Qed.

(** [py_round] stands for Python's [round]: an integer within 1/2 of
    its argument, and on a tie (an argument halfway between two integers)
    the even one. *)
Lemma py_round_nearest_even (x : R) (z : Z) :
  Rabs (IZR (py_round x) - x) <= 1 / 2 /\
  (x = IZR z + 1 / 2 ->
   py_round x = (if Z.even z then z else (z + 1)%Z) /\
   Z.even (py_round x) = true).
Proof.
  split.
  - unfold py_round. pose proof (Int_part_bounds x) as [Hlo Hhi].
    set (f := Int_part x) in *.
    unfold Rltb.
    destruct (Rlt_dec (x - IZR f) (1 / 2)) as [H1 | H1].
    + apply Rabs_le. lra.
    + destruct (Rlt_dec (1 / 2) (x - IZR f)) as [H2 | H2].
      * rewrite plus_IZR. apply Rabs_le. lra.
      * destruct (Z.even f); [|rewrite plus_IZR]; apply Rabs_le; lra.
  - intros ->.
    assert (Hf : Int_part (IZR z + 1 / 2) = z)
      by (symmetry; apply Int_part_spec; lra).
    unfold py_round. rewrite Hf.
    rewrite Rltb_false by lra. rewrite Rltb_false by lra.
    split; [reflexivity|].
    destruct (Z.even z) eqn:He; [exact He|].
    rewrite Z.even_add, He. reflexivity.
Qed.

(** [iloc] stands for pandas' [DataFrame.iloc]: it selects the row at a
    position from 0 to n-1, counts a position from -n to -1 from the end
    (so it selects the same row as that position plus n), and raises
    [IndexError] for every other position. *)
Lemma iloc_positions (df : DataFrame) (i : Z) :
  let n := Z.of_nat (List.length df) in
  ((0 <= i < n)%Z ->
   exists r, iloc df i = Ok r /\ nth_error df (Z.to_nat i) = Some r) /\
  ((- n <= i < 0)%Z -> iloc df i = iloc df (i + n)) /\
  (iloc df i = Raise IndexError <-> out_of_frame df i).
Proof.
  intro n.
  assert (Hin : forall j, (0 <= j < n)%Z ->
            exists r, iloc df j = Ok r /\ nth_error df (Z.to_nat j) = Some r).
  { intros j Hj. unfold iloc. cbv zeta. fold n.
    destruct (Z.ltb_spec j 0) as [|_]; [lia|].
    destruct (Z.ltb_spec j 0) as [|_]; [lia|].
    destruct (Z.leb_spec n j) as [|_]; [lia|].
    cbn [orb].
    destruct (nth_error df (Z.to_nat j)) as [r|] eqn:Hr.
    - exists r. split; reflexivity.
    - exfalso. apply nth_error_None in Hr. unfold n in Hj. lia. }
  assert (Hwrap : (- n <= i < 0)%Z -> iloc df i = iloc df (i + n)).
  { intro Hi. unfold iloc. cbv zeta. fold n.
    destruct (Z.ltb_spec i 0) as [_|]; [|lia].
    destruct (Z.ltb_spec (i + n) 0) as [|_]; [lia|].
    replace (n + i)%Z with (i + n)%Z by lia. reflexivity. }
  split; [apply Hin|]. split; [exact Hwrap|].
  split; [|apply iloc_out_of_frame].
  intro H. unfold out_of_frame. fold n.
  destruct (Z_lt_le_dec i (- n)) as [H1 | H1]; [left; exact H1|].
  destruct (Z_lt_le_dec i n) as [H2 | H2]; [|right; exact H2].
  exfalso. destruct (Z_lt_le_dec i 0) as [H3 | H3].
  - rewrite Hwrap in H by lia.
    destruct (Hin (i + n)%Z ltac:(lia)) as (r & Hr & _).
    rewrite Hr in H. discriminate.
  - destruct (Hin i ltac:(lia)) as (r & Hr & _).
    rewrite Hr in H. discriminate.
Qed.

(** X26.  [edf_fitness_function] returns the cost [+inf] with no details,
    and the catalogs as they were, when the parameter vector has fewer
    than two entries, when the second entry does not round to 0, 1 or 2
    (the keys of the engine-count map), or when the target take-off
    weight is missing ([None]) or malformed. *)
Theorem edf_candidate_rejected (cat : catalogs) (params : list R)
    (tv : UAVVariant) :
  ((List.length params < 2)%nat ->
   edf_fitness_function cat params tv = ((Inf, None), cat)) /\
  (forall p0 p1 rest,
     params = p0 :: p1 :: rest ->
     ~ (0 <= py_round p1 <= 2)%Z ->
     edf_fitness_function cat params tv = ((Inf, None), cat)) /\
  ((forall w, Takeoff_Weight_kg tv <> Ok (Some w)) ->
   edf_fitness_function cat params tv = ((Inf, None), cat)).
Proof.
  unfold edf_fitness_function.
  split; [|split].
  - intro H. destruct params as [|p0 [|p1 rest]]; cbn in H; try lia;
      reflexivity.
  - intros p0 p1 rest -> Hk. unfold edf_fitness_body.
    cbn [param_item nth_error bind].
    assert (Hc : count_map (py_round p1) = Raise KeyError).
    { unfold count_map.
      destruct (Z.eqb_spec (py_round p1) 0); [lia|].
      destruct (Z.eqb_spec (py_round p1) 1); [lia|].
      destruct (Z.eqb_spec (py_round p1) 2); [lia|]. reflexivity. }
    rewrite Hc. reflexivity.
  - intro Hw. f_equal. unfold edf_fitness_body.
    destruct (param_item params 0); cbn [bind]; [|reflexivity].
    destruct (param_item params 1); cbn [bind]; [|reflexivity].
    destruct (count_map _); cbn [bind]; [|reflexivity].
    destruct (iloc _ _); cbn [bind]; [|reflexivity].
    destruct (Payload_Capacity_kg tv); cbn [bind]; [|reflexivity].
    destruct (Range_km tv); cbn [bind]; [|reflexivity].
    destruct (Takeoff_Weight_kg tv) as [[w|]|] eqn:Ht; cbn [bind];
      [exfalso; apply (Hw w); reflexivity | reflexivity | reflexivity].
Qed.

Lemma edf_candidate_rejected_witness :
  edf_fitness_function sample_catalogs [IZR 0] sample_variant
  = ((Inf, None), sample_catalogs) /\
  edf_fitness_function sample_catalogs [IZR 0; IZR 3] sample_variant
  = ((Inf, None), sample_catalogs).
Proof.
  split.
  - destruct (edf_candidate_rejected sample_catalogs [IZR 0] sample_variant)
      as (H & _). apply H. cbn. lia.
  - destruct (edf_candidate_rejected sample_catalogs [IZR 0; IZR 3]
                sample_variant) as (_ & H & _).
    apply (H (IZR 0) (IZR 3) []); [reflexivity|].
    rewrite py_round_IZR. lia.
Defined.



(** X28.  [battery_fitness_function] returns [+inf] with no details
    whenever the selected battery row has a zero (or absent, defaulting
    to zero) nominal voltage; and whenever it returns a finite cost, that
    cost is not negative and is the one recorded in the details it
    returns with it. *)
Theorem battery_candidate_cost (cat : catalogs) (p0 p1 : R) (rest : list R)
    (best : edf_score_details) (tv : UAVVariant) (geom : rules_t) :
  (forall r,
     iloc (battery_summary cat) (py_round p0) = Ok r ->
     row_get r "nominalV" 0 = 0 ->
     battery_fitness_function cat (p0 :: p1 :: rest) best tv geom
     = ((Inf, None), cat)) /\
  (forall f od,
     fst (battery_fitness_function cat (p0 :: p1 :: rest) best tv geom)
     = (Fin f, od) ->
     0 <= f /\ exists d, od = Some d /\ battery_fitness d = f).
Proof.
  unfold battery_fitness_function, battery_fitness_body.
  cbn [fst param_item nth_error bind].
  split.
  - intros r Hr Hv. f_equal.
    destruct (count_map (py_round p1)); cbn [bind try_except]; [|reflexivity].
    rewrite Hr. cbn [bind].
    destruct (iloc (edf_summary cat) _); cbn [bind try_except]; [|reflexivity].
    do 3 (match goal with
          | |- context [bind (getitem ?g ?k) _] =>
              destruct (getitem g k); cbn [bind try_except]; [|reflexivity]
          end).
    destruct (calculate_flight_power_units _ _ _ _ _); cbn [bind try_except];
      [|reflexivity].
    rewrite Hv. rewrite (Reqb_true 0 0) by reflexivity. reflexivity.
  - intros f od.
    destruct (count_map (py_round p1)); cbn [bind try_except];
      [|discriminate].
    destruct (iloc (battery_summary cat) _) as [rb|]; cbn [bind try_except];
      [|discriminate].
    destruct (iloc (edf_summary cat) _) as [re|]; cbn [bind try_except];
      [|discriminate].
    do 3 (match goal with
          | |- context [bind (getitem ?g ?k) _] =>
              destruct (getitem g k); cbn [bind try_except]; [|discriminate]
          end).
    destruct (calculate_flight_power_units _ _ _ _ _) as [pw|];
      cbn [bind try_except]; [|discriminate].
    destruct ((row_get rb "nominalV" 0 =? 0) || (pw =? 0));
      cbn [try_except]; [discriminate|].
    match goal with
    | |- context [bind ?m _] =>
        destruct m as [eh|]; cbn [bind try_except]; [|discriminate]
    end.
    destruct (Range_km tv) as [trk|]; cbn [bind try_except]; [|discriminate].
    destruct (Takeoff_Weight_kg tv) as [otw|];
      cbn [bind try_except]; [|discriminate].
    match goal with
    | |- context [bind ?m _] =>
        destruct m as [rs|] eqn:Hrs; cbn [bind try_except]; [|discriminate]
    end.
    destruct otw as [tw|]; cbn [as_number bind try_except]; [|discriminate].
    match goal with
    | |- context [bind ?m _] =>
        destruct m as [ws|] eqn:Hws; cbn [bind try_except]; [|discriminate]
    end.
    intro H. injection H as <- <-.
    split; [|eexists; split; reflexivity].
    assert (H1 : 0 <= rs).
    { destruct (0 <? trk); [|injection Hrs as <-; lra].
      bind_inv Hrs. injection Hrs as <-. apply Rmax_l. }
    assert (H2 : 0 <= ws).
    { destruct (0 <? tw); [|injection Hws as <-; lra].
      bind_inv Hws. injection Hws as <-. apply Rmax_l. }
    pose proof (Rmax_l 0 ((10 / 60 - eh) / (10 / 60) * 10)). lra.
Qed.

(** ** Propeller performance and score (optimizer_utils.py) *)

Lemma calculate_performance_ok (rpm d p : R) (n : Z) (v : R) :
  0 < rpm -> 0 < d -> 0 < p ->
  calculate_performance rpm d p n v
  = Ok (let J := v / (rpm / 60.0 * (d * 0.0254)) in
        let ct := Rmax 0 (0.12 - 0.12 / 0.8 * J) in
        mk_performance
          (ct * 1.225 * ((rpm / 60.0) ^ 2) * ((d * 0.0254) ^ 4)
           * (1 + (IZR n - 2) * 0.2))
          J ct (PI * (d * 0.0254) * (rpm / 60.0))
          (PI * (d * 0.0254) * (rpm / 60.0) / 343.0)
          (p * 0.0254 * (rpm / 60.0))).
Proof.
  intros Hr Hd Hp. unfold calculate_performance.
  rewrite (Rleb_false rpm 0), (Rleb_false d 0), (Rleb_false p 0) by lra.
  cbn [orb].
  rewrite (Rltb_true 0 (rpm / 60.0)) by lra.
  rewrite fdiv_ok by nra.
  reflexivity.
Qed.

Lemma calculate_performance_raises (rpm d p : R) (n : Z) (v : R) :
  rpm <= 0 \/ d <= 0 \/ p <= 0 ->
  calculate_performance rpm d p n v = Raise ValueError.
Proof.
  intro H. unfold calculate_performance.
  unfold Rleb.
  destruct (Rle_dec rpm 0), (Rle_dec d 0), (Rle_dec p 0); cbn [orb];
    try reflexivity.
  lra.
Qed.

(** X29.  For a positive RPM, diameter and pitch and a speed that is not
    negative, [calculate_performance] returns: the advance ratio is the
    speed over revolutions per second times diameter, the thrust
    coefficient lies in [[0, 0.12]], is 0.12 at rest and 0 from an
    advance ratio of 0.8 on, where the thrust vanishes; with at least one
    blade the thrust is not negative; tip speed and pitch speed are
    positive. *)
Theorem propeller_performance_bounds (rpm d p : R) (n : Z) (v : R) :
  0 < rpm -> 0 < d -> 0 < p -> 0 <= v ->
  exists perf,
    calculate_performance rpm d p n v = Ok perf /\
    advance_ratio_J perf * (rpm / 60 * (d * 0.0254)) = v /\
    0 <= thrust_coefficient_Ct perf <= 0.12 /\
    (v = 0 -> thrust_coefficient_Ct perf = 0.12) /\
    (0.8 <= advance_ratio_J perf ->
     thrust_coefficient_Ct perf = 0 /\ calculated_thrust_N perf = 0) /\
    ((1 <= n)%Z -> 0 <= calculated_thrust_N perf) /\
    0 < tip_speed_mps perf /\
    tip_speed_mach perf * 343 = tip_speed_mps perf /\
    0 < air_speed_mps perf.
Proof.
  intros Hr Hd Hp Hv.
  eexists. split; [apply calculate_performance_ok; assumption|].
  cbv zeta.
  cbn [advance_ratio_J thrust_coefficient_Ct calculated_thrust_N
       tip_speed_mps tip_speed_mach air_speed_mps].
  assert (Hden : 0 < rpm / 60.0 * (d * 0.0254)) by nra.
  set (den := rpm / 60.0 * (d * 0.0254)) in *.
  assert (HJ : 0 <= v / den).
  { apply Rmult_le_pos; [lra|]. left. apply Rinv_0_lt_compat. exact Hden. }
  set (J := v / den) in *.
  assert (Hct0 : 0 <= Rmax 0 (0.12 - 0.12 / 0.8 * J)) by apply Rmax_l.
  assert (Hct1 : Rmax 0 (0.12 - 0.12 / 0.8 * J) <= 0.12).
  { apply Rmax_lub; lra. }
  split.
  { subst J den. field_simplify_eq; [lra|]. nra. }
  split; [lra|].
  split.
  { intro H0. assert (EJ : J = 0) by (subst J; rewrite H0; unfold Rdiv; ring).
    rewrite EJ. rewrite Rmax_right; lra. }
  split.
  { intro H8. assert (E : Rmax 0 (0.12 - 0.12 / 0.8 * J) = 0).
    { rewrite Rmax_left; lra. }
    split; [exact E|]. rewrite E. ring. }
  split.
  { intro Hn. apply IZR_le in Hn.
    apply Rmult_le_pos; [|lra].
    apply Rmult_le_pos; [|apply pow_le; lra].
    apply Rmult_le_pos; [|apply pow_le; lra].
    apply Rmult_le_pos; lra. }
  pose proof PI_RGT_0 as Hpi.
  split.
  { apply Rmult_lt_0_compat; [apply Rmult_lt_0_compat|]; lra. }
  split; [lra|].
  apply Rmult_lt_0_compat; lra.
Qed.

Lemma propeller_performance_bounds_witness :
  exists perf,
    calculate_performance 6000 10 5 2 0 = Ok perf /\
    advance_ratio_J perf * (6000 / 60 * (10 * 0.0254)) = 0 /\
    0 <= thrust_coefficient_Ct perf <= 0.12 /\
    (0 = 0 -> thrust_coefficient_Ct perf = 0.12) /\
    (0.8 <= advance_ratio_J perf ->
     thrust_coefficient_Ct perf = 0 /\ calculated_thrust_N perf = 0) /\
    ((1 <= 2)%Z -> 0 <= calculated_thrust_N perf) /\
    0 < tip_speed_mps perf /\
    tip_speed_mach perf * 343 = tip_speed_mps perf /\
    0 < air_speed_mps perf.
Proof.
  apply (propeller_performance_bounds 6000 10 5 2 0); lra.
Defined.

(** X30.  [score_propeller] raises [ValueError] exactly when the RPM, the
    diameter or the pitch is not positive, as [calculate_performance]
    does; otherwise it returns the performance figures of
    [calculate_performance] at the cruise speed with three penalties that
    are never negative: none for thrust when the target is met, none for
    slip when the cruise speed is not positive or the pitch speed does not
    exceed it, none for tip speed below Mach 0.9; the overall score is their
    weighted sum plus a thousandth of the price, so never below it. *)
Theorem score_propeller_penalties (rpm d p : R) (n : Z)
    (v target price : R) :
  (score_propeller rpm d p n v target price = Raise ValueError <->
   rpm <= 0 \/ d <= 0 \/ p <= 0) /\
  (0 < rpm -> 0 < d -> 0 < p ->
   exists perf s,
     calculate_performance rpm d p n v = Ok perf /\
     score_propeller rpm d p n v target price = Ok s /\
     score_performance s = perf /\
     0 <= thrust_penalty s /\
     0 <= efficiency_penalty s /\
     0 <= tip_speed_penalty s /\
     (target <= calculated_thrust_N perf -> thrust_penalty s = 0) /\
     (v <= 0 \/ air_speed_mps perf <= v -> efficiency_penalty s = 0) /\
     (tip_speed_mach perf < 0.9 -> tip_speed_penalty s = 0) /\
     price_score_component s = price * 0.001 /\
     overall_score s
     = thrust_penalty s + efficiency_penalty s * 0.5
       + tip_speed_penalty s * 2 + price * 0.001 /\
     price * 0.001 <= overall_score s).
Proof.
  assert (Hpos : 0 < rpm -> 0 < d -> 0 < p ->
   exists perf s,
     calculate_performance rpm d p n v = Ok perf /\
     score_propeller rpm d p n v target price = Ok s /\
     score_performance s = perf /\
     0 <= thrust_penalty s /\
     0 <= efficiency_penalty s /\
     0 <= tip_speed_penalty s /\
     (target <= calculated_thrust_N perf -> thrust_penalty s = 0) /\
     (v <= 0 \/ air_speed_mps perf <= v -> efficiency_penalty s = 0) /\
     (tip_speed_mach perf < 0.9 -> tip_speed_penalty s = 0) /\
     price_score_component s = price * 0.001 /\
     overall_score s
     = thrust_penalty s + efficiency_penalty s * 0.5
       + tip_speed_penalty s * 2 + price * 0.001 /\
     price * 0.001 <= overall_score s).
  { intros Hr Hd Hp.
    unfold score_propeller.
    rewrite (calculate_performance_ok rpm d p n v Hr Hd Hp).
    cbn [bind].
    match goal with
    | |- context [Ok ?q = Ok _] => set (perf := q)
    end.
    exists perf.
    set (c := calculated_thrust_N perf).
    set (m := tip_speed_mach perf).
    set (a := air_speed_mps perf).
    assert (Htp : exists tp,
      (if c <? target
       then (if 0 <? target
             then q <- fdiv (5 * (target - c)) target ;; Ok q
             else Ok 1.0)
       else Ok 0.0) = Ok tp /\ 0 <= tp /\ (target <= c -> tp = 0)).
    { unfold Rltb. destruct (Rlt_dec c target) as [Hc|Hc].
      - destruct (Rlt_dec 0 target) as [Ht|Ht].
        + rewrite fdiv_ok by lra. cbn [bind]. eexists. split; [reflexivity|].
          split; [|lra].
          apply Rmult_le_pos; [lra|]. left. apply Rinv_0_lt_compat. exact Ht.
        + eexists. split; [reflexivity|]. split; lra.
      - eexists. split; [reflexivity|]. split; [lra|]. intros _. lra. }
    destruct Htp as (tp & -> & Htp0 & Htp1). cbn [bind].
    assert (Hep : exists ep,
      (if (v <? a) && (0 <? v)
       then slip_ratio <- fdiv (a - v) v ;; Ok (slip_ratio * 0.25)
       else Ok 0.0) = Ok ep /\ 0 <= ep /\ (v <= 0 \/ a <= v -> ep = 0)).
    { unfold Rltb. destruct (Rlt_dec v a) as [Ha|Ha];
        destruct (Rlt_dec 0 v) as [H0|H0]; cbn [andb].
      - rewrite fdiv_ok by lra. cbn [bind]. eexists. split; [reflexivity|].
        split; [|lra].
        apply Rmult_le_pos; [|lra].
        apply Rmult_le_pos; [lra|]. left. apply Rinv_0_lt_compat. exact H0.
      - eexists. split; [reflexivity|]. split; [lra|]. intros _. lra.
      - eexists. split; [reflexivity|]. split; [lra|]. intros _. lra.
      - eexists. split; [reflexivity|]. split; [lra|]. intros _. lra. }
    destruct Hep as (ep & -> & Hep0 & Hep1). cbn [bind].
    eexists. split; [reflexivity|]. split; [reflexivity|].
    cbn [score_performance thrust_penalty efficiency_penalty
         tip_speed_penalty price_score_component overall_score].
    assert (Hts : 0 <= (if 0.9 <=? m then 10.0 * (m - 0.9) else 0.0) /\
                  (m < 0.9 -> (if 0.9 <=? m then 10.0 * (m - 0.9) else 0.0)
                              = 0)).
    { unfold Rleb. destruct (Rle_dec 0.9 m); split; lra. }
    destruct Hts as (Hts0 & Hts1).
    set (ts := if 0.9 <=? m then 10.0 * (m - 0.9) else 0.0) in *.
    repeat (split; [first [assumption | lra | reflexivity]|]).
    lra. }
  split; [|exact Hpos].
  split.
  - intro H.
    destruct (Rle_dec rpm 0); [lra|].
    destruct (Rle_dec d 0); [lra|].
    destruct (Rle_dec p 0); [lra|].
    destruct Hpos as (perf & s & _ & Hs & _); try lra.
    rewrite Hs in H. discriminate.
  - intro H. unfold score_propeller.
    rewrite calculate_performance_raises by exact H. reflexivity.
Qed.

Lemma score_propeller_penalties_witness :
  exists perf s,
    calculate_performance 6000 10 5 2 10 = Ok perf /\
    score_propeller 6000 10 5 2 10 5 20 = Ok s /\
    score_performance s = perf /\
    0 <= thrust_penalty s /\
    0 <= efficiency_penalty s /\
    0 <= tip_speed_penalty s /\
    (5 <= calculated_thrust_N perf -> thrust_penalty s = 0) /\
    (10 <= 0 \/ air_speed_mps perf <= 10 -> efficiency_penalty s = 0) /\
    (tip_speed_mach perf < 0.9 -> tip_speed_penalty s = 0) /\
    price_score_component s = 20 * 0.001 /\
    overall_score s
    = thrust_penalty s + efficiency_penalty s * 0.5
      + tip_speed_penalty s * 2 + 20 * 0.001 /\
    20 * 0.001 <= overall_score s.
Proof.
  apply (proj2 (score_propeller_penalties 6000 10 5 2 10 5 20)); lra.
Defined.
